(** * openclaw-superpack: the superpack hook runner

    Shallow embedding of [src/plugins/superpack-hooks.ts] and the
    properties of its six invocation functions; further down, of the
    feature flags ([src/flags.ts]) and of the system prompt overlay.

    Modelling choices, all taken from the source:
    - JavaScript objects and arrays that the runner shares with its caller
      or with handlers live in a store and are passed by reference
      ([loc]): the event objects, the arrays of registrations, and the
      arrays of tools and of files that events and results refer to (the
      object built for a handler is a shallow copy: it refers to the same
      array as [current]);
    - a handler is a resumable computation (a promise): it runs in
      segments separated by suspension points and ends by returning a
      value or throwing; [await] runs it to its settlement;
    - exceptions are explicit: every runner function is a computation in
      a state-and-exception monad, [try]/[catch] is [tryCatch];
    - priorities are integers, as in the specification's data model
      ([priority ?? 0] is kept; [NaN], for which the comparator is not an
      order, is left out); handlers are assumed to settle. *)

From Stdlib Require Import ZArith String List Permutation Sorted Lia.
From stdpp Require Import base relations list strings.

Import ListNotations.
Local Open Scope string_scope.
Local Open Scope list_scope.

(** ** Hook names *)

Inductive SuperpackHookName : Type :=
  | system_prompt_tools_filter
  | system_prompt_skills_filter
  | system_prompt_footer
  | workspace_bootstrap_before
  | workspace_bootstrap_after
  | subagent_prompt_validate.

#[global] Instance SuperpackHookName_eq_dec : EqDecision SuperpackHookName.
Proof. solve_decision. Defined.

(** A reference to an object or an array in the store. *)
Definition loc := nat.

(** ** Event and result types

    A field that holds an array of tools or of files holds a reference. *)

Module ToolEntry.
Record t : Type := mk { name : string; description : option string }.
End ToolEntry.

Module SystemPromptToolsFilterEvent.
Record t : Type := mk
  { agentId : string; promptMode : string; tools : loc }.
End SystemPromptToolsFilterEvent.

Module SystemPromptToolsFilterResult.
Record t : Type := mk { tools : loc }.
End SystemPromptToolsFilterResult.

Module SystemPromptSkillsFilterEvent.
Record t : Type := mk
  { agentId : string; promptMode : string; skillsPrompt : string }.
End SystemPromptSkillsFilterEvent.

Module SystemPromptSkillsFilterResult.
Record t : Type := mk { skillsPrompt : string }.
End SystemPromptSkillsFilterResult.

Module SystemPromptFooterEvent.
Record t : Type := mk
  { agentId : string; promptMode : string; currentPrompt : string }.
End SystemPromptFooterEvent.

Module SystemPromptFooterResult.
Record t : Type := mk { append : string }.
End SystemPromptFooterResult.

Module BootstrapFile.
Record t : Type := mk { name : string; content : string }.
End BootstrapFile.

Module WorkspaceBootstrapBeforeEvent.
Record t : Type := mk
  { workspaceDir : string; files : loc; isNewWorkspace : bool }.
End WorkspaceBootstrapBeforeEvent.

Module WorkspaceBootstrapBeforeResult.
Record t : Type := mk { files : loc; skip : bool }.
End WorkspaceBootstrapBeforeResult.

Module WorkspaceBootstrapAfterEvent.
Record t : Type := mk
  { workspaceDir : string; filesWritten : list string; filesSkipped : list string }.
End WorkspaceBootstrapAfterEvent.

Module SubagentPromptValidateEvent.
Record t : Type := mk
  { agentId : string; parentAgentId : string; systemPrompt : string;
    sessionKey : string }.
End SubagentPromptValidateEvent.

Module SubagentPromptValidateResult.
Record t : Type := mk { block : bool; reason : option string }.
End SubagentPromptValidateResult.

(** An event object in the store: one of the six event shapes. *)
Inductive EventObject : Type :=
  | ToolsFilterEvent (e : SystemPromptToolsFilterEvent.t)
  | SkillsFilterEvent (e : SystemPromptSkillsFilterEvent.t)
  | FooterEvent (e : SystemPromptFooterEvent.t)
  | BootstrapBeforeEvent (e : WorkspaceBootstrapBeforeEvent.t)
  | BootstrapAfterEvent (e : WorkspaceBootstrapAfterEvent.t)
  | ValidateEvent (e : SubagentPromptValidateEvent.t).

(** What a handler hands back, as the runner probes it.  The runner never
    looks at a returned object as a whole: it reads fields by name
    ([result?.tools], ["skillsPrompt" in result], [result.skip], ...).  A
    field that the object does not carry is [None]; a handler that returns
    nothing ([void]) is [None] one level up. *)
Module HandlerResult.
Record t : Type := mk
  { tools : option loc;
    skillsPrompt : option string;
    append : option string;
    files : option loc;
    skip : option bool;
    block : option bool;
    reason : option string }.
End HandlerResult.

(** The typed results of the source, as handler return values. *)
Definition toolsFilterResult (r : SystemPromptToolsFilterResult.t) : HandlerResult.t :=
  HandlerResult.mk (Some (SystemPromptToolsFilterResult.tools r))
    None None None None None None.
Definition skillsFilterResult (r : SystemPromptSkillsFilterResult.t) : HandlerResult.t :=
  HandlerResult.mk None (Some (SystemPromptSkillsFilterResult.skillsPrompt r))
    None None None None None.
Definition footerResult (r : SystemPromptFooterResult.t) : HandlerResult.t :=
  HandlerResult.mk None None (Some (SystemPromptFooterResult.append r))
    None None None None.
Definition bootstrapBeforeResult (r : WorkspaceBootstrapBeforeResult.t) : HandlerResult.t :=
  HandlerResult.mk None None None
    (Some (WorkspaceBootstrapBeforeResult.files r))
    (Some (WorkspaceBootstrapBeforeResult.skip r)) None None.
Definition validateResult (r : SubagentPromptValidateResult.t) : HandlerResult.t :=
  HandlerResult.mk None None None None None
    (Some (SubagentPromptValidateResult.block r))
    (SubagentPromptValidateResult.reason r).

(** ** Completions, promises *)

(** How a call or an awaited promise ends: with a value, or with a thrown
    value (a rejection). *)
Inductive Completion (A : Type) : Type :=
  | Normal (a : A)
  | Throw (err : string).
Arguments Normal {A} a.
Arguments Throw {A} err.

(** A computation that may suspend: either it has settled, or it runs one
    more segment on the state it can reach and goes on. *)
Inductive Task (S R : Type) : Type :=
  | Settled (c : Completion R)
  | Suspend (effect : S -> S) (next : S -> Task S R).
Arguments Settled {S R} c.
Arguments Suspend {S R} effect next.

(** [await t] with nothing else running in between. *)
Fixpoint settle {S R} (t : Task S R) (s : S) : Completion R * S :=
  match t with
  | Settled c => (c, s)
  | Suspend effect next => settle (next s) (effect s)
  end.

Definition isSettled {S R} (t : Task S R) : bool :=
  match t with Settled _ => true | Suspend _ _ => false end.

(** [async () => { try { await t } catch {} }]: the segments of [t], then
    fulfilled whatever [t] did. *)
Fixpoint swallow {S R} (t : Task S R) : Task S unit :=
  match t with
  | Settled _ => Settled (Normal tt)
  | Suspend effect next => Suspend effect (fun s => swallow (next s))
  end.

(** Runs that share one state and are not awaited one by one: a step runs
    the next segment of one of the runs that have not settled. *)
Inductive PoolStep {S R} : list (Task S R) * S -> list (Task S R) * S -> Prop :=
  | PoolStep_segment ps i effect next st :
      ps !! i = Some (Suspend effect next) ->
      PoolStep (ps, st) (<[i := next st]> ps, effect st).

(** Some interleaving of segments leads from the first pool and state to
    the second. *)
Definition Interleaved {S R} : list (Task S R) * S -> list (Task S R) * S -> Prop :=
  rtc PoolStep.

(** ** Sorting *)

(** [Array.prototype.sort(compareFn)] is stable: an element moves in front
    of an earlier one only when [compareFn] puts it strictly first. *)
Fixpoint insertSorted {T} (compareFn : T -> T -> Z) (x : T) (l : list T) : list T :=
  match l with
  | [] => [x]
  | y :: l' =>
      if (compareFn x y <=? 0)%Z then x :: y :: l'
      else y :: insertSorted compareFn x l'
  end.

Definition sorted {T} (compareFn : T -> T -> Z) (l : list T) : list T :=
  foldr (insertSorted compareFn) [] l.

(** JavaScript truthiness of a field that may be absent. *)
Definition truthyString (v : option string) : bool :=
  match v with Some s => negb (String.eqb s "") | None => false end.
Definition truthyBool (v : option bool) : bool :=
  match v with Some b => b | None => false end.

(** [parts.join("\n")] *)
Definition newline : string := String (Ascii.ascii_of_nat 10) EmptyString.
Definition join (parts : list string) : string := String.concat newline parts.

Section Runner.

(** Whatever else handlers can observe and change (logs, files, ...). *)
Context {World : Type}.

(** What handlers can reach besides the object they are handed: the arrays
    of tools and of files (through the references in events and results,
    or kept from earlier), and whatever else they observe and change.  A
    handler builds an array by appending it.  An array is kept with the
    contents of its elements; a handler that changes an element object
    changes, in one effect, every array that holds it. *)
Record Memory : Type := mkMemory
  { toolArrays : list (list ToolEntry.t);
    fileArrays : list (list BootstrapFile.t);
    world : World }.

(** A handler sees the event object it was handed and the memory; it can
    mutate both.  It has no reference to the runner's own arrays of
    registrations and variables. *)
Definition Handler : Type := Task (EventObject * Memory) (option HandlerResult.t).

Record HookRegistration : Type := mkRegistration
  { hookName : SuperpackHookName;
    handler : Handler;
    priority : option Z }.

(** History of the awaited handler calls [await hook.handler(arg)]: who
    was called, on which object, what the object and the memory held when
    the call was made and when it settled, and how the call ended. *)
Record Call : Type := mkCall
  { callee : HookRegistration;
    argRef : loc;
    argAtCall : EventObject;
    memoryAtCall : Memory;
    outcome : Completion (option HandlerResult.t);
    argAfterCall : EventObject;
    memoryAfterCall : Memory }.

(** History of the calls that are not awaited one by one
    ([runWorkspaceBootstrapAfter]): the i-th promise was created by calling
    a handler, was resumed, has settled. *)
Inductive Activity : Type :=
  | Started (i : nat) (who : HookRegistration) (arg : loc)
  | Resumed (i : nat)
  | Finished (i : nat).

(** The store.  [arrays] (the arrays of registrations), [objects] (the
    event objects) and [memory] are what the program and the handlers
    work on: a location is an index, allocation appends.  [calls] and
    [activity] are the recorded history; only the runner's call sites
    write them and nothing reads them. *)
Record State : Type := mkState
  { arrays : list (list HookRegistration);
    objects : list EventObject;
    memory : Memory;
    calls : list Call;
    activity : list Activity }.

Definition setArrays (f : list (list HookRegistration) -> list (list HookRegistration))
  (s : State) : State :=
  mkState (f (arrays s)) (objects s) (memory s) (calls s) (activity s).
Definition setObjects (f : list EventObject -> list EventObject) (s : State) : State :=
  mkState (arrays s) (f (objects s)) (memory s) (calls s) (activity s).
Definition setMemory (w : Memory) (s : State) : State :=
  mkState (arrays s) (objects s) w (calls s) (activity s).
Definition logCall (c : Call) (s : State) : State :=
  mkState (arrays s) (objects s) (memory s) (calls s ++ [c]) (activity s).
Definition logActivity (a : Activity) (s : State) : State :=
  mkState (arrays s) (objects s) (memory s) (calls s) (activity s ++ [a]).

(** *** The monad of runner code *)

Definition M (A : Type) : Type := State -> Completion A * State.

Definition ret {A} (a : A) : M A := fun s => (Normal a, s).
Definition throw {A} (err : string) : M A := fun s => (Throw err, s).
Definition bind {A B} (m : M A) (k : A -> M B) : M B :=
  fun s => match m s with
           | (Normal a, s') => k a s'
           | (Throw err, s') => (Throw err, s')
           end.
Definition tryCatch {A} (body : M A) (handle : string -> M A) : M A :=
  fun s => match body s with
           | (Normal a, s') => (Normal a, s')
           | (Throw err, s') => handle err s'
           end.

Notation "'let*' x ':=' m 'in' k" := (bind m (fun x => k))
  (at level 10, x name, m at level 100, k at level 200).
Notation "'let*' ' pat ':=' m 'in' k" :=
  (bind m (fun x => match x with pat => k end))
  (at level 10, pat pattern, m at level 100, k at level 200).

(** *** Arrays of registrations *)

Definition readArray (a : loc) : M (list HookRegistration) :=
  fun s => match arrays s !! a with
           | Some xs => (Normal xs, s)
           | None => (Throw "TypeError", s)
           end.
Definition allocArray (xs : list HookRegistration) : M loc :=
  fun s => (Normal (length (arrays s)), setArrays (fun h => h ++ [xs]) s).
Definition writeArray (a : loc) (xs : list HookRegistration) : M unit :=
  fun s => (Normal tt, setArrays (fun h => <[a := xs]> h) s).

(** [a.filter(p)] builds a new array. *)
Definition array_filter (p : HookRegistration -> bool) (a : loc) : M loc :=
  let* xs := readArray a in allocArray (List.filter p xs).
(** [[...a]] builds a new array. *)
Definition array_spread (a : loc) : M loc :=
  let* xs := readArray a in allocArray xs.
(** [a.sort(compareFn)] sorts [a] itself and returns it. *)
Definition array_sort (compareFn : HookRegistration -> HookRegistration -> Z)
  (a : loc) : M loc :=
  let* xs := readArray a in
  let* _ := writeArray a (sorted compareFn xs) in
  ret a.
(** [a.some(p)] *)
Definition array_some (p : HookRegistration -> bool) (a : loc) : M bool :=
  let* xs := readArray a in ret (existsb p xs).

(** [(a, b) => (b.priority ?? 0) - (a.priority ?? 0)] *)
Definition comparePriority (a b : HookRegistration) : Z :=
  (default 0 (priority b) - default 0 (priority a))%Z.

Definition sortByPriority (hooks : loc) : M loc :=
  let* copy := array_spread hooks in
  array_sort comparePriority copy.

Definition getHooks (registrations : loc) (name : SuperpackHookName) : M loc :=
  let* matching :=
    array_filter (fun r => bool_decide (hookName r = name)) registrations in
  sortByPriority matching.

(** *** Event objects and handler calls *)

Definition readObject (l : loc) : M EventObject :=
  fun s => match objects s !! l with
           | Some o => (Normal o, s)
           | None => (Throw "TypeError", s)
           end.
Definition allocObject (o : EventObject) : M loc :=
  fun s => (Normal (length (objects s)), setObjects (fun h => h ++ [o]) s).

Definition asToolsFilterEvent (l : loc) : M SystemPromptToolsFilterEvent.t :=
  let* o := readObject l in
  match o with ToolsFilterEvent e => ret e | _ => throw "TypeError" end.
Definition asSkillsFilterEvent (l : loc) : M SystemPromptSkillsFilterEvent.t :=
  let* o := readObject l in
  match o with SkillsFilterEvent e => ret e | _ => throw "TypeError" end.
Definition asBootstrapBeforeEvent (l : loc) : M WorkspaceBootstrapBeforeEvent.t :=
  let* o := readObject l in
  match o with BootstrapBeforeEvent e => ret e | _ => throw "TypeError" end.

(** [await hook.handler(arg)]: the handler runs to its settlement on the
    object behind [arg] and on the memory; a rejection is thrown at the
    [await]. *)
Definition awaitHandler (hook : HookRegistration) (arg : loc)
  : M (option HandlerResult.t) :=
  fun s => match objects s !! arg with
           | None => (Throw "TypeError", s)
           | Some o =>
               let '(c, (o', w')) := settle (handler hook) (o, memory s) in
               (c, logCall (mkCall hook arg o (memory s) c o' w')
                     (setMemory w' (setObjects (fun h => <[arg := o']> h) s)))
           end.

(** *** Promises that are not awaited one by one *)

(** The promise of [async (hook) => { try { await hook.handler(event) } catch {} }]. *)
Definition Promise : Type := Task (EventObject * Memory) unit.

Definition applyEffect (arg : loc) (o : EventObject)
  (effect : EventObject * Memory -> EventObject * Memory) (s : State) : State :=
  let '(o', w') := effect (o, memory s) in
  setMemory w' (setObjects (fun h => <[arg := o']> h) s).

(** One segment of a promise whose handler was handed [arg].  (No object
    behind [arg]: the handler's access fails inside the wrapper's [try].) *)
Definition runSegment (arg : loc) (p : Promise) (s : State) : Promise * State :=
  match p with
  | Settled c => (Settled c, s)
  | Suspend effect next =>
      match objects s !! arg with
      | None => (Settled (Normal tt), s)
      | Some o => (next (o, memory s), applyEffect arg o effect s)
      end
  end.

Definition noteSettled (i : nat) (p : Promise) (s : State) : State :=
  if isSettled p then logActivity (Finished i) s else s.

(** Calling the async arrow function: it runs up to its first suspension
    and returns its promise; the call itself never throws. *)
Definition startWrapper (event : loc) (i : nat) (hook : HookRegistration) : M Promise :=
  fun s =>
    let '(p, s') := runSegment event (swallow (handler hook))
                      (logActivity (Started i hook event) s) in
    (Normal p, noteSettled i p s').

(** [hooks.map(async (hook) => ...)] *)
Fixpoint startAll (event : loc) (i : nat) (hooks : list HookRegistration)
  : M (list Promise) :=
  match hooks with
  | [] => ret []
  | hook :: rest =>
      let* p := startWrapper event i hook in
      let* ps := startAll event (S i) rest in
      ret (p :: ps)
  end.

(** The event loop resumes the pending promise number [i]. *)
Definition wake (event : loc) (i : nat) (ps : list Promise) : M (list Promise) :=
  fun s =>
    match ps !! i with
    | Some (Suspend effect next) =>
        let '(p', s') := runSegment event (Suspend effect next)
                           (logActivity (Resumed i) s) in
        (Normal (<[i := p']> ps), noteSettled i p' s')
    | _ => (Normal ps, s)
    end.

(** The first rejected promise, if any. *)
Fixpoint rejection (ps : list Promise) : option string :=
  match ps with
  | [] => None
  | Settled (Throw err) :: _ => Some err
  | _ :: rest => rejection rest
  end.

(** A pending promise resumed until it settles. *)
Fixpoint settleOn (event : loc) (i : nat) (p : Promise) (s : State)
  : Completion unit * State :=
  match p with
  | Settled c => (c, logActivity (Finished i) s)
  | Suspend effect next =>
      match objects s !! event with
      | None => (Normal tt, logActivity (Finished i) (logActivity (Resumed i) s))
      | Some o =>
          settleOn event i (next (o, memory s))
            (applyEffect event o effect (logActivity (Resumed i) s))
      end
  end.

Fixpoint settleRest (event : loc) (i : nat) (ps : list Promise) : M unit :=
  match ps with
  | [] => ret tt
  | Settled (Normal _) :: rest => settleRest event (S i) rest
  | Settled (Throw err) :: _ => throw err
  | Suspend effect next :: rest =>
      let* _ := settleOn event i (Suspend effect next) in
      settleRest event (S i) rest
  end.

(** [await Promise.all(ps)].  While the runner waits, the event loop
    resumes the pending promises in an order the runner does not control:
    [schedule] lists its choices; when the list ends the promises still
    pending are resumed in turn.  [Promise.all] rejects as soon as one
    promise has rejected and is fulfilled once all are. *)
Fixpoint promiseAll (event : loc) (schedule : list nat) (ps : list Promise) : M unit :=
  match rejection ps with
  | Some err => throw err
  | None =>
      if forallb isSettled ps then ret tt
      else match schedule with
           | i :: schedule' =>
               let* ps' := wake event i ps in
               promiseAll event schedule' ps'
           | [] => settleRest event 0 ps
           end
  end.

(** *** The runner *)

Section createSuperpackHookRunner.

Variable registrations : loc.

(** Sequential modifying: tools filter.  [{ ...event, tools: current }] is
    a new object that refers to the array [current] refers to. *)
Fixpoint toolsFilterLoop (event : loc) (hooks : list HookRegistration)
  (current : loc) : M loc :=
  match hooks with
  | [] => ret current
  | hook :: rest =>
      let* current' :=
        tryCatch
          (let* e := asToolsFilterEvent event in
           let* arg := allocObject (ToolsFilterEvent
                         (SystemPromptToolsFilterEvent.mk
                            (SystemPromptToolsFilterEvent.agentId e)
                            (SystemPromptToolsFilterEvent.promptMode e)
                            current)) in
           let* result := awaitHandler hook arg in
           match result ≫= HandlerResult.tools with
           | Some tools => ret tools
           | None => ret current
           end)
          (fun _ => ret current) in
      toolsFilterLoop event rest current'
  end.

Definition runSystemPromptToolsFilter (event : loc)
  : M SystemPromptToolsFilterResult.t :=
  let* hooks := getHooks registrations system_prompt_tools_filter in
  let* e := asToolsFilterEvent event in
  let current := SystemPromptToolsFilterEvent.tools e in
  let* hooks := readArray hooks in
  let* current := toolsFilterLoop event hooks current in
  ret (SystemPromptToolsFilterResult.mk current).

(** Sequential modifying: skills filter *)
Fixpoint skillsFilterLoop (event : loc) (hooks : list HookRegistration)
  (current : string) : M string :=
  match hooks with
  | [] => ret current
  | hook :: rest =>
      let* current' :=
        tryCatch
          (let* e := asSkillsFilterEvent event in
           let* arg := allocObject (SkillsFilterEvent
                         (SystemPromptSkillsFilterEvent.mk
                            (SystemPromptSkillsFilterEvent.agentId e)
                            (SystemPromptSkillsFilterEvent.promptMode e)
                            current)) in
           let* result := awaitHandler hook arg in
           match result ≫= HandlerResult.skillsPrompt with
           | Some skillsPrompt => ret skillsPrompt
           | None => ret current
           end)
          (fun _ => ret current) in
      skillsFilterLoop event rest current'
  end.

Definition runSystemPromptSkillsFilter (event : loc)
  : M SystemPromptSkillsFilterResult.t :=
  let* hooks := getHooks registrations system_prompt_skills_filter in
  let* e := asSkillsFilterEvent event in
  let current := SystemPromptSkillsFilterEvent.skillsPrompt e in
  let* hooks := readArray hooks in
  let* current := skillsFilterLoop event hooks current in
  ret (SystemPromptSkillsFilterResult.mk current).

(** Sequential accumulating: footer *)
Fixpoint footerLoop (event : loc) (hooks : list HookRegistration)
  (parts : list string) : M (list string) :=
  match hooks with
  | [] => ret parts
  | hook :: rest =>
      let* parts' :=
        tryCatch
          (let* result := awaitHandler hook event in
           let append := result ≫= HandlerResult.append in
           if truthyString append then ret (parts ++ [default "" append])
           else ret parts)
          (fun _ => ret parts) in
      footerLoop event rest parts'
  end.

Definition runSystemPromptFooter (event : loc) : M SystemPromptFooterResult.t :=
  let* hooks := getHooks registrations system_prompt_footer in
  let* hooks := readArray hooks in
  let* parts := footerLoop event hooks [] in
  ret (SystemPromptFooterResult.mk (join parts)).

(** Sequential modifying: workspace bootstrap before.  Here too the new
    object refers to the array [currentFiles] refers to. *)
Fixpoint bootstrapBeforeLoop (event : loc) (hooks : list HookRegistration)
  (currentFiles : loc) (skip : bool) : M (loc * bool) :=
  match hooks with
  | [] => ret (currentFiles, skip)
  | hook :: rest =>
      let* '(currentFiles', skip') :=
        tryCatch
          (let* e := asBootstrapBeforeEvent event in
           let* arg := allocObject (BootstrapBeforeEvent
                         (WorkspaceBootstrapBeforeEvent.mk
                            (WorkspaceBootstrapBeforeEvent.workspaceDir e)
                            currentFiles
                            (WorkspaceBootstrapBeforeEvent.isNewWorkspace e))) in
           let* result := awaitHandler hook arg in
           match result with
           | Some result =>
               ret (default currentFiles (HandlerResult.files result),
                    if truthyBool (HandlerResult.skip result) then true else skip)
           | None => ret (currentFiles, skip)
           end)
          (fun _ => ret (currentFiles, skip)) in
      bootstrapBeforeLoop event rest currentFiles' skip'
  end.

Definition runWorkspaceBootstrapBefore (event : loc)
  : M WorkspaceBootstrapBeforeResult.t :=
  let* hooks := getHooks registrations workspace_bootstrap_before in
  let* e := asBootstrapBeforeEvent event in
  let currentFiles := WorkspaceBootstrapBeforeEvent.files e in
  let skip := false in
  let* hooks := readArray hooks in
  let* '(currentFiles, skip) := bootstrapBeforeLoop event hooks currentFiles skip in
  ret (WorkspaceBootstrapBeforeResult.mk currentFiles skip).

(** Fire-and-forget: workspace bootstrap after *)
Definition runWorkspaceBootstrapAfter (event : loc) (schedule : list nat) : M unit :=
  let* hooks := getHooks registrations workspace_bootstrap_after in
  let* hooks := readArray hooks in
  let* promises := startAll event 0 hooks in
  promiseAll event schedule promises.

(** Sequential blocking: subagent prompt validate *)
Fixpoint validateLoop (event : loc) (hooks : list HookRegistration)
  : M SubagentPromptValidateResult.t :=
  match hooks with
  | [] => ret (SubagentPromptValidateResult.mk false None)
  | hook :: rest =>
      let* returned :=
        tryCatch
          (let* result := awaitHandler hook event in
           if truthyBool (result ≫= HandlerResult.block)
           then ret (Some (SubagentPromptValidateResult.mk true
                             (result ≫= HandlerResult.reason)))
           else ret None)
          (fun _ => ret None) in
      match returned with
      | Some r => ret r
      | None => validateLoop event rest
      end
  end.

Definition runSubagentPromptValidate (event : loc)
  : M SubagentPromptValidateResult.t :=
  let* hooks := getHooks registrations subagent_prompt_validate in
  let* hooks := readArray hooks in
  validateLoop event hooks.

(** Utility *)
Definition hasHooks (name : SuperpackHookName) : M bool :=
  array_some (fun r => bool_decide (hookName r = name)) registrations.

End createSuperpackHookRunner.

Record SuperpackHookRunner : Type := mkRunner
  { runner_runSystemPromptToolsFilter : loc -> M SystemPromptToolsFilterResult.t;
    runner_runSystemPromptSkillsFilter : loc -> M SystemPromptSkillsFilterResult.t;
    runner_runSystemPromptFooter : loc -> M SystemPromptFooterResult.t;
    runner_runWorkspaceBootstrapBefore : loc -> M WorkspaceBootstrapBeforeResult.t;
    runner_runWorkspaceBootstrapAfter : loc -> list nat -> M unit;
    runner_runSubagentPromptValidate : loc -> M SubagentPromptValidateResult.t;
    runner_hasHooks : SuperpackHookName -> M bool }.

Definition createSuperpackHookRunner (registrations : loc) : SuperpackHookRunner :=
  mkRunner
    (runSystemPromptToolsFilter registrations)
    (runSystemPromptSkillsFilter registrations)
    (runSystemPromptFooter registrations)
    (runWorkspaceBootstrapBefore registrations)
    (runWorkspaceBootstrapAfter registrations)
    (runSubagentPromptValidate registrations)
    (hasHooks registrations).

(** ** Vocabulary of the properties *)

Definition effectivePriority (r : HookRegistration) : Z := default 0%Z (priority r).

(** The registrations for [name], in the order of the caller's list. *)
Definition matching (name : SuperpackHookName) (regs : list HookRegistration)
  : list HookRegistration :=
  List.filter (fun r => bool_decide (hookName r = name)) regs.

(** The contents of the array that [getHooks] returns. *)
Definition hooksFor (name : SuperpackHookName) (regs : list HookRegistration)
  : list HookRegistration :=
  sorted comparePriority (matching name regs).

(** What was logged between two states. *)
Definition newCalls (s s' : State) : list Call := drop (length (calls s)) (calls s').

(** A logged call is the run of its callee's handler, from the object and
    memory it was given to the object and memory it left. *)
Definition genuine (c : Call) : Prop :=
  settle (handler (callee c)) (argAtCall c, memoryAtCall c)
  = (outcome c, (argAfterCall c, memoryAfterCall c)).

(** Model (a) in the words of the specification: [current] starts as the
    event's mutable field; each handler in turn is called on a new object
    built from [current] ([mkArg current], at the next free location); its
    outcome updates [current] ([update]), and the next handler starts in
    the memory this one left.  ([current] is a string for the skills
    prompt and a reference for tools and files.) *)
Inductive Chain {V : Type} (mkArg : V -> EventObject)
  (update : V -> Completion (option HandlerResult.t) -> V)
  : loc -> Memory -> V -> list HookRegistration -> list Call -> Memory -> V -> Prop :=
  | Chain_done n w current : Chain mkArg update n w current [] [] w current
  | Chain_call n w current hook hooks c cs w' final :
      callee c = hook ->
      argRef c = n ->
      argAtCall c = mkArg current ->
      memoryAtCall c = w ->
      genuine c ->
      Chain mkArg update (S n) (memoryAfterCall c) (update current (outcome c))
        hooks cs w' final ->
      Chain mkArg update n w current (hook :: hooks) (c :: cs) w' final.

(** Handlers called one after the other on the same object [event]: each
    finds the object and the memory as the one before left them. *)
Inductive Handed (event : loc)
  : EventObject -> Memory -> list HookRegistration -> list Call
    -> EventObject -> Memory -> Prop :=
  | Handed_done o w : Handed event o w [] [] o w
  | Handed_call o w hook hooks c cs o' w' :
      callee c = hook ->
      argRef c = event ->
      argAtCall c = o ->
      memoryAtCall c = w ->
      genuine c ->
      Handed event (argAfterCall c) (memoryAfterCall c) hooks cs o' w' ->
      Handed event o w (hook :: hooks) (c :: cs) o' w'.

(** The value a settled call returned, if it returned one. *)
Definition returned (out : Completion (option HandlerResult.t)) : option HandlerResult.t :=
  match out with Normal result => result | Throw _ => None end.

(** "If the handler's result contains that field, current is replaced by
    its value; if the handler throws or returns nothing, current is left
    unchanged." *)
Definition replaceBy {V : Type} (field : HandlerResult.t -> option V)
  (current : V) (out : Completion (option HandlerResult.t)) : V :=
  default current (returned out ≫= field).

Definition toolsArg (e : SystemPromptToolsFilterEvent.t) (current : loc)
  : EventObject :=
  ToolsFilterEvent (SystemPromptToolsFilterEvent.mk
    (SystemPromptToolsFilterEvent.agentId e)
    (SystemPromptToolsFilterEvent.promptMode e) current).
Definition skillsArg (e : SystemPromptSkillsFilterEvent.t) (current : string)
  : EventObject :=
  SkillsFilterEvent (SystemPromptSkillsFilterEvent.mk
    (SystemPromptSkillsFilterEvent.agentId e)
    (SystemPromptSkillsFilterEvent.promptMode e) current).
Definition filesArg (e : WorkspaceBootstrapBeforeEvent.t) (current : loc)
  : EventObject :=
  BootstrapBeforeEvent (WorkspaceBootstrapBeforeEvent.mk
    (WorkspaceBootstrapBeforeEvent.workspaceDir e) current
    (WorkspaceBootstrapBeforeEvent.isNewWorkspace e)).

(** A non-throwing call that returned a result with [skip] true. *)
Definition setsSkip (c : Call) : bool :=
  truthyBool (returned (outcome c) ≫= HandlerResult.skip).

(** The non-empty fragment a call contributed to the footer, if any. *)
Definition fragment (c : Call) : option string :=
  match returned (outcome c) ≫= HandlerResult.append with
  | Some text => if String.eqb text "" then None else Some text
  | None => None
  end.

(** A call whose result has a truthy [block]. *)
Definition blocks (c : Call) : bool :=
  truthyBool (returned (outcome c) ≫= HandlerResult.block).
Definition reasonGiven (c : Call) : option string :=
  returned (outcome c) ≫= HandlerResult.reason.

(** [r] may come before [r']. *)
Definition noLower (r r' : HookRegistration) : Prop :=
  (effectivePriority r' <= effectivePriority r)%Z.

(** Descending priority along a list. *)
Definition descending (hooks : list HookRegistration) : Prop :=
  forall i j a b, hooks !! i = Some a -> hooks !! j = Some b -> i < j ->
    (effectivePriority b <= effectivePriority a)%Z.

(** The registrations of one priority, in order of appearance. *)
Definition withPriority (p : Z) (hooks : list HookRegistration) : list HookRegistration :=
  List.filter (fun r => Z.eqb (effectivePriority r) p) hooks.

(** Promises created, and promises settled, in a stretch of activity. *)
Definition started (log : list Activity) : list (nat * HookRegistration * loc) :=
  omap (fun a => match a with Started i who arg => Some (i, who, arg) | _ => None end) log.
Definition finished (log : list Activity) : list nat :=
  omap (fun a => match a with Finished i => Some i | _ => None end) log.

(** What a caller can ask of a runner. *)
Inductive Invocation : Type :=
  | InvokeToolsFilter (event : loc)
  | InvokeSkillsFilter (event : loc)
  | InvokeFooter (event : loc)
  | InvokeBootstrapBefore (event : loc)
  | InvokeBootstrapAfter (event : loc) (schedule : list nat)
  | InvokeValidate (event : loc)
  | InvokeHasHooks (name : SuperpackHookName).

(** The state a runner leaves after one invocation, whatever it returned. *)
Definition perform (runner : SuperpackHookRunner) (inv : Invocation) (s : State) : State :=
  match inv with
  | InvokeToolsFilter event => snd (runner_runSystemPromptToolsFilter runner event s)
  | InvokeSkillsFilter event => snd (runner_runSystemPromptSkillsFilter runner event s)
  | InvokeFooter event => snd (runner_runSystemPromptFooter runner event s)
  | InvokeBootstrapBefore event => snd (runner_runWorkspaceBootstrapBefore runner event s)
  | InvokeBootstrapAfter event schedule =>
      snd (runner_runWorkspaceBootstrapAfter runner event schedule s)
  | InvokeValidate event => snd (runner_runSubagentPromptValidate runner event s)
  | InvokeHasHooks name => snd (runner_hasHooks runner name s)
  end.

Definition performAll (runner : SuperpackHookRunner) (invs : list Invocation)
  (s : State) : State :=
  foldl (fun s inv => perform runner inv s) s invs.

(** The state after an awaited call on a newly built object, and after an
    awaited call on an object that was already there. *)
Definition afterFreshCall (c : Call) (s : State) : State :=
  logCall c (setMemory (memoryAfterCall c)
    (setObjects (fun h => h ++ [argAfterCall c]) s)).
Definition afterCallOn (event : loc) (c : Call) (s : State) : State :=
  logCall c (setMemory (memoryAfterCall c)
    (setObjects (fun h => <[event := argAfterCall c]> h) s)).

(** What a loop of awaited calls leaves behind: the calls are logged, the
    objects built for them are the only new objects, and nothing that
    existed before has changed. *)
Definition RanFresh (s : State) (cs : list Call) (s' : State) : Prop :=
  calls s' = calls s ++ cs
  /\ objects s' = objects s ++ map argAfterCall cs
  /\ arrays s' = arrays s
  /\ activity s' = activity s.

(** The same for calls on the one object [event]. *)
Definition RanOn (event : loc) (s : State) (cs : list Call) (s' : State) : Prop :=
  calls s' = calls s ++ cs
  /\ length (objects s') = length (objects s)
  /\ (forall l, l <> event -> objects s' !! l = objects s !! l)
  /\ arrays s' = arrays s
  /\ activity s' = activity s.

(** The state after [getHooks]: two new arrays, the filtered one and
    its sorted copy. *)
Definition afterGetHooks (name : SuperpackHookName) (regs : list HookRegistration)
  (s : State) : State :=
  setArrays (fun h => h ++ [matching name regs; hooksFor name regs]) s.

(** Model (d) in the words of the specification: either no call blocked,
    every handler was tried and the result is the default; or the last
    call made is the first that blocked and gives the result its reason. *)
Definition Verdict (cs : list Call) (rest : list HookRegistration)
  (r : SubagentPromptValidateResult.t) : Prop :=
  (rest = [] /\ Forall (fun c => blocks c = false) cs
   /\ r = SubagentPromptValidateResult.mk false None)
  \/ (exists cs0 c, cs = cs0 ++ [c] /\ Forall (fun c => blocks c = false) cs0
      /\ blocks c = true
      /\ r = SubagentPromptValidateResult.mk true (reasonGiven c)).

(** A promise that can only be fulfilled. *)
Inductive Quiet : Promise -> Prop :=
  | Quiet_fulfilled : Quiet (Settled (Normal tt))
  | Quiet_pending effect next :
      (forall st, Quiet (next st)) -> Quiet (Suspend effect next).

(** How often promise [k] settled in a stretch of activity, and whether
    promise [k] of a pool has settled (1) or not (0). *)
Definition finishedCount (k : nat) (log : list Activity) : nat :=
  count_occ Nat.eq_dec (finished log) k.
Definition settledAt (ps : list Promise) (k : nat) : nat :=
  match ps !! k with Some (Settled _) => 1 | _ => 0 end.

(** Steps that leave the arrays, the call history and the list of created
    promises alone. *)
Definition Waited (s s' : State) : Prop :=
  arrays s' = arrays s /\ calls s' = calls s
  /\ started (activity s') = started (activity s)
  /\ length (objects s') = length (objects s).

(** Runner code that never changes an array. *)
Definition KeepsArrays {A} (m : M A) : Prop :=
  forall s, arrays (snd (m s)) = arrays s.

(** A call that ended by throwing. *)
Definition threw (c : Call) : Prop := exists err, outcome c = Throw err.

(** Nothing observable happened between two states. *)
Definition Untouched (s s' : State) : Prop :=
  calls s' = calls s /\ objects s' = objects s /\ memory s' = memory s
  /\ activity s' = activity s.

(** A handler that suspends once before it settles with [c]. *)
Definition pausing (c : Completion (option HandlerResult.t)) : Handler :=
  Suspend (fun st => st) (fun _ => Suspend (fun st => st) (fun _ => Settled c)).

(** A handler that leaves the event object it was handed as it found it
    (the specification's "immutable by contract"). *)
Definition readOnly (hook : HookRegistration) : Prop :=
  forall o w, fst (snd (settle (handler hook) (o, w))) = o.

(** A handler that settles within the call that starts it: it never
    suspends after its first segment. *)
Definition immediate (hook : HookRegistration) : Prop :=
  match handler hook with
  | Settled _ => True
  | Suspend _ next => forall st, isSettled (next st) = true
  end.

(** A call that left every array of tools and of files that existed when
    it was made as it was (it may have built new ones). *)
Definition sparesArrays (c : Call) : Prop :=
  (forall a xs, toolArrays (memoryAtCall c) !! a = Some xs ->
                toolArrays (memoryAfterCall c) !! a = Some xs)
  /\ (forall a xs, fileArrays (memoryAtCall c) !! a = Some xs ->
                   fileArrays (memoryAfterCall c) !! a = Some xs).

(** A call that brought back no value for [field]: it threw, returned
    nothing, or returned an object without the field. *)
Definition lacks {V : Type} (field : HandlerResult.t -> option V) (c : Call) : Prop :=
  returned (outcome c) ≫= field = None.

(** [c] is the last of the calls [cs] that brought back a value for
    [field], and [r] is that value. *)
Definition lastReturned {V : Type} (field : HandlerResult.t -> option V)
  (cs : list Call) (c : Call) (r : V) : Prop :=
  exists before after,
    cs = before ++ c :: after
    /\ returned (outcome c) ≫= field = Some r
    /\ Forall (lacks field) after.

End Runner.

(** ** Sample plugins

    The handlers of the repository's tests, with a log of the handlers
    that ran as the world. *)

Module Sample.

Definition World : Type := list string.

(** What the sample handlers do to the memory: write a line of the log,
    build an array, change an array in place. *)
Definition say (text : string) (m : @Memory World) : @Memory World :=
  mkMemory (toolArrays m) (fileArrays m) (world m ++ [text]).
Definition newTools (xs : list ToolEntry.t) (m : @Memory World) : loc * @Memory World :=
  (length (toolArrays m), mkMemory (toolArrays m ++ [xs]) (fileArrays m) (world m)).
Definition newFiles (xs : list BootstrapFile.t) (m : @Memory World)
  : loc * @Memory World :=
  (length (fileArrays m), mkMemory (toolArrays m) (fileArrays m ++ [xs]) (world m)).
Definition setTools (a : loc) (xs : list ToolEntry.t) (m : @Memory World)
  : @Memory World :=
  mkMemory (<[a := xs]> (toolArrays m)) (fileArrays m) (world m).
Definition setFiles (a : loc) (xs : list BootstrapFile.t) (m : @Memory World)
  : @Memory World :=
  mkMemory (toolArrays m) (<[a := xs]> (fileArrays m)) (world m).

(** A handler without suspension points. *)
Definition sync
  (body : EventObject -> @Memory World
          -> Completion (option HandlerResult.t) * EventObject * @Memory World)
  : @Handler World :=
  Suspend (fun st => let '(_, o, m) := body (fst st) (snd st) in (o, m))
          (fun st => Settled (let '(c, _, _) := body (fst st) (snd st) in c)).

(** [async () => { throw new Error("boom") }] *)
Definition boom : @Handler World :=
  sync (fun o m => (Throw "boom", o, say "boom" m)).

(** A handler that returns nothing. *)
Definition silent : @Handler World :=
  sync (fun o m => (Normal None, o, say "silent" m)).

Definition withoutExec (tools : list ToolEntry.t) : list ToolEntry.t :=
  List.filter (fun t => negb (String.eqb (ToolEntry.name t) "exec")) tools.

(** [async (event) => ({ tools: event.tools.filter((t) => t.name !== "exec") })] *)
Definition removeExec : @Handler World :=
  sync (fun o m =>
    match o with
    | ToolsFilterEvent e =>
        match toolArrays m !! SystemPromptToolsFilterEvent.tools e with
        | Some tools =>
            let '(a, m') := newTools (withoutExec tools) (say "A" m) in
            (Normal (Some (toolsFilterResult (SystemPromptToolsFilterResult.mk a))),
             o, m')
        | None => (Throw "TypeError", o, m)
        end
    | _ => (Throw "TypeError", o, m)
    end).

(** [async (event) => ({ tools: [...event.tools, { name: "custom", ... }] })];
    this one also scribbles on the event it was handed. *)
Definition addCustom : @Handler World :=
  sync (fun o m =>
    match o with
    | ToolsFilterEvent e =>
        match toolArrays m !! SystemPromptToolsFilterEvent.tools e with
        | Some tools =>
            let '(a, m') :=
              newTools (tools ++ [ToolEntry.mk "custom" (Some "added by B")])
                (say "B" m) in
            (Normal (Some (toolsFilterResult (SystemPromptToolsFilterResult.mk a))),
             ToolsFilterEvent (SystemPromptToolsFilterEvent.mk "scribbled" "scribbled"
                                 (SystemPromptToolsFilterEvent.tools e)),
             m')
        | None => (Throw "TypeError", o, m)
        end
    | _ => (Throw "TypeError", o, m)
    end).

(** [async (event) => { event.tools.push({ name: "x" }) }]: it changes the
    array it was handed in place and returns nothing. *)
Definition pushTool : @Handler World :=
  sync (fun o m =>
    match o with
    | ToolsFilterEvent e =>
        let a := SystemPromptToolsFilterEvent.tools e in
        match toolArrays m !! a with
        | Some tools =>
            (Normal None, o, setTools a (tools ++ [ToolEntry.mk "x" None]) (say "push" m))
        | None => (Throw "TypeError", o, m)
        end
    | _ => (Throw "TypeError", o, m)
    end).

(** [async (event) => { event.files.length = 0; throw new Error("boom") }] *)
Definition clearFiles : @Handler World :=
  sync (fun o m =>
    match o with
    | BootstrapBeforeEvent e =>
        (Throw "boom", o,
         setFiles (WorkspaceBootstrapBeforeEvent.files e) [] (say "clear" m))
    | _ => (Throw "TypeError", o, m)
    end).

(** [async () => ({ skillsPrompt: "" })] *)
Definition stripSkills : @Handler World :=
  sync (fun o m =>
    (Normal (Some (skillsFilterResult (SystemPromptSkillsFilterResult.mk ""))), o,
     say "strip" m)).

(** [async () => ({ append: text })] *)
Definition footer (text : string) : @Handler World :=
  sync (fun o m =>
    (Normal (Some (footerResult (SystemPromptFooterResult.mk text))), o, say text m)).

(** [async (event) => ({ files: event.files.filter(...), skip })] *)
Definition dropTools (skip : bool) : @Handler World :=
  sync (fun o m =>
    match o with
    | BootstrapBeforeEvent e =>
        match fileArrays m !! WorkspaceBootstrapBeforeEvent.files e with
        | Some files =>
            let '(a, m') :=
              newFiles
                (List.filter
                   (fun f => negb (String.eqb (BootstrapFile.name f) "TOOLS.md")) files)
                (say (if skip then "skip" else "keep") m) in
            (Normal (Some (bootstrapBeforeResult
                             (WorkspaceBootstrapBeforeResult.mk a skip))), o, m')
        | None => (Throw "TypeError", o, m)
        end
    | _ => (Throw "TypeError", o, m)
    end).

(** [async () => ({ block, reason })] *)
Definition verdict (who : string) (block : bool) (reason : option string)
  : @Handler World :=
  sync (fun o m =>
    (Normal (Some (validateResult (SubagentPromptValidateResult.mk block reason))), o,
     say who m)).

(** A notification handler that awaits once: it logs, suspends, logs
    again, and then either returns or rejects. *)
Definition notify (who : string) (fails : bool) : @Handler World :=
  Suspend (fun st => (fst st, say (who ++ ":begin")%string (snd st)))
    (fun _ => Suspend (fun st => (fst st, say (who ++ ":end")%string (snd st)))
       (fun _ => Settled (if fails then Throw "boom" else Normal None))).

Definition registrations : list (@HookRegistration World) :=
  [ mkRegistration system_prompt_tools_filter addCustom (Some 5%Z);
    mkRegistration subagent_prompt_validate (verdict "C" true (Some "C also blocked it")) (Some 1%Z);
    mkRegistration system_prompt_footer (footer "B") (Some 5%Z);
    mkRegistration system_prompt_tools_filter boom (Some 7%Z);
    mkRegistration system_prompt_tools_filter removeExec (Some 10%Z);
    mkRegistration system_prompt_footer (footer "") (Some 7%Z);
    mkRegistration subagent_prompt_validate (verdict "B" true (Some "B blocked it")) (Some 5%Z);
    mkRegistration workspace_bootstrap_before (dropTools true) (Some 0%Z);
    mkRegistration system_prompt_skills_filter stripSkills None;
    mkRegistration workspace_bootstrap_after (notify "A" true) (Some 0%Z);
    mkRegistration workspace_bootstrap_before (dropTools false) (Some 0%Z);
    mkRegistration subagent_prompt_validate boom (Some 20%Z);
    mkRegistration system_prompt_footer (footer "A") (Some 10%Z);
    mkRegistration workspace_bootstrap_after (notify "B" false) (Some 0%Z);
    mkRegistration subagent_prompt_validate (verdict "A" false None) (Some 10%Z);
    mkRegistration system_prompt_footer boom (Some 1%Z);
    mkRegistration workspace_bootstrap_before silent (Some (-1)%Z) ].

(** Every handler throws. *)
Definition faulty : list (@HookRegistration World) :=
  map (fun name => mkRegistration name boom (Some 0%Z))
    [ system_prompt_tools_filter; system_prompt_skills_filter; system_prompt_footer;
      workspace_bootstrap_before; workspace_bootstrap_after; subagent_prompt_validate ].

(** Handlers that change the arrays they are handed. *)
Definition meddling : list (@HookRegistration World) :=
  [ mkRegistration system_prompt_tools_filter pushTool (Some 0%Z);
    mkRegistration workspace_bootstrap_before clearFiles (Some 0%Z) ].

Definition tools : list ToolEntry.t :=
  [ ToolEntry.mk "exec" (Some "Run shell commands");
    ToolEntry.mk "read" (Some "Read files") ].
Definition files : list BootstrapFile.t :=
  [ BootstrapFile.mk "AGENTS.md" "# Agents"; BootstrapFile.mk "TOOLS.md" "# Tools" ].

(** The events refer to array 0 of tools and array 0 of files. *)
Definition toolsEvent : SystemPromptToolsFilterEvent.t :=
  SystemPromptToolsFilterEvent.mk "main" "full" 0.
Definition skillsEvent : SystemPromptSkillsFilterEvent.t :=
  SystemPromptSkillsFilterEvent.mk "main" "full" "<available_skills/>".
Definition footerEvent : SystemPromptFooterEvent.t :=
  SystemPromptFooterEvent.mk "main" "full" "You are an assistant.".
Definition beforeEvent : WorkspaceBootstrapBeforeEvent.t :=
  WorkspaceBootstrapBeforeEvent.mk "/home/user/.openclaw/workspace" 0 true.
Definition afterEvent : WorkspaceBootstrapAfterEvent.t :=
  WorkspaceBootstrapAfterEvent.mk "/tmp/ws" ["AGENTS.md"] ["TOOLS.md"; "SOUL.md"].
Definition validateEvent : SubagentPromptValidateEvent.t :=
  SubagentPromptValidateEvent.mk "sub-1" "main" "whatever" "session-123".

(** Store: array 0 holds [registrations], array 1 holds [faulty], array 2
    is empty, array 3 holds [meddling]; objects 0 to 5 are the six events;
    the memory holds the array of tools and the array of files. *)
Definition store : @State World :=
  mkState [registrations; faulty; []; meddling]
    [ ToolsFilterEvent toolsEvent; SkillsFilterEvent skillsEvent;
      FooterEvent footerEvent; BootstrapBeforeEvent beforeEvent;
      BootstrapAfterEvent afterEvent; ValidateEvent validateEvent ]
    (mkMemory [tools] [files] []) [] [].

End Sample.


(** * Feature flags ([src/flags.ts])

    A string is the UTF-8 text of the JavaScript string.  Two things the
    module uses are not written in the repository and are parameters:
    [String.prototype.trim], and the property names that every object
    literal inherits from [Object.prototype] (the [in] operator finds
    those too). *)

Module Flags.

Definition FLAGS : list (string * string) :=
  [ ("dump_system_prompt", "Log full system prompt on every build");
    ("dump_system_prompt_diff", "Log diff when system prompt changes between runs");
    ("dump_bootstrap_files", "Log which workspace files loaded, filtered, injected");
    ("dump_skills_resolution", "Log skill discovery and <available_skills> content");
    ("dump_subagent_prompt", "Log full prompt for every subagent spawn with agentId");
    ("dump_tool_resolution", "Log which tools passed policy filter and why");
    ("dump_tool_calls", "Log every tool call name + params before execution");
    ("dump_tool_results", "Log tool results after execution");
    ("dump_sandbox_copy", "Log every file copied to subagent sandbox with content hash");
    ("dump_template_writes", "Log when template .md files are written or skipped");
    ("dump_hook_events", "Log every hook fired, handlers invoked, results returned");
    ("dump_hook_timing", "Log execution time for each hook handler");
    ("dump_llm_payload", "Log full LLM request payload (system + messages)");
    ("dump_llm_response", "Log full LLM response content") ].

(** [Object.keys(FLAGS)] *)
Definition ALL_FLAG_NAMES : list string := map fst FLAGS.

Definition PRESETS : list (string * list string) :=
  [ ("debug_prompts",
     [ "dump_system_prompt"; "dump_system_prompt_diff"; "dump_bootstrap_files";
       "dump_skills_resolution"; "dump_subagent_prompt" ]);
    ("debug_tools",
     [ "dump_tool_resolution"; "dump_tool_calls"; "dump_tool_results";
       "dump_hook_events" ]);
    ("debug_workspace",
     [ "dump_bootstrap_files"; "dump_sandbox_copy"; "dump_template_writes" ]);
    ("debug_hooks", [ "dump_hook_events"; "dump_hook_timing" ]);
    ("debug_llm", [ "dump_llm_payload"; "dump_llm_response" ]);
    ("debug_all", ALL_FLAG_NAMES) ].

(** [obj[key]] for a key the object literal itself defines. *)
Fixpoint own {V} (obj : list (string * V)) (key : string) : option V :=
  match obj with
  | [] => None
  | (k, v) :: rest => if String.eqb key k then Some v else own rest key
  end.

(** [s.split(",")] *)
Fixpoint splitComma (s : string) : list string :=
  match s with
  | EmptyString => [""]
  | String c s' =>
      match splitComma s' with
      | current :: rest =>
          if Ascii.eqb c (Ascii.ascii_of_nat 44) then "" :: current :: rest
          else String c current :: rest
      | [] => []
      end
  end.

(** [arr.includes(x)], [set.has(x)] *)
Definition includes (x : string) (l : list string) : bool := existsb (String.eqb x) l.

(** A [Set] of strings: its elements in insertion order. *)
Definition setAdd (result : list string) (f : string) : list string :=
  if includes f result then result else result ++ [f].

(** The module's variables and the two environment variables it reads. *)
Record State : Type := mkState
  { activeFlags : option (list string);
    configFlags : list string;
    configPreset : option string;
    SUPERPACK_PRESET : option string;
    SUPERPACK_FLAGS : option string }.

(** The host (or a test) assigns the environment variables. *)
Definition setEnv (preset flags : option string) (s : State) : State :=
  mkState (activeFlags s) (configFlags s) (configPreset s) preset flags.

Section Builtins.

Variable trim : string -> string.
Variable inherited : string -> bool.

(** [key in obj] *)
Definition hasProperty {V} (key : string) (obj : list (string * V)) : bool :=
  match own obj key with Some _ => true | None => inherited key end.

(** [for (const f of PRESETS[preset]) result.add(f)]; a member that the
    literal does not define itself is not a list of flags and cannot be
    iterated. *)
Definition addPreset (preset : string) (result : list string)
  : Completion (list string) :=
  match own PRESETS preset with
  | Some flags => Normal (foldl setAdd result flags)
  | None => Throw "TypeError"
  end.

Definition setConfigFlags (flags : option (list string)) (preset : option string)
  (s : State) : State :=
  mkState None
    (List.filter (fun f => hasProperty f FLAGS) (default [] flags))
    (if truthyString preset && hasProperty (default "" preset) PRESETS
     then preset else None)
    (SUPERPACK_PRESET s) (SUPERPACK_FLAGS s).

Definition resolve (s : State) : Completion (list string) * State :=
  match activeFlags s with
  | Some cached => (Normal cached, s)
  | None =>
      let result := [] in
      (* 1. Config preset *)
      match (if truthyString (configPreset s)
             then addPreset (default "" (configPreset s)) result
             else Normal result) with
      | Throw err => (Throw err, s)
      | Normal result =>
          (* 2. Config flags *)
          let result := foldl setAdd result (configFlags s) in
          (* 3. Env preset *)
          let envPreset := trim <$> SUPERPACK_PRESET s in
          match (if truthyString envPreset && hasProperty (default "" envPreset) PRESETS
                 then addPreset (default "" envPreset) result
                 else Normal result) with
          | Throw err => (Throw err, s)
          | Normal result =>
              (* 4. Env flags *)
              let envFlags := trim <$> SUPERPACK_FLAGS s in
              let result :=
                if truthyString envFlags
                then foldl (fun result raw =>
                              let f := trim raw in
                              if hasProperty f FLAGS then setAdd result f else result)
                       result (splitComma (default "" envFlags))
                else result in
              (Normal result,
               mkState (Some result) (configFlags s) (configPreset s)
                 (SUPERPACK_PRESET s) (SUPERPACK_FLAGS s))
          end
      end
  end.

Definition flag (name : string) (s : State) : Completion bool * State :=
  match resolve s with
  | (Normal set, s') => (Normal (includes name set), s')
  | (Throw err, s') => (Throw err, s')
  end.

Definition activeFlags_ (s : State) : Completion (list string) * State := resolve s.

Definition resetFlags (s : State) : State :=
  mkState None (configFlags s) (configPreset s) (SUPERPACK_PRESET s) (SUPERPACK_FLAGS s).

(** *** Vocabulary *)

(** The names that the four sources of [resolve] contribute. *)
Definition fromConfigPreset (s : State) : list string :=
  default [] (configPreset s ≫= own PRESETS).
Definition fromEnvPreset (s : State) : list string :=
  default [] (SUPERPACK_PRESET s ≫= fun v => own PRESETS (trim v)).
Definition fromEnvFlags (s : State) : list string :=
  match trim <$> SUPERPACK_FLAGS s with
  | Some v =>
      if String.eqb v "" then []
      else List.filter (fun f => hasProperty f FLAGS) (map trim (splitComma v))
  | None => []
  end.

(** The set that the four sources give, in the order in which [resolve]
    visits them. *)
Definition resolved (s : State) : list string :=
  foldl setAdd
    (foldl setAdd
       (foldl setAdd (foldl setAdd [] (fromConfigPreset s)) (configFlags s))
       (fromEnvPreset s))
    (fromEnvFlags s).

(** The state with the resolved set stored in the cache. *)
Definition cache (set : list string) (s : State) : State :=
  mkState (Some set) (configFlags s) (configPreset s)
    (SUPERPACK_PRESET s) (SUPERPACK_FLAGS s).

(** Every preset that is consulted names a preset the literal defines
    (not merely a name that objects inherit). *)
Definition presetsDefined (s : State) : Prop :=
  (forall p, configPreset s = Some p -> p <> "" -> is_Some (own PRESETS p))
  /\ (forall v, SUPERPACK_PRESET s = Some v -> inherited (trim v) = true ->
        trim v = "" \/ is_Some (own PRESETS (trim v))).

(** Names that pass the [in FLAGS] test, and sets of such names. *)
Definition known (f : string) : Prop := hasProperty f FLAGS = true.
Definition wellFormed (s : State) : Prop :=
  Forall known (configFlags s)
  /\ forall set, activeFlags s = Some set -> NoDup set /\ Forall known set.

(** A use of the module by the rest of the program. *)
Inductive Action : Type :=
| SetConfigFlags (flags : option (list string)) (preset : option string)
| Flag (name : string)
| ActiveFlags
| ResetFlags
| SetEnv (preset flags : option string).

Definition act (a : Action) (s : State) : State :=
  match a with
  | SetConfigFlags flags preset => setConfigFlags flags preset s
  | Flag name => snd (flag name s)
  | ActiveFlags => snd (activeFlags_ s)
  | ResetFlags => resetFlags s
  | SetEnv preset flags => setEnv preset flags s
  end.

Definition run (actions : list Action) (s : State) : State :=
  foldl (fun s a => act a s) s actions.

(** The module as loaded, in a process with the given environment. *)
Definition initial (preset flags : option string) : State :=
  mkState None [] None preset flags.

End Builtins.

End Flags.

(** A host for the examples: [trim] on UTF-8 text, and the property names
    of [Object.prototype]. *)
Module Host.

(** White space and line terminators of one, two and three bytes. *)
Definition ws1 (a : nat) : bool := (9 <=? a)%nat && (a <=? 13)%nat || (a =? 32)%nat.
Definition ws2 (a b : nat) : bool := (a =? 194)%nat && (b =? 160)%nat.
Definition ws3 (a b c : nat) : bool :=
  (a =? 225)%nat && (b =? 154)%nat && (c =? 128)%nat
  || (a =? 226)%nat && (b =? 128)%nat
     && ((128 <=? c)%nat && (c <=? 138)%nat || (c =? 168)%nat || (c =? 169)%nat
         || (c =? 175)%nat)
  || (a =? 226)%nat && (b =? 129)%nat && (c =? 159)%nat
  || (a =? 227)%nat && (b =? 128)%nat && (c =? 128)%nat
  || (a =? 239)%nat && (b =? 187)%nat && (c =? 191)%nat.

(** Drop leading white space; with [back], the bytes come last first. *)
Fixpoint strip (back : bool) (l : list nat) : list nat :=
  match l with
  | [] => []
  | a :: l1 =>
      if ws1 a then strip back l1
      else match l1 with
           | [] => l
           | b :: l2 =>
               if (if back then ws2 b a else ws2 a b) then strip back l2
               else match l2 with
                    | [] => l
                    | c :: l3 =>
                        if (if back then ws3 c b a else ws3 a b c)
                        then strip back l3 else l
                    end
           end
  end.

Definition trim (s : string) : string :=
  string_of_list_ascii
    (map Ascii.ascii_of_nat
       (rev (strip true (rev (strip false
          (map Ascii.nat_of_ascii (list_ascii_of_string s))))))).

Definition inherited (key : string) : bool :=
  Flags.includes key
    [ "constructor"; "hasOwnProperty"; "isPrototypeOf"; "propertyIsEnumerable";
      "toLocaleString"; "toString"; "valueOf"; "__proto__";
      "__defineGetter__"; "__defineSetter__"; "__lookupGetter__"; "__lookupSetter__" ].

Definition flag := Flags.flag trim inherited.
Definition activeFlags_ := Flags.activeFlags_ trim inherited.
Definition setConfigFlags := Flags.setConfigFlags inherited.
Definition run := Flags.run trim inherited.

End Host.


(** * The system prompt ([src/agents/system-prompt.ts] of the overlay)

    [trim], [toLowerCase] and the members that the empty object literal
    [{}] answers for are parameters.  The calls of [diagList] and
    [diagDump] are recorded in order with their arguments (the bytes they
    write to the error stream carry the time of day). *)

Module SystemPrompt.

Inductive PromptMode : Type := full | minimal | none.

(** [`${promptMode}`] *)
Definition promptModeText (mode : PromptMode) : string :=
  match mode with full => "full" | minimal => "minimal" | none => "none" end.

Record RuntimeInfo : Type := mkRuntimeInfo
  { agentId : option string;
    host : option string;
    os : option string;
    arch : option string;
    node : option string;
    model : option string;
    defaultModel : option string;
    shell : option string;
    channel : option string;
    capabilities : option (list string);
    repoRoot : option string }.

Record EmbeddedContextFile : Type := mkEmbeddedContextFile
  { path : option string;
    content : option string }.

(** The fields of [params] that [buildAgentSystemPrompt] reads.  A lookup
    in [toolSummaries] gives the member as the template prints it. *)
Record Params : Type := mkParams
  { workspaceDir : string;
    defaultThinkLevel : option string;
    reasoningLevel : option string;
    extraSystemPrompt : option string;
    toolNames : option (list string);
    toolSummaries : option (string -> option string);
    contextFiles : option (list EmbeddedContextFile);
    skillsPrompt : option string;
    promptMode : option PromptMode;
    runtimeInfo : option RuntimeInfo }.

(** [process.env] *)
Record Env : Type := mkEnv
  { SUPERPACK_FLAGS : option string;
    SUPERPACK_PRESET : option string }.

Inductive Diagnostic : Type :=
| DiagList (label title : string) (items : list string)
| DiagDump (label title content : string).

(** The environment that the flags module reads. *)
Definition envOf (s : Flags.State) : Env :=
  mkEnv (Flags.SUPERPACK_FLAGS s) (Flags.SUPERPACK_PRESET s).

(** [a === "literal"] for a value that may be undefined. *)
Definition equals (v : option string) (literal : string) : bool :=
  match v with Some s => String.eqb s literal | None => false end.

Definition buildRuntimeLine (runtimeInfo : option RuntimeInfo)
  (runtimeChannel : option string) (runtimeCapabilities : option (list string))
  (defaultThinkLevel : option string) : string :=
  let runtimeCapabilities := default [] runtimeCapabilities in
  let info (get : RuntimeInfo -> option string) : string :=
    default "" (runtimeInfo ≫= get) in
  let has (get : RuntimeInfo -> option string) : bool :=
    truthyString (runtimeInfo ≫= get) in
  "Runtime: " +:+
  String.concat " | "
    (List.filter (fun part => negb (String.eqb part ""))
       [ if has agentId then "agent=" +:+ info agentId else "";
         if has host then "host=" +:+ info host else "";
         if has repoRoot then "repo=" +:+ info repoRoot else "";
         if has os
         then "os=" +:+ info os
              +:+ (if has arch then " (" +:+ info arch +:+ ")" else "")
         else if has arch then "arch=" +:+ info arch else "";
         if has node then "node=" +:+ info node else "";
         if has model then "model=" +:+ info model else "";
         if has defaultModel then "default_model=" +:+ info defaultModel else "";
         if has shell then "shell=" +:+ info shell else "";
         if truthyString runtimeChannel
         then "channel=" +:+ default "" runtimeChannel else "";
         if truthyString runtimeChannel
         then "capabilities="
              +:+ (if (0 <? length runtimeCapabilities)%nat
                   then String.concat "," runtimeCapabilities else "none")
         else "";
         "thinking=" +:+ default "off" defaultThinkLevel ]).

Section Builtins.

Variable trim : string -> string.
Variable toLowerCase : string -> string.
Variable emptyObject : string -> option string.

Definition superpackFlag (env : Env) (name : string) : bool :=
  let flags := trim <$> SUPERPACK_FLAGS env in
  if truthyString flags
     && Flags.includes name (map trim (Flags.splitComma (default "" flags)))
  then true
  else
    let preset := trim <$> SUPERPACK_PRESET env in
    if equals preset "debug_all" then true
    else if equals preset "debug_prompts"
    then Flags.includes name
           [ "dump_system_prompt"; "dump_system_prompt_diff"; "dump_bootstrap_files";
             "dump_skills_resolution"; "dump_subagent_prompt" ]
    else false.

(** The blocks that push onto the array [lines], each as the array after
    the block. *)

(* Tools section *)
Definition toolsSection (params : Params) (lines : list (option string))
  : list (option string) :=
  let toolNames := default [] (toolNames params) in
  if (0 <? length toolNames)%nat then
    let summaries := default emptyObject (toolSummaries params) in
    foldl (fun lines tool =>
             let desc := summaries tool in
             lines ++ [ Some (if truthyString desc
                              then "- " +:+ tool +:+ ": " +:+ default "" desc
                              else "- " +:+ tool) ])
      (lines ++ [Some ""; Some "## Tools"]) toolNames
  else lines.

(* Skills section *)
Definition skillsSection (params : Params) (lines : list (option string))
  : list (option string) :=
  let skills := trim <$> skillsPrompt params in
  if truthyString skills
  then lines ++ [Some ""; Some "## Skills"; Some (default "" skills)]
  else lines.

(* Context files *)
Definition contextFilesSection (params : Params) (lines : list (option string))
  : list (option string) :=
  let contextFiles :=
    List.filter
      (fun f => match path f with
                | Some p => negb (String.eqb (trim p) "")
                | None => false
                end)
      (default [] (contextFiles params)) in
  if (0 <? length contextFiles)%nat then
    foldl (fun lines file =>
             lines ++ [ Some ""; Some ("## " +:+ default "" (path file));
                        Some ""; content file ])
      (lines ++ [Some ""; Some "# Project Context"]) contextFiles
  else lines.

(* Extra system prompt (group chat context, subagent context) *)
Definition extraSection (params : Params) (promptMode : PromptMode)
  (lines : list (option string)) : list (option string) :=
  if truthyString (trim <$> extraSystemPrompt params) then
    let header :=
      match promptMode with
      | minimal => "## Subagent Context"
      | _ => "## Context"
      end in
    lines ++ [Some ""; Some header; trim <$> extraSystemPrompt params]
  else lines.

(** The array [lines] as it stands before the final [filter] and [join]. *)
Definition promptLines (params : Params) (promptMode : PromptMode)
  (runtimeLine : string) : list (option string) :=
  let lines :=
    [ Some "You are a personal assistant running inside OpenClaw.";
      Some "";
      Some "## Workspace";
      Some ("Working directory: " +:+ workspaceDir params);
      Some "";
      Some "## Runtime";
      Some runtimeLine;
      Some ("Reasoning: " +:+ default "off" (reasoningLevel params)) ] in
  let lines := toolsSection params lines in
  let lines := skillsSection params lines in
  let lines := contextFilesSection params lines in
  extraSection params promptMode lines.

Definition buildAgentSystemPrompt (env : Env) (params : Params)
  : string * list Diagnostic :=
  let promptMode := default full (promptMode params) in
  let agentId := default "unknown" (runtimeInfo params ≫= agentId) in
  let channel :=
    (fun c => toLowerCase (trim c)) <$> (runtimeInfo params ≫= channel) in
  let runtimeLine :=
    buildRuntimeLine (runtimeInfo params) channel
      (Some (default [] (runtimeInfo params ≫= capabilities)))
      (defaultThinkLevel params) in
  match promptMode with
  | none => ("You are a personal assistant running inside OpenClaw.", [])
  | _ =>
      (* Diagnostics: tool resolution *)
      let log :=
        if superpackFlag env "dump_tool_resolution" then
          let tools := default [] (toolNames params) in
          let summaries := default emptyObject (toolSummaries params) in
          [ DiagList "tools" ("Tool resolution for agent=" +:+ agentId)
              (map (fun t =>
                      t +:+ (if truthyString (summaries t)
                             then " — " +:+ default "" (summaries t) else ""))
                 tools
               ++ (if (length tools =? 0)%nat then ["(no tools)"] else [])) ]
        else [] in
      (* Diagnostics: skills resolution *)
      let log :=
        if superpackFlag env "dump_skills_resolution" then
          let skills := trim <$> skillsPrompt params in
          if truthyString skills
          then log ++ [ DiagDump "skills" ("Skills for agent=" +:+ agentId)
                          (default "" skills) ]
          else log ++ [ DiagList "skills" ("Skills for agent=" +:+ agentId)
                          ["(none)"] ]
        else log in
      (* Build prompt *)
      let lines := promptLines params promptMode runtimeLine in
      let result := String.concat newline (omap id lines) in
      (* Diagnostics: full prompt dump *)
      let log :=
        if superpackFlag env "dump_system_prompt"
        then log ++ [ DiagDump "prompt"
                        ("System prompt for agent=" +:+ agentId +:+ " mode="
                         +:+ promptModeText promptMode)
                        result ]
        else log in
      (result, log)
  end.

(** *** Vocabulary *)



End Builtins.

End SystemPrompt.

(** The host of the examples, continued: the members that the empty
    object literal answers for, as a template prints them (in Node: the
    functions of [Object.prototype], [Object] itself for [constructor],
    and the prototype object for [__proto__]). *)
Module HostText.

Definition emptyObject (key : string) : option string :=
  if String.eqb key "__proto__" then Some "[object Object]"
  else if String.eqb key "constructor"
       then Some "function Object() { [native code] }"
       else if Host.inherited key
            then Some ("function " +:+ key +:+ "() { [native code] }")
            else None.

Definition superpackFlag := SystemPrompt.superpackFlag Host.trim.

(** A subagent's parameters: two tools, one of them with a summary in the
    object literal [{ exec: "Run shell commands" }], and two context
    files, one of them with a blank path.  The runtime information names
    no channel. *)
Definition info : SystemPrompt.RuntimeInfo :=
  SystemPrompt.mkRuntimeInfo (Some "main") (Some "box") (Some "linux") (Some "x64")
    None (Some "m1") None None None None None.
Definition agents : SystemPrompt.EmbeddedContextFile :=
  SystemPrompt.mkEmbeddedContextFile (Some "AGENTS.md") (Some "# Agents").
Definition blank : SystemPrompt.EmbeddedContextFile :=
  SystemPrompt.mkEmbeddedContextFile (Some "  ") (Some "# Nowhere").
Definition params : SystemPrompt.Params :=
  SystemPrompt.mkParams "/home/user/.openclaw/workspace" None None
    (Some " You are a subagent. ") (Some ["exec"; "read"])
    (Some (fun t => if String.eqb t "exec" then Some "Run shell commands"
                    else emptyObject t))
    (Some [agents; blank]) (Some " <available_skills/> ")
    (Some SystemPrompt.minimal) (Some info).

End HostText.


(** * Properties *)

Section Properties.

Context {World : Type}.

Implicit Types (s : @State World) (hook r : @HookRegistration World)
  (hooks regs : list (@HookRegistration World)) (c : @Call World)
  (cs : list (@Call World)) (name : SuperpackHookName).

(** ** The stable sort *)

Lemma insertSorted_Permutation {T} (compareFn : T -> T -> Z) x (l : list T) :
  Permutation (insertSorted compareFn x l) (x :: l).
Proof.
  induction l as [|y l IH]; simpl; [reflexivity|].
  destruct (compareFn x y <=? 0)%Z; [reflexivity|].
  rewrite IH. apply perm_swap.
Qed.

Lemma sorted_Permutation {T} (compareFn : T -> T -> Z) (l : list T) :
  Permutation (sorted compareFn l) l.
Proof.
  induction l as [|x l IH]; simpl; [reflexivity|].
  rewrite insertSorted_Permutation. by constructor.
Qed.

Lemma insertSorted_StronglySorted r hooks :
  StronglySorted noLower hooks ->
  StronglySorted noLower (insertSorted comparePriority r hooks).
Proof.
  induction 1 as [|y l Hl IH Hy]; simpl.
  - repeat constructor.
  - unfold comparePriority at 1. fold (effectivePriority y) (effectivePriority r).
    destruct (Z.leb_spec (effectivePriority y - effectivePriority r) 0) as [Hle|Hgt].
    + constructor; [by constructor|].
      constructor; [unfold noLower; lia|].
      eapply Forall_impl; [exact Hy|]. unfold noLower. intros z Hz. lia.
    + constructor; [exact IH|].
      eapply Permutation_Forall; [symmetry; apply insertSorted_Permutation|].
      constructor; [unfold noLower; lia | exact Hy].
Qed.

Lemma sorted_StronglySorted hooks :
  StronglySorted noLower (sorted comparePriority hooks).
Proof.
  induction hooks as [|r l IH]; simpl; [constructor|].
  by apply insertSorted_StronglySorted.
Qed.

Lemma StronglySorted_descending hooks :
  StronglySorted noLower hooks -> descending hooks.
Proof.
  induction 1 as [|x l Hl IH Hx]; intros i j a b Hi Hj Hij.
  - by rewrite lookup_nil in Hi.
  - destruct j as [|j]; [lia|]. simpl in Hj.
    destruct i as [|i]; simpl in Hi.
    + injection Hi as <-. rewrite Forall_forall in Hx.
      apply Hx. eapply list_elem_of_lookup_2, Hj.
    + eapply IH; eauto. lia.
Qed.

Lemma withPriority_insertSorted p r hooks :
  withPriority p (insertSorted comparePriority r hooks) = withPriority p (r :: hooks).
Proof.
  induction hooks as [|y l IH]; [reflexivity|].
  cbn [insertSorted]. unfold comparePriority at 1.
  fold (effectivePriority y) (effectivePriority r).
  destruct (Z.leb_spec (effectivePriority y - effectivePriority r) 0) as [Hle|Hgt];
    [reflexivity|].
  unfold withPriority in *. cbn [List.filter] in *. rewrite IH.
  destruct (Z.eqb_spec (effectivePriority y) p), (Z.eqb_spec (effectivePriority r) p);
    try reflexivity.
  lia.
Qed.

Lemma withPriority_sorted p hooks :
  withPriority p (sorted comparePriority hooks) = withPriority p hooks.
Proof.
  induction hooks as [|r l IH]; [reflexivity|].
  cbn [sorted foldr]. fold (sorted comparePriority l).
  rewrite withPriority_insertSorted. unfold withPriority in *.
  cbn [List.filter]. by rewrite IH.
Qed.

(** The result of a stable sort is determined by the two facts above: a
    list in descending order that keeps, for every priority, the
    registrations of that priority in their original order is the list
    [sorted] computes, whatever algorithm produced it. *)
Lemma descending_stable_unique hooks1 : forall hooks2,
  StronglySorted noLower hooks1 -> StronglySorted noLower hooks2 ->
  (forall p, withPriority p hooks1 = withPriority p hooks2) ->
  hooks1 = hooks2.
Proof.
  assert (Hhead : forall (x : @HookRegistration World) l (y : @HookRegistration World) l',
    StronglySorted noLower (x :: l) -> StronglySorted noLower (y :: l') ->
    (forall p, withPriority p (x :: l) = withPriority p (y :: l')) ->
    (effectivePriority y <= effectivePriority x)%Z).
  { intros x l y l' Hx Hy Heq.
    specialize (Heq (effectivePriority y)). unfold withPriority in Heq.
    cbn [List.filter] in Heq. rewrite Z.eqb_refl in Heq.
    destruct (Z.eqb_spec (effectivePriority x) (effectivePriority y)) as [->|Hne];
      [lia|].
    assert (Hin : y ∈ List.filter
                    (fun r => (effectivePriority r =? effectivePriority y)%Z) l).
    { rewrite Heq. left. }
    apply list_elem_of_In, filter_In in Hin as [Hin _].
    apply StronglySorted_inv in Hx as [_ Hall].
    rewrite Forall_forall in Hall. apply Hall. by apply list_elem_of_In. }
  induction hooks1 as [|x l IH]; intros [|y l'] H1 H2 Heq.
  - done.
  - specialize (Heq (effectivePriority y)). unfold withPriority in Heq.
    simpl in Heq. by rewrite Z.eqb_refl in Heq.
  - specialize (Heq (effectivePriority x)). unfold withPriority in Heq.
    simpl in Heq. by rewrite Z.eqb_refl in Heq.
  - assert (Hxy : effectivePriority x = effectivePriority y).
    { pose proof (Hhead _ _ _ _ H1 H2 Heq).
      pose proof (Hhead _ _ _ _ H2 H1 (fun p => eq_sym (Heq p))). lia. }
    assert (x = y) as ->.
    { specialize (Heq (effectivePriority x)). unfold withPriority in Heq.
      cbn [List.filter] in Heq. rewrite <- Hxy, Z.eqb_refl in Heq. congruence. }
    f_equal. apply IH.
    + by apply StronglySorted_inv in H1 as [? _].
    + by apply StronglySorted_inv in H2 as [? _].
    + intros p. specialize (Heq p). unfold withPriority in Heq |- *.
      cbn [List.filter] in Heq.
      destruct (effectivePriority y =? p)%Z; congruence.
Qed.

Lemma sorted_is_the_stable_sort hooks hooks' :
  StronglySorted noLower hooks' ->
  (forall p, withPriority p hooks' = withPriority p hooks) ->
  hooks' = sorted comparePriority hooks.
Proof.
  intros Hsorted Hstable. apply descending_stable_unique;
    [done | apply sorted_StronglySorted |].
  intros p. by rewrite Hstable, withPriority_sorted.
Qed.

Lemma hooksFor_descending name regs : descending (hooksFor name regs).
Proof. apply StronglySorted_descending, sorted_StronglySorted. Qed.


Lemma hooksFor_Permutation name regs :
  Permutation (hooksFor name regs) (matching name regs).
Proof. apply sorted_Permutation. Qed.

Lemma hooksFor_nil name regs : matching name regs = [] -> hooksFor name regs = [].
Proof. unfold hooksFor. by intros ->. Qed.

(** ** Running runner code *)

Lemma bind_Normal {A B} (m : @M World A) (k : A -> @M World B) s a s' :
  m s = (Normal a, s') -> bind m k s = k a s'.
Proof. unfold bind. by intros ->. Qed.

Lemma bind_Throw {A B} (m : @M World A) (k : A -> @M World B) s err s' :
  m s = (Throw err, s') -> bind m k s = (Throw err, s').
Proof. unfold bind. by intros ->. Qed.

Lemma bind_assoc {A B C} (m : @M World A) (f : A -> @M World B) (g : B -> @M World C) s :
  bind m (fun x => bind (f x) g) s = bind (bind m f) g s.
Proof. unfold bind. by destruct (m s) as [[a|err] s']. Qed.

Lemma readArray_run a s xs :
  arrays s !! a = Some xs -> readArray a s = (Normal xs, s).
Proof. unfold readArray. by intros ->. Qed.

Lemma getHooks_run registrations name s regs :
  arrays s !! registrations = Some regs ->
  getHooks registrations name s
  = (Normal (S (length (arrays s))), afterGetHooks name regs s).
Proof.
  intros Hregs.
  unfold getHooks, sortByPriority, array_filter, array_spread, array_sort.
  erewrite bind_Normal; [|erewrite bind_Normal; [|by apply readArray_run]; reflexivity].
  fold (matching name regs).
  set (s1 := setArrays _ s).
  assert (Hs1 : arrays s1 !! length (arrays s) = Some (matching name regs)).
  { subst s1. simpl. by rewrite list_lookup_middle. }
  erewrite bind_Normal; [|erewrite bind_Normal; [|by apply readArray_run]; reflexivity].
  set (s2 := setArrays _ s1).
  assert (Hs2 : arrays s2 !! length (arrays s1) = Some (matching name regs)).
  { subst s2. simpl. by rewrite list_lookup_middle. }
  erewrite bind_Normal; [|by apply readArray_run].
  unfold bind, writeArray, ret. subst s2 s1. simpl.
  rewrite length_app. simpl. f_equal; [f_equal; lia|].
  unfold afterGetHooks, setArrays. simpl. f_equal.
  replace (length (arrays s) + 1) with (length (arrays s ++ [matching name regs]) + 0)
    by (rewrite length_app; simpl; lia).
  rewrite insert_app_r. simpl. by rewrite <- (assoc_L (++)).
Qed.

Lemma awaitHandler_run hook arg s o :
  objects s !! arg = Some o ->
  exists c,
    awaitHandler hook arg s = (outcome c, afterCallOn arg c s)
    /\ callee c = hook /\ argRef c = arg /\ argAtCall c = o
    /\ memoryAtCall c = memory s /\ genuine c.
Proof.
  intros Ho. unfold awaitHandler. rewrite Ho.
  destruct (settle (handler hook) (o, memory s)) as [out [o' w']] eqn:E.
  exists (mkCall hook arg o (memory s) out o' w'). by repeat split.
Qed.

Lemma freshCall_run hook o s :
  exists c,
    bind (allocObject o) (awaitHandler hook) s = (outcome c, afterFreshCall c s)
    /\ callee c = hook /\ argRef c = length (objects s) /\ argAtCall c = o
    /\ memoryAtCall c = memory s /\ genuine c.
Proof.
  unfold bind, allocObject.
  destruct (awaitHandler_run hook (length (objects s)) (setObjects (fun h => h ++ [o]) s) o)
    as (c & Hrun & Hc); [simpl; by rewrite list_lookup_middle|].
  exists c. split; [|exact Hc]. rewrite Hrun. f_equal.
  unfold afterCallOn, afterFreshCall, logCall, setMemory, setObjects. simpl.
  f_equal. replace (length (objects s)) with (length (objects s) + 0) by lia.
  by rewrite insert_app_r.
Qed.

Lemma asToolsFilterEvent_run event s e :
  objects s !! event = Some (ToolsFilterEvent e) ->
  asToolsFilterEvent event s = (Normal e, s).
Proof. unfold asToolsFilterEvent, bind, readObject. by intros ->. Qed.

Lemma asSkillsFilterEvent_run event s e :
  objects s !! event = Some (SkillsFilterEvent e) ->
  asSkillsFilterEvent event s = (Normal e, s).
Proof. unfold asSkillsFilterEvent, bind, readObject. by intros ->. Qed.

Lemma asBootstrapBeforeEvent_run event s e :
  objects s !! event = Some (BootstrapBeforeEvent e) ->
  asBootstrapBeforeEvent event s = (Normal e, s).
Proof. unfold asBootstrapBeforeEvent, bind, readObject. by intros ->. Qed.

Lemma RanFresh_refl s : RanFresh s [] s.
Proof. unfold RanFresh. simpl. by rewrite !app_nil_r. Qed.

Lemma RanFresh_step s c cs s' :
  RanFresh (afterFreshCall c s) cs s' -> RanFresh s (c :: cs) s'.
Proof.
  unfold RanFresh. simpl. intros (-> & -> & -> & ->).
  by rewrite <- !(assoc_L (++)).
Qed.

Lemma afterFreshCall_lookup event c s o :
  objects s !! event = Some o -> objects (afterFreshCall c s) !! event = Some o.
Proof. intros H. simpl. by apply lookup_app_l_Some. Qed.

Lemma afterFreshCall_length c s :
  length (objects (afterFreshCall c s)) = S (length (objects s)).
Proof. simpl. rewrite length_app. simpl. lia. Qed.

(** *** The three modifying loops *)

Lemma toolsFilterLoop_run event e0 hooks : forall current s,
  objects s !! event = Some (ToolsFilterEvent e0) ->
  exists cs final s',
    toolsFilterLoop event hooks current s = (Normal final, s')
    /\ Chain (toolsArg e0) (replaceBy HandlerResult.tools)
         (length (objects s)) (memory s) current hooks cs (memory s') final
    /\ RanFresh s cs s'.
Proof.
  induction hooks as [|hook hooks IH]; intros current s Hev.
  - exists [], current, s. split; [reflexivity|]. split; [constructor|apply RanFresh_refl].
  - destruct (freshCall_run hook (toolsArg e0 current) s)
      as (c & Hrun & Hcallee & Href & Harg & Hw & Hgen).
    destruct (IH (replaceBy HandlerResult.tools current (outcome c)) (afterFreshCall c s))
      as (cs & final & s' & Hloop & Hchain & Hran);
      [by apply afterFreshCall_lookup|].
    exists (c :: cs), final, s'. split; [|split].
    + cbn [toolsFilterLoop]. unfold bind at 1, tryCatch.
      rewrite (bind_Normal _ _ _ _ _ (asToolsFilterEvent_run _ _ _ Hev)).
      fold (toolsArg e0 current).
      rewrite bind_assoc. unfold bind at 1. rewrite Hrun.
      destruct (outcome c) as [[result|]|err] eqn:Hout; simpl;
        unfold replaceBy in Hloop; simpl in Hloop;
        try destruct (HandlerResult.tools result); exact Hloop.
    + econstructor; eauto.
      by rewrite afterFreshCall_length in Hchain.
    + by apply RanFresh_step.
Qed.

Lemma skillsFilterLoop_run event e0 hooks : forall current s,
  objects s !! event = Some (SkillsFilterEvent e0) ->
  exists cs final s',
    skillsFilterLoop event hooks current s = (Normal final, s')
    /\ Chain (skillsArg e0) (replaceBy HandlerResult.skillsPrompt)
         (length (objects s)) (memory s) current hooks cs (memory s') final
    /\ RanFresh s cs s'.
Proof.
  induction hooks as [|hook hooks IH]; intros current s Hev.
  - exists [], current, s. split; [reflexivity|]. split; [constructor|apply RanFresh_refl].
  - destruct (freshCall_run hook (skillsArg e0 current) s)
      as (c & Hrun & Hcallee & Href & Harg & Hw & Hgen).
    destruct (IH (replaceBy HandlerResult.skillsPrompt current (outcome c))
                (afterFreshCall c s))
      as (cs & final & s' & Hloop & Hchain & Hran);
      [by apply afterFreshCall_lookup|].
    exists (c :: cs), final, s'. split; [|split].
    + cbn [skillsFilterLoop]. unfold bind at 1, tryCatch.
      rewrite (bind_Normal _ _ _ _ _ (asSkillsFilterEvent_run _ _ _ Hev)).
      fold (skillsArg e0 current).
      rewrite bind_assoc. unfold bind at 1. rewrite Hrun.
      destruct (outcome c) as [[result|]|err] eqn:Hout; simpl;
        unfold replaceBy in Hloop; simpl in Hloop;
        try destruct (HandlerResult.skillsPrompt result); exact Hloop.
    + econstructor; eauto.
      by rewrite afterFreshCall_length in Hchain.
    + by apply RanFresh_step.
Qed.

Lemma bootstrapBeforeLoop_run event e0 hooks : forall currentFiles skip s,
  objects s !! event = Some (BootstrapBeforeEvent e0) ->
  exists cs final s',
    bootstrapBeforeLoop event hooks currentFiles skip s
    = (Normal (final, skip || existsb setsSkip cs), s')
    /\ Chain (filesArg e0) (replaceBy HandlerResult.files)
         (length (objects s)) (memory s) currentFiles hooks cs (memory s') final
    /\ RanFresh s cs s'.
Proof.
  induction hooks as [|hook hooks IH]; intros current skip s Hev.
  - exists [], current, s. split; [simpl; by rewrite orb_false_r|].
    split; [constructor|apply RanFresh_refl].
  - destruct (freshCall_run hook (filesArg e0 current) s)
      as (c & Hrun & Hcallee & Href & Harg & Hw & Hgen).
    destruct (IH (replaceBy HandlerResult.files current (outcome c))
                (skip || setsSkip c) (afterFreshCall c s))
      as (cs & final & s' & Hloop & Hchain & Hran);
      [by apply afterFreshCall_lookup|].
    exists (c :: cs), final, s'. split; [|split].
    + cbn [bootstrapBeforeLoop existsb]. unfold bind at 1, tryCatch.
      rewrite (bind_Normal _ _ _ _ _ (asBootstrapBeforeEvent_run _ _ _ Hev)).
      fold (filesArg e0 current).
      rewrite bind_assoc. unfold bind at 1. rewrite Hrun.
      rewrite orb_assoc. unfold setsSkip, replaceBy in Hloop |- *.
      destruct (outcome c) as [[result|]|err] eqn:Hout; simpl in Hloop |- *;
        rewrite ?orb_false_r in Hloop |- *; try exact Hloop.
      destruct (truthyBool (HandlerResult.skip result));
        rewrite ?orb_true_r, ?orb_false_r in Hloop |- *; exact Hloop.
    + econstructor; eauto.
      by rewrite afterFreshCall_length in Hchain.
    + by apply RanFresh_step.
Qed.

(** *** The runner functions of model (a) *)

Lemma afterGetHooks_lookup name regs s :
  arrays (afterGetHooks name regs s) !! S (length (arrays s)) = Some (hooksFor name regs).
Proof.
  simpl. replace (S (length (arrays s))) with (length (arrays s) + 1) by lia.
  by rewrite lookup_app_r, Nat.add_comm, Nat.add_sub by lia.
Qed.

Lemma runSystemPromptToolsFilter_run registrations event s regs e0 :
  arrays s !! registrations = Some regs ->
  objects s !! event = Some (ToolsFilterEvent e0) ->
  exists cs final s',
    runSystemPromptToolsFilter registrations event s
    = (Normal (SystemPromptToolsFilterResult.mk final), s')
    /\ Chain (toolsArg e0) (replaceBy HandlerResult.tools)
         (length (objects s)) (memory s) (SystemPromptToolsFilterEvent.tools e0)
         (hooksFor system_prompt_tools_filter regs) cs (memory s') final
    /\ RanFresh (afterGetHooks system_prompt_tools_filter regs s) cs s'.
Proof.
  intros Hregs Hev.
  set (s1 := afterGetHooks system_prompt_tools_filter regs s).
  destruct (toolsFilterLoop_run event e0 (hooksFor system_prompt_tools_filter regs)
              (SystemPromptToolsFilterEvent.tools e0) s1 Hev)
    as (cs & final & s' & Hloop & Hchain & Hran).
  exists cs, final, s'. split; [|by split].
  unfold runSystemPromptToolsFilter.
  rewrite (bind_Normal _ _ _ _ _ (getHooks_run _ _ _ _ Hregs)).
  rewrite (bind_Normal _ _ _ _ _ (asToolsFilterEvent_run event s1 _ Hev)).
  cbv beta zeta. subst s1.
  rewrite (bind_Normal _ _ _ _ _ (readArray_run _ _ _ (afterGetHooks_lookup _ _ _))).
  by rewrite (bind_Normal _ _ _ _ _ Hloop).
Qed.

Lemma runSystemPromptSkillsFilter_run registrations event s regs e0 :
  arrays s !! registrations = Some regs ->
  objects s !! event = Some (SkillsFilterEvent e0) ->
  exists cs final s',
    runSystemPromptSkillsFilter registrations event s
    = (Normal (SystemPromptSkillsFilterResult.mk final), s')
    /\ Chain (skillsArg e0) (replaceBy HandlerResult.skillsPrompt)
         (length (objects s)) (memory s) (SystemPromptSkillsFilterEvent.skillsPrompt e0)
         (hooksFor system_prompt_skills_filter regs) cs (memory s') final
    /\ RanFresh (afterGetHooks system_prompt_skills_filter regs s) cs s'.
Proof.
  intros Hregs Hev.
  set (s1 := afterGetHooks system_prompt_skills_filter regs s).
  destruct (skillsFilterLoop_run event e0 (hooksFor system_prompt_skills_filter regs)
              (SystemPromptSkillsFilterEvent.skillsPrompt e0) s1 Hev)
    as (cs & final & s' & Hloop & Hchain & Hran).
  exists cs, final, s'. split; [|by split].
  unfold runSystemPromptSkillsFilter.
  rewrite (bind_Normal _ _ _ _ _ (getHooks_run _ _ _ _ Hregs)).
  rewrite (bind_Normal _ _ _ _ _ (asSkillsFilterEvent_run event s1 _ Hev)).
  cbv beta zeta. subst s1.
  rewrite (bind_Normal _ _ _ _ _ (readArray_run _ _ _ (afterGetHooks_lookup _ _ _))).
  by rewrite (bind_Normal _ _ _ _ _ Hloop).
Qed.

Lemma runWorkspaceBootstrapBefore_run registrations event s regs e0 :
  arrays s !! registrations = Some regs ->
  objects s !! event = Some (BootstrapBeforeEvent e0) ->
  exists cs final s',
    runWorkspaceBootstrapBefore registrations event s
    = (Normal (WorkspaceBootstrapBeforeResult.mk final (existsb setsSkip cs)), s')
    /\ Chain (filesArg e0) (replaceBy HandlerResult.files)
         (length (objects s)) (memory s) (WorkspaceBootstrapBeforeEvent.files e0)
         (hooksFor workspace_bootstrap_before regs) cs (memory s') final
    /\ RanFresh (afterGetHooks workspace_bootstrap_before regs s) cs s'.
Proof.
  intros Hregs Hev.
  set (s1 := afterGetHooks workspace_bootstrap_before regs s).
  destruct (bootstrapBeforeLoop_run event e0 (hooksFor workspace_bootstrap_before regs)
              (WorkspaceBootstrapBeforeEvent.files e0) false s1 Hev)
    as (cs & final & s' & Hloop & Hchain & Hran).
  exists cs, final, s'. split; [|by split].
  unfold runWorkspaceBootstrapBefore.
  rewrite (bind_Normal _ _ _ _ _ (getHooks_run _ _ _ _ Hregs)).
  rewrite (bind_Normal _ _ _ _ _ (asBootstrapBeforeEvent_run event s1 _ Hev)).
  cbv beta zeta. subst s1.
  rewrite (bind_Normal _ _ _ _ _ (readArray_run _ _ _ (afterGetHooks_lookup _ _ _))).
  by rewrite (bind_Normal _ _ _ _ _ Hloop).
Qed.

(** *** Loops that hand the caller's event to every handler *)

Lemma RanOn_refl event s : RanOn event s [] s.
Proof. unfold RanOn. by rewrite app_nil_r. Qed.

Lemma RanOn_step event s c cs s' :
  RanOn event (afterCallOn event c s) cs s' -> RanOn event s (c :: cs) s'.
Proof.
  unfold RanOn. simpl. intros (-> & -> & Hl & -> & ->).
  rewrite <- (assoc_L (++)), length_insert. repeat split; try done.
  intros l Hne. rewrite Hl by done. by apply list_lookup_insert_ne.
Qed.

Lemma afterCallOn_lookup event c s o :
  objects s !! event = Some o ->
  objects (afterCallOn event c s) !! event = Some (argAfterCall c).
Proof. intros H. simpl. apply list_lookup_insert_eq. by eapply lookup_lt_Some. Qed.

Lemma footerLoop_run event hooks : forall parts s o,
  objects s !! event = Some o ->
  exists cs o' s',
    footerLoop event hooks parts s = (Normal (parts ++ omap fragment cs), s')
    /\ Handed event o (memory s) hooks cs o' (memory s')
    /\ objects s' !! event = Some o'
    /\ RanOn event s cs s'.
Proof.
  induction hooks as [|hook hooks IH]; intros parts s o Hev.
  - exists [], o, s. simpl. rewrite app_nil_r.
    split_and!; [done|constructor|done|apply RanOn_refl].
  - destruct (awaitHandler_run hook event s o Hev)
      as (c & Hrun & Hcallee & Href & Harg & Hw & Hgen).
    destruct (IH (parts ++ omap fragment [c]) (afterCallOn event c s) (argAfterCall c))
      as (cs & o' & s' & Hloop & Hhanded & Ho' & Hran);
      [by eapply afterCallOn_lookup|].
    exists (c :: cs), o', s'. split; [|split; [|split]].
    + cbn [footerLoop]. unfold bind at 1, tryCatch. unfold bind at 1. rewrite Hrun.
      replace (parts ++ omap fragment (c :: cs))
        with ((parts ++ omap fragment [c]) ++ omap fragment cs)
        by (rewrite <- (assoc_L (++)); simpl; by destruct (fragment c)).
      assert (Hfr : forall result, outcome c = Normal result ->
                (if truthyString (result ≫= HandlerResult.append)
                 then parts ++ [default "" (result ≫= HandlerResult.append)]
                 else parts) = parts ++ omap fragment [c]).
      { intros result Hout. unfold fragment. simpl. rewrite Hout. simpl.
        destruct (result ≫= HandlerResult.append) as [text|]; simpl;
          [|by rewrite app_nil_r].
        destruct (String.eqb text ""); simpl; by rewrite ?app_nil_r. }
      assert (Hthrow : forall err, outcome c = Throw err ->
                parts = parts ++ omap fragment [c]).
      { intros err Hout. unfold fragment. simpl. rewrite Hout. simpl.
        by rewrite app_nil_r. }
      set (fr := omap fragment [c]) in *.
      destruct (outcome c) as [result|err] eqn:Hout.
      * pose proof (Hfr _ eq_refl) as E. simpl. rewrite <- Hloop.
        destruct (truthyString (result ≫= HandlerResult.append)); by rewrite <- E.
      * pose proof (Hthrow _ eq_refl) as E. simpl. rewrite <- Hloop. by rewrite <- E.
    + econstructor; eauto.
    + exact Ho'.
    + by apply RanOn_step.
Qed.

Lemma validateLoop_run event hooks : forall s o,
  objects s !! event = Some o ->
  exists tried rest cs o' res s',
    validateLoop event hooks s = (Normal res, s')
    /\ hooks = tried ++ rest
    /\ Handed event o (memory s) tried cs o' (memory s')
    /\ objects s' !! event = Some o'
    /\ RanOn event s cs s'
    /\ Verdict cs rest res.
Proof.
  induction hooks as [|hook hooks IH]; intros s o Hev.
  - exists [], [], [], o, (SubagentPromptValidateResult.mk false None), s.
    split_and!; [done|done|constructor|done|apply RanOn_refl|].
    left. by split_and!.
  - destruct (awaitHandler_run hook event s o Hev)
      as (c & Hrun & Hcallee & Href & Harg & Hw & Hgen).
    destruct (blocks c) eqn:Hblocks.
    + exists [hook], hooks, [c], (argAfterCall c),
        (SubagentPromptValidateResult.mk true (reasonGiven c)), (afterCallOn event c s).
      split; [|split; [done|split; [|split; [|split]]]].
      * cbn [validateLoop]. unfold bind at 1, tryCatch. unfold bind at 1. rewrite Hrun.
        unfold blocks, reasonGiven in *.
        destruct (outcome c) as [result|err]; simpl in Hblocks |- *; [|done].
        by rewrite Hblocks.
      * econstructor; eauto. constructor.
      * by eapply afterCallOn_lookup.
      * apply RanOn_step, RanOn_refl.
      * right. exists [], c. by split_and!.
    + destruct (IH (afterCallOn event c s) (argAfterCall c))
        as (tried & rest & cs & o' & res & s' & Hloop & Hsplit & Hhanded & Ho' & Hran & Hv);
        [by eapply afterCallOn_lookup|].
      exists (hook :: tried), rest, (c :: cs), o', res, s'.
      split; [|split; [by rewrite Hsplit|split; [|split; [|split]]]].
      * cbn [validateLoop]. unfold bind at 1, tryCatch. unfold bind at 1. rewrite Hrun.
        unfold blocks in Hblocks.
        destruct (outcome c) as [result|err]; simpl in Hblocks |- *; [|exact Hloop].
        rewrite Hblocks. exact Hloop.
      * econstructor; eauto.
      * exact Ho'.
      * by apply RanOn_step.
      * destruct Hv as [(-> & Hall & ->)|(cs0 & c' & -> & Hall & Hc' & ->)].
        -- left. split_and!; [done| |done]. by constructor.
        -- right. exists (c :: cs0), c'. split_and!; [done| |done|done]. by constructor.
Qed.

Lemma runSystemPromptFooter_run registrations event s regs o :
  arrays s !! registrations = Some regs ->
  objects s !! event = Some o ->
  exists cs o' s',
    runSystemPromptFooter registrations event s
    = (Normal (SystemPromptFooterResult.mk (join (omap fragment cs))), s')
    /\ Handed event o (memory s) (hooksFor system_prompt_footer regs) cs o' (memory s')
    /\ objects s' !! event = Some o'
    /\ RanOn event (afterGetHooks system_prompt_footer regs s) cs s'.
Proof.
  intros Hregs Hev.
  destruct (footerLoop_run event (hooksFor system_prompt_footer regs) []
              (afterGetHooks system_prompt_footer regs s) o Hev)
    as (cs & o' & s' & Hloop & Hhanded & Ho' & Hran).
  exists cs, o', s'. split; [|by split_and!].
  unfold runSystemPromptFooter.
  rewrite (bind_Normal _ _ _ _ _ (getHooks_run _ _ _ _ Hregs)).
  rewrite (bind_Normal _ _ _ _ _ (readArray_run _ _ _ (afterGetHooks_lookup _ _ _))).
  by rewrite (bind_Normal _ _ _ _ _ Hloop).
Qed.

Lemma runSubagentPromptValidate_run registrations event s regs o :
  arrays s !! registrations = Some regs ->
  objects s !! event = Some o ->
  exists tried rest cs o' res s',
    runSubagentPromptValidate registrations event s = (Normal res, s')
    /\ hooksFor subagent_prompt_validate regs = tried ++ rest
    /\ Handed event o (memory s) tried cs o' (memory s')
    /\ objects s' !! event = Some o'
    /\ RanOn event (afterGetHooks subagent_prompt_validate regs s) cs s'
    /\ Verdict cs rest res.
Proof.
  intros Hregs Hev.
  destruct (validateLoop_run event (hooksFor subagent_prompt_validate regs)
              (afterGetHooks subagent_prompt_validate regs s) o Hev)
    as (tried & rest & cs & o' & res & s' & Hloop & Hrest).
  exists tried, rest, cs, o', res, s'. split; [|exact Hrest].
  unfold runSubagentPromptValidate.
  rewrite (bind_Normal _ _ _ _ _ (getHooks_run _ _ _ _ Hregs)).
  by rewrite (bind_Normal _ _ _ _ _ (readArray_run _ _ _ (afterGetHooks_lookup _ _ _))).
Qed.

(** *** Promises that run side by side *)

Lemma swallow_Quiet (t : @Handler World) : Quiet (swallow t).
Proof. induction t as [c|effect next IH]; simpl; by constructor. Qed.

Lemma Quiet_rejection (ps : list (@Promise World)) :
  Forall Quiet ps -> rejection ps = None.
Proof.
  induction 1 as [|p ps Hp _ IH]; [done|].
  destruct Hp; simpl; done.
Qed.

Lemma Waited_refl s : Waited s s.
Proof. by unfold Waited. Qed.

Lemma Waited_trans s1 s2 s3 : Waited s1 s2 -> Waited s2 s3 -> Waited s1 s3.
Proof. unfold Waited. intros (-> & -> & -> & ->) (-> & -> & -> & ->). done. Qed.

Lemma started_app (l1 l2 : list (@Activity World)) :
  started (l1 ++ l2) = started l1 ++ started l2.
Proof. apply omap_app. Qed.

Lemma finishedCount_app k (l1 l2 : list (@Activity World)) :
  finishedCount k (l1 ++ l2) = finishedCount k l1 + finishedCount k l2.
Proof. unfold finishedCount, finished. by rewrite omap_app, count_occ_app. Qed.

Lemma applyEffect_Waited arg o effect s :
  Waited s (applyEffect arg o effect s)
  /\ activity (applyEffect arg o effect s) = activity s.
Proof.
  unfold applyEffect. destruct (effect (o, memory s)) as [o' w'].
  unfold Waited. simpl. by rewrite length_insert.
Qed.

Lemma runSegment_run arg p s :
  Quiet p ->
  exists p' s', runSegment arg p s = (p', s') /\ Quiet p' /\ Waited s s'
    /\ activity s' = activity s.
Proof.
  intros Hp. destruct Hp as [|effect next Hnext]; simpl.
  - exists (Settled (Normal tt)), s. split_and!; [done|constructor|apply Waited_refl|done].
  - destruct (objects s !! arg) as [o|].
    + eexists _, _. split; [reflexivity|]. split; [apply Hnext|].
      apply applyEffect_Waited.
    + exists (Settled (Normal tt)), s.
      split_and!; [done|constructor|apply Waited_refl|done].
Qed.

Lemma noteSettled_run i (p : @Promise World) s :
  Waited s (noteSettled i p s)
  /\ forall k, finishedCount k (activity (noteSettled i p s))
               = finishedCount k (activity s)
                 + (if decide (k = i) then settledAt [p] 0 else 0).
Proof.
  unfold noteSettled, settledAt. destruct p as [c|effect next]; simpl.
  - split; [unfold Waited; simpl; by rewrite started_app, app_nil_r|].
    intros k. rewrite finishedCount_app. unfold finishedCount. simpl.
    destruct (Nat.eq_dec i k), (decide (k = i)); simpl; congruence || lia.
  - split; [apply Waited_refl|]. intros k. destruct (decide (k = i)); lia.
Qed.

Lemma logResumed_run i s :
  Waited s (logActivity (Resumed i) s)
  /\ forall k, finishedCount k (activity (logActivity (Resumed i) s))
               = finishedCount k (activity s).
Proof.
  split; [unfold Waited; simpl; by rewrite started_app, app_nil_r|].
  intros k. simpl. rewrite finishedCount_app. unfold finishedCount. simpl. lia.
Qed.

Lemma logFinished_run i s :
  Waited s (logActivity (Finished i) s)
  /\ forall k, finishedCount k (activity (logActivity (Finished i) s))
               = finishedCount k (activity s) + (if decide (k = i) then 1 else 0).
Proof.
  split; [unfold Waited; simpl; by rewrite started_app, app_nil_r|].
  intros k. simpl. rewrite finishedCount_app. unfold finishedCount. simpl.
  destruct (Nat.eq_dec i k), (decide (k = i)); simpl; congruence || lia.
Qed.

Lemma settledAt_cons (p : @Promise World) ps k :
  settledAt (p :: ps) (S k) = settledAt ps k.
Proof. reflexivity. Qed.

Lemma settledAt_ge (ps : list (@Promise World)) k :
  length ps <= k -> settledAt ps k = 0.
Proof. intros H. unfold settledAt. by rewrite lookup_ge_None_2. Qed.

Lemma startAll_run event hooks : forall i s,
  exists ps s',
    startAll event i hooks s = (Normal ps, s')
    /\ length ps = length hooks
    /\ Forall Quiet ps
    /\ arrays s' = arrays s /\ calls s' = calls s
    /\ length (objects s') = length (objects s)
    /\ started (activity s')
       = started (activity s) ++ imap (fun k h => (i + k, h, event)) hooks
    /\ forall k, finishedCount k (activity s')
                 = finishedCount k (activity s)
                   + (if decide (i <= k) then settledAt ps (k - i) else 0).
Proof.
  induction hooks as [|hook hooks IH]; intros i s.
  - exists [], s. simpl. rewrite app_nil_r. split_and!; try done.
    intros k. unfold settledAt. rewrite lookup_nil. destruct (decide (i <= k)); lia.
  - set (s0 := logActivity (Started i hook event) s).
    destruct (runSegment_run event (swallow (handler hook)) s0 (swallow_Quiet _))
      as (p & s1 & Hseg & Hp & (Ha1 & Hc1 & Hs1 & Ho1) & Hact1).
    destruct (noteSettled_run i p s1) as [(Ha2 & Hc2 & Hs2 & Ho2) Hcnt2].
    destruct (IH (S i) (noteSettled i p s1))
      as (ps & s' & Hrest & Hlen & Hq & Ha & Hc & Ho & Hst & Hcnt).
    exists (p :: ps), s'. split_and!.
    + cbn [startAll]. unfold bind at 1. unfold startWrapper. fold s0. rewrite Hseg.
      by rewrite (bind_Normal _ _ _ _ _ Hrest).
    + simpl. by rewrite Hlen.
    + by constructor.
    + by rewrite Ha, Ha2, Ha1.
    + by rewrite Hc, Hc2, Hc1.
    + by rewrite Ho, Ho2, Ho1.
    + rewrite Hst, Hs2, Hs1. subst s0. simpl. rewrite started_app. simpl.
      rewrite <- (assoc_L (++)). simpl. rewrite Nat.add_0_r. do 2 f_equal.
      apply imap_ext. intros k h _. simpl. f_equal. f_equal. lia.
    + intros k. rewrite Hcnt, Hcnt2, Hact1. subst s0. simpl.
      rewrite finishedCount_app. unfold finishedCount at 2. simpl.
      destruct (decide (k = i)) as [->|Hne].
      * destruct (decide (S i <= i)); [lia|]. destruct (decide (i <= i)); [|lia].
        rewrite Nat.sub_diag. unfold settledAt. simpl. lia.
      * destruct (decide (S i <= k)), (decide (i <= k)); try lia.
        replace (k - i) with (S (k - S i)) by lia. rewrite settledAt_cons. lia.
Qed.

Lemma settleOn_run event i p :
  Quiet p ->
  forall s, exists s',
    settleOn event i p s = (Normal tt, s') /\ Waited s s'
    /\ forall k, finishedCount k (activity s')
                 = finishedCount k (activity s) + (if decide (k = i) then 1 else 0).
Proof.
  induction 1 as [|effect next Hnext IH]; intros s; simpl.
  - eexists. split; [reflexivity|]. apply logFinished_run.
  - destruct (logResumed_run i s) as [Hw1 Hcnt1].
    destruct (objects s !! event) as [o|] eqn:Ho.
    + destruct (applyEffect_Waited event o effect (logActivity (Resumed i) s))
        as [Hw2 Hact2].
      destruct (IH (o, memory s) (applyEffect event o effect (logActivity (Resumed i) s)))
        as (s' & Hrun & Hw3 & Hcnt3).
      exists s'. split; [exact Hrun|]. split.
      * eapply Waited_trans; [exact Hw1|]. eapply Waited_trans; [exact Hw2|exact Hw3].
      * intros k. by rewrite Hcnt3, Hact2, Hcnt1.
    + eexists. split; [reflexivity|].
      destruct (logFinished_run i (logActivity (Resumed i) s)) as [Hw2 Hcnt2].
      split; [by eapply Waited_trans|].
      intros k. by rewrite Hcnt2, Hcnt1.
Qed.

Lemma settleRest_run event ps : forall i s,
  Forall Quiet ps ->
  exists s',
    settleRest event i ps s = (Normal tt, s') /\ Waited s s'
    /\ forall k, finishedCount k (activity s')
                 + (if decide (i <= k) then settledAt ps (k - i) else 0)
                 = finishedCount k (activity s)
                   + (if decide (i <= k < i + length ps) then 1 else 0).
Proof.
  induction ps as [|p ps IH]; intros i s Hq.
  - exists s. split_and!; [done|apply Waited_refl|].
    intros k. unfold settledAt. rewrite lookup_nil. simpl.
    destruct (decide (i <= k)), (decide (i <= k < i + 0)); lia.
  - apply Forall_cons in Hq as [Hp Hq].
    assert (Hidx : forall k s1 s2 (d : nat),
      (finishedCount k (activity s2)
       + (if decide (S i <= k) then settledAt ps (k - S i) else 0)
       = finishedCount k (activity s1)
         + (if decide (S i <= k < S i + length ps) then 1 else 0)) ->
      finishedCount k (activity s1) + (if decide (k = i) then settledAt [p] 0 else 0)
      = finishedCount k (activity s) + (if decide (k = i) then 1 else 0) ->
      finishedCount k (activity s2)
      + (if decide (i <= k) then settledAt (p :: ps) (k - i) else 0)
      = finishedCount k (activity s)
        + (if decide (i <= k < i + length (p :: ps)) then 1 else 0)).
    { intros k s1 s2 _ H1 H2. simpl.
      destruct (decide (k = i)) as [->|Hne].
      - rewrite Nat.sub_diag.
        destruct (decide (S i <= i)); [lia|].
        destruct (decide (S i <= i < S i + length ps)); [lia|].
        destruct (decide (i <= i)); [|lia].
        destruct (decide (i <= i < i + S (length ps))); [|lia].
        change (settledAt (p :: ps) 0) with (settledAt [p] 0). lia.
      - destruct (decide (i <= k)).
        + replace (k - i) with (S (k - S i)) by lia. rewrite settledAt_cons.
          destruct (decide (S i <= k)); [|lia].
          destruct (decide (S i <= k < S i + length ps)),
            (decide (i <= k < i + S (length ps))); lia.
        + destruct (decide (S i <= k)); [lia|].
          destruct (decide (S i <= k < S i + length ps)); [lia|].
          destruct (decide (i <= k < i + S (length ps))); lia. }
    destruct Hp as [|effect next Hnext].
    + destruct (IH (S i) s Hq) as (s' & Hrun & Hw & Hcnt).
      exists s'. split_and!; [exact Hrun|exact Hw|].
      intros k. apply (Hidx k s s' 0 (Hcnt k)).
      unfold settledAt. simpl. lia.
    + destruct (settleOn_run event i (Suspend effect next) (Quiet_pending _ _ Hnext) s)
        as (s1 & Hrun1 & Hw1 & Hcnt1).
      destruct (IH (S i) s1 Hq) as (s' & Hrun & Hw & Hcnt).
      exists s'. split_and!.
      * cbn [settleRest]. by rewrite (bind_Normal _ _ _ _ _ Hrun1).
      * by eapply Waited_trans.
      * intros k. apply (Hidx k s1 s' 0 (Hcnt k)).
        rewrite Hcnt1. unfold settledAt. simpl. destruct (decide (k = i)); lia.
Qed.

Lemma wake_run event i ps s :
  Forall Quiet ps ->
  exists ps' s',
    wake event i ps s = (Normal ps', s')
    /\ Forall Quiet ps' /\ length ps' = length ps /\ Waited s s'
    /\ forall k, finishedCount k (activity s') + settledAt ps k
                 = finishedCount k (activity s) + settledAt ps' k.
Proof.
  intros Hq. unfold wake.
  destruct (ps !! i) as [[c|effect next]|] eqn:Hi;
    try (exists ps, s; split_and!; [done|done|done|apply Waited_refl|done]).
  assert (Hp : Quiet (Suspend effect next)) by (eapply Forall_lookup_1; eauto).
  destruct (logResumed_run i s) as [Hw0 Hcnt0].
  destruct (runSegment_run event _ (logActivity (Resumed i) s) Hp)
    as (p' & s1 & Hseg & Hp' & Hw1 & Hact1).
  destruct (noteSettled_run i p' s1) as [Hw2 Hcnt2].
  rewrite Hseg. exists (<[i := p']> ps), (noteSettled i p' s1). split_and!.
  - done.
  - by apply Forall_insert.
  - apply length_insert.
  - eapply Waited_trans; [exact Hw0|]. by eapply Waited_trans.
  - intros k. rewrite Hcnt2, Hact1, Hcnt0. unfold settledAt.
    destruct (decide (k = i)) as [->|Hne].
    + rewrite Hi, list_lookup_insert_eq by (by eapply lookup_lt_Some).
      simpl. lia.
    + rewrite list_lookup_insert_ne by done. by rewrite Nat.add_0_r.
Qed.

Lemma forallb_isSettled_settledAt (ps : list (@Promise World)) k :
  forallb isSettled ps = true -> k < length ps -> settledAt ps k = 1.
Proof.
  intros Hall Hk. unfold settledAt, Promise in *.
  destruct (ps !! k) as [p|] eqn:Hp; [|apply lookup_ge_None in Hp; lia].
  rewrite forallb_forall in Hall.
  specialize (Hall p (proj1 (list_elem_of_In _ _) (list_elem_of_lookup_2 _ _ _ Hp))).
  by destruct p.
Qed.

Lemma promiseAll_run event schedule : forall ps s,
  Forall Quiet ps ->
  exists s',
    promiseAll event schedule ps s = (Normal tt, s') /\ Waited s s'
    /\ forall k, finishedCount k (activity s') + settledAt ps k
                 = finishedCount k (activity s)
                   + (if decide (k < length ps) then 1 else 0).
Proof.
  induction schedule as [|i schedule IH]; intros ps s Hq.
  - cbn [promiseAll]. rewrite (Quiet_rejection _ Hq).
    destruct (forallb isSettled ps) eqn:Hall.
    + exists s. split_and!; [done|apply Waited_refl|].
      intros k. destruct (decide (k < length ps)).
      * by rewrite forallb_isSettled_settledAt.
      * rewrite settledAt_ge by lia. lia.
    + destruct (settleRest_run event ps 0 s Hq) as (s' & Hrun & Hw & Hcnt).
      exists s'. split_and!; [done|done|].
      intros k. specialize (Hcnt k). rewrite Nat.sub_0_r in Hcnt.
      destruct (decide (0 <= k)); [|lia].
      destruct (decide (0 <= k < 0 + length ps)), (decide (k < length ps)); lia.
  - cbn [promiseAll]. rewrite (Quiet_rejection _ Hq).
    destruct (forallb isSettled ps) eqn:Hall.
    + exists s. split_and!; [done|apply Waited_refl|].
      intros k. destruct (decide (k < length ps)).
      * by rewrite forallb_isSettled_settledAt.
      * rewrite settledAt_ge by lia. lia.
    + destruct (wake_run event i ps s Hq) as (ps' & s1 & Hwake & Hq' & Hlen & Hw1 & Hcnt1).
      destruct (IH ps' s1 Hq') as (s' & Hrun & Hw & Hcnt).
      exists s'. split_and!.
      * by rewrite (bind_Normal _ _ _ _ _ Hwake).
      * by eapply Waited_trans.
      * intros k. specialize (Hcnt k). specialize (Hcnt1 k). rewrite Hlen in Hcnt. lia.
Qed.

Lemma runWorkspaceBootstrapAfter_run registrations event schedule s regs :
  arrays s !! registrations = Some regs ->
  exists s',
    runWorkspaceBootstrapAfter registrations event schedule s = (Normal tt, s')
    /\ arrays s' = arrays (afterGetHooks workspace_bootstrap_after regs s)
    /\ calls s' = calls s
    /\ length (objects s') = length (objects s)
    /\ started (activity s')
       = started (activity s)
         ++ imap (fun k h => (k, h, event)) (hooksFor workspace_bootstrap_after regs)
    /\ forall k, finishedCount k (activity s')
                 = finishedCount k (activity s)
                   + (if decide (k < length (hooksFor workspace_bootstrap_after regs))
                      then 1 else 0).
Proof.
  intros Hregs.
  destruct (startAll_run event (hooksFor workspace_bootstrap_after regs) 0
              (afterGetHooks workspace_bootstrap_after regs s))
    as (ps & s1 & Hstart & Hlen & Hq & Ha1 & Hc1 & Ho1 & Hst1 & Hcnt1).
  destruct (promiseAll_run event schedule ps s1 Hq)
    as (s' & Hall & (Ha & Hc & Hst & Ho) & Hcnt).
  exists s'. split_and!.
  - unfold runWorkspaceBootstrapAfter.
    rewrite (bind_Normal _ _ _ _ _ (getHooks_run _ _ _ _ Hregs)).
    rewrite (bind_Normal _ _ _ _ _ (readArray_run _ _ _ (afterGetHooks_lookup _ _ _))).
    by rewrite (bind_Normal _ _ _ _ _ Hstart).
  - by rewrite Ha, Ha1.
  - by rewrite Hc, Hc1.
  - by rewrite Ho, Ho1.
  - by rewrite Hst, Hst1.
  - intros k. specialize (Hcnt k). specialize (Hcnt1 k).
    rewrite Nat.sub_0_r in Hcnt1. simpl in Hcnt1.
    destruct (decide (0 <= k)); [|lia]. rewrite Hlen in Hcnt. lia.
Qed.

(** ** Reading the histories *)

Lemma newCalls_app s s' cs : calls s' = calls s ++ cs -> newCalls s s' = cs.
Proof. unfold newCalls. intros ->. by rewrite drop_app_length. Qed.

Lemma newCalls_afterGetHooks name regs s s' :
  newCalls (afterGetHooks name regs s) s' = newCalls s s'.
Proof. reflexivity. Qed.

Lemma RanFresh_newCalls name regs s cs s' :
  RanFresh (afterGetHooks name regs s) cs s' -> newCalls s s' = cs.
Proof. intros (H & _). by apply newCalls_app. Qed.

Lemma RanOn_newCalls event name regs s cs s' :
  RanOn event (afterGetHooks name regs s) cs s' -> newCalls s s' = cs.
Proof. intros (H & _). by apply newCalls_app. Qed.

Lemma Chain_callee {V} (mkArg : V -> EventObject) update n w current hooks cs w' final :
  Chain mkArg update n w current hooks cs w' final -> map callee cs = hooks.
Proof. induction 1; simpl; congruence. Qed.

Lemma Chain_argRef {V} (mkArg : V -> EventObject) update n w current hooks cs w' final :
  Chain mkArg update n w current hooks cs w' final ->
  map argRef cs = seq n (length cs).
Proof. induction 1; simpl; [done|]. by f_equal. Qed.

Lemma Chain_args {V} (mkArg : V -> EventObject) update n w current hooks cs w' final :
  Chain mkArg update n w current hooks cs w' final ->
  Forall (fun c => exists v, argAtCall c = mkArg v) cs.
Proof. induction 1; constructor; eauto. Qed.

Lemma Chain_threw {V} (mkArg : V -> EventObject) (field : HandlerResult.t -> option V)
  n w current hooks cs w' final :
  Chain mkArg (replaceBy field) n w current hooks cs w' final ->
  Forall threw cs -> final = current.
Proof.
  induction 1 as [|n w current hook hooks c cs w' final _ _ _ _ _ _ IH]; [done|].
  intros Hall. apply Forall_cons in Hall as [[err Hc] Hall].
  rewrite IH by done. unfold replaceBy. by rewrite Hc.
Qed.

Lemma Handed_callee event o w hooks cs o' w' :
  Handed event o w hooks cs o' w' -> map callee cs = hooks.
Proof. induction 1; simpl; congruence. Qed.

Lemma threw_fragment cs : Forall threw cs -> omap fragment cs = [].
Proof.
  induction 1 as [|c cs [err Hc] _ IH]; [done|].
  simpl. unfold fragment at 1. by rewrite Hc.
Qed.

Lemma threw_setsSkip cs : Forall threw cs -> existsb setsSkip cs = false.
Proof.
  induction 1 as [|c cs [err Hc] _ IH]; [done|].
  simpl. unfold setsSkip at 1. by rewrite Hc.
Qed.

Lemma threw_Verdict cs rest res :
  Verdict cs rest res -> Forall threw cs ->
  res = SubagentPromptValidateResult.mk false None.
Proof.
  intros [(_ & _ & ->)|(cs0 & c & -> & _ & Hc & _)] Hall; [done|].
  apply Forall_app in Hall as [_ Hall]. apply Forall_cons in Hall as [[err Herr] _].
  unfold blocks in Hc. by rewrite Herr in Hc.
Qed.

Lemma existsb_setsSkip cs :
  existsb setsSkip cs = true
  <-> exists c result, c ∈ cs /\ outcome c = Normal (Some result)
        /\ HandlerResult.skip result = Some true.
Proof.
  rewrite existsb_exists. split.
  - intros (c & Hin & Hc). apply list_elem_of_In in Hin.
    unfold setsSkip in Hc.
    destruct (outcome c) as [[result|]|err] eqn:Hout; simpl in Hc; try done.
    destruct (HandlerResult.skip result) as [[|]|] eqn:Hskip; simpl in Hc; try done.
    by exists c, result.
  - intros (c & result & Hin & Hout & Hskip). exists c.
    split; [by apply list_elem_of_In|]. unfold setsSkip. by rewrite Hout; simpl; rewrite Hskip.
Qed.

(** ** Arrays are only ever added *)

Lemma KeepsArrays_ret {A} (a : A) : KeepsArrays (@ret World A a).
Proof. done. Qed.

Lemma KeepsArrays_throw {A} err : KeepsArrays (@throw World A err).
Proof. done. Qed.

Lemma KeepsArrays_bind {A B} (m : @M World A) (k : A -> @M World B) :
  KeepsArrays m -> (forall a, KeepsArrays (k a)) -> KeepsArrays (bind m k).
Proof.
  intros Hm Hk s. unfold bind. specialize (Hm s).
  destruct (m s) as [[a|err] s1]; simpl in *; [|done]. by rewrite Hk.
Qed.

Lemma KeepsArrays_tryCatch {A} (body : @M World A) handle :
  KeepsArrays body -> (forall err, KeepsArrays (handle err)) ->
  KeepsArrays (tryCatch body handle).
Proof.
  intros Hm Hk s. unfold tryCatch. specialize (Hm s).
  destruct (body s) as [[a|err] s1]; simpl in *; [done|]. by rewrite Hk.
Qed.

Lemma KeepsArrays_readArray a : KeepsArrays (@readArray World a).
Proof. intros s. unfold readArray. by destruct (arrays s !! a). Qed.

Lemma KeepsArrays_readObject l : KeepsArrays (@readObject World l).
Proof. intros s. unfold readObject. by destruct (objects s !! l). Qed.

Lemma KeepsArrays_allocObject o : KeepsArrays (@allocObject World o).
Proof. done. Qed.

Lemma KeepsArrays_awaitHandler hook arg : KeepsArrays (awaitHandler hook arg).
Proof.
  intros s. unfold awaitHandler. destruct (objects s !! arg) as [o|]; [|done].
  by destruct (settle (handler hook) (o, memory s)) as [c [o' w']].
Qed.

Lemma bind_arrays {A B} (m : @M World A) (k : A -> @M World B) s :
  (forall a, KeepsArrays (k a)) ->
  arrays (snd (bind m k s)) = arrays (snd (m s)).
Proof.
  intros Hk. unfold bind. destruct (m s) as [[a|err] s1]; simpl; [|done]. apply Hk.
Qed.

(** ** The claims *)

(** C1.  None of the six invocation functions ever throws or rejects,
    whatever the handlers do: each returns a result of its own shape, and
    when every handler it called threw, that result is the identity
    ([event.tools], [event.skillsPrompt], the empty footer, the files with
    [skip] false, nothing, [block] false). *)
Theorem runner_never_throws registrations event schedule s regs :
  arrays s !! registrations = Some regs ->
  let runner := createSuperpackHookRunner registrations in
  (forall e, objects s !! event = Some (ToolsFilterEvent e) ->
     exists res s',
       runner_runSystemPromptToolsFilter runner event s = (Normal res, s')
       /\ (Forall threw (newCalls s s') ->
           res = SystemPromptToolsFilterResult.mk (SystemPromptToolsFilterEvent.tools e)))
  /\ (forall e, objects s !! event = Some (SkillsFilterEvent e) ->
     exists res s',
       runner_runSystemPromptSkillsFilter runner event s = (Normal res, s')
       /\ (Forall threw (newCalls s s') ->
           res = SystemPromptSkillsFilterResult.mk
                   (SystemPromptSkillsFilterEvent.skillsPrompt e)))
  /\ (forall e, objects s !! event = Some (FooterEvent e) ->
     exists res s',
       runner_runSystemPromptFooter runner event s = (Normal res, s')
       /\ (Forall threw (newCalls s s') -> res = SystemPromptFooterResult.mk ""))
  /\ (forall e, objects s !! event = Some (BootstrapBeforeEvent e) ->
     exists res s',
       runner_runWorkspaceBootstrapBefore runner event s = (Normal res, s')
       /\ (Forall threw (newCalls s s') ->
           res = WorkspaceBootstrapBeforeResult.mk
                   (WorkspaceBootstrapBeforeEvent.files e) false))
  /\ (forall e, objects s !! event = Some (BootstrapAfterEvent e) ->
     exists s',
       runner_runWorkspaceBootstrapAfter runner event schedule s = (Normal tt, s'))
  /\ (forall e, objects s !! event = Some (ValidateEvent e) ->
     exists res s',
       runner_runSubagentPromptValidate runner event s = (Normal res, s')
       /\ (Forall threw (newCalls s s') ->
           res = SubagentPromptValidateResult.mk false None)).
Proof.
  intros Hregs runner. subst runner. cbn [createSuperpackHookRunner
    runner_runSystemPromptToolsFilter runner_runSystemPromptSkillsFilter
    runner_runSystemPromptFooter runner_runWorkspaceBootstrapBefore
    runner_runWorkspaceBootstrapAfter runner_runSubagentPromptValidate].
  split_and!; intros e Hev.
  - destruct (runSystemPromptToolsFilter_run _ _ _ _ _ Hregs Hev)
      as (cs & final & s' & Hrun & Hchain & Hran).
    exists (SystemPromptToolsFilterResult.mk final), s'. split; [done|].
    rewrite (RanFresh_newCalls _ _ _ _ _ Hran). intros Hall.
    by rewrite (Chain_threw _ _ _ _ _ _ _ _ _ Hchain Hall).
  - destruct (runSystemPromptSkillsFilter_run _ _ _ _ _ Hregs Hev)
      as (cs & final & s' & Hrun & Hchain & Hran).
    exists (SystemPromptSkillsFilterResult.mk final), s'. split; [done|].
    rewrite (RanFresh_newCalls _ _ _ _ _ Hran). intros Hall.
    by rewrite (Chain_threw _ _ _ _ _ _ _ _ _ Hchain Hall).
  - destruct (runSystemPromptFooter_run _ _ _ _ _ Hregs Hev)
      as (cs & o' & s' & Hrun & _ & _ & Hran).
    eexists _, s'. split; [exact Hrun|].
    rewrite (RanOn_newCalls _ _ _ _ _ _ Hran). intros Hall.
    by rewrite (threw_fragment _ Hall).
  - destruct (runWorkspaceBootstrapBefore_run _ _ _ _ _ Hregs Hev)
      as (cs & final & s' & Hrun & Hchain & Hran).
    eexists _, s'. split; [exact Hrun|].
    rewrite (RanFresh_newCalls _ _ _ _ _ Hran). intros Hall.
    by rewrite (Chain_threw _ _ _ _ _ _ _ _ _ Hchain Hall), (threw_setsSkip _ Hall).
  - destruct (runWorkspaceBootstrapAfter_run _ event schedule _ _ Hregs)
      as (s' & Hrun & _). by exists s'.
  - destruct (runSubagentPromptValidate_run _ _ _ _ _ Hregs Hev)
      as (tried & rest & cs & o' & res & s' & Hrun & _ & _ & _ & Hran & Hv).
    exists res, s'. split; [exact Hrun|].
    rewrite (RanOn_newCalls _ _ _ _ _ _ Hran). intros Hall.
    by eapply threw_Verdict.
Qed.

(** C2.  [runSubagentPromptValidate] tries the handlers one at a time in
    descending-priority order, each on the caller's event.  The calls it
    makes are those of [tried], a front part of the sorted registrations;
    either none of them blocked, all registrations were tried and the
    result is [{block: false}], or the last call made is the first that
    blocked, the result is [{block: true, reason}] with that call's
    reason, and the registrations in [rest] were never called. *)
Theorem validate_first_block_wins registrations event s regs e :
  arrays s !! registrations = Some regs ->
  objects s !! event = Some (ValidateEvent e) ->
  exists tried rest res s' o',
    runSubagentPromptValidate registrations event s = (Normal res, s')
    /\ hooksFor subagent_prompt_validate regs = tried ++ rest
    /\ descending (hooksFor subagent_prompt_validate regs)
    /\ Handed event (ValidateEvent e) (memory s) tried (newCalls s s') o' (memory s')
    /\ Verdict (newCalls s s') rest res.
Proof.
  intros Hregs Hev.
  destruct (runSubagentPromptValidate_run _ _ _ _ _ Hregs Hev)
    as (tried & rest & cs & o' & res & s' & Hrun & Hsplit & Hhanded & _ & Hran & Hv).
  exists tried, rest, res, s', o'.
  rewrite (RanOn_newCalls _ _ _ _ _ _ Hran).
  split_and!; try done. apply hooksFor_descending.
Qed.



Lemma Chain_after {V} (mkArg : V -> EventObject) update before :
  forall n w current hooks c after w' final,
    Chain mkArg update n w current hooks (before ++ c :: after) w' final ->
    exists n' current' hooks',
      Chain mkArg update n' (memoryAfterCall c) (update current' (outcome c))
        hooks' after w' final.
Proof.
  induction before as [|c0 before IH];
    intros n w current hooks c after w' final Hchain; simpl in Hchain.
  - inversion Hchain; subst. eauto.
  - inversion Hchain; subst. eapply IH; eauto.
Qed.

Lemma Chain_lacks {V} (mkArg : V -> EventObject) (field : HandlerResult.t -> option V)
  n w current hooks cs w' final :
  Chain mkArg (replaceBy field) n w current hooks cs w' final ->
  Forall (lacks field) cs -> final = current.
Proof.
  induction 1 as [|n w current hook hooks c cs w' final _ _ _ _ _ _ IH]; [done|].
  intros Hall. apply Forall_cons in Hall as [Hc Hall].
  rewrite IH by done. unfold replaceBy. unfold lacks in Hc. by rewrite Hc.
Qed.

Lemma Chain_spares {V} (mkArg : V -> EventObject) update n w current hooks cs w' final :
  Chain mkArg update n w current hooks cs w' final ->
  Forall sparesArrays cs ->
  (forall a xs, toolArrays w !! a = Some xs -> toolArrays w' !! a = Some xs)
  /\ (forall a xs, fileArrays w !! a = Some xs -> fileArrays w' !! a = Some xs).
Proof.
  induction 1 as [|n w current hook hooks c cs w' final _ _ _ Hw _ _ IH]; [done|].
  intros Hcs. apply Forall_cons in Hcs as [[Htools Hfiles] Hcs].
  destruct (IH Hcs) as [IHtools IHfiles]. subst w.
  split; intros a xs Ha; [by apply IHtools, Htools | by apply IHfiles, Hfiles].
Qed.

(** The result of a chain is the value of the last call that brought one
    back, and the arrays are as that call left them if the later calls
    spare them. *)
Lemma Chain_lastReturned {V} (mkArg : V -> EventObject)
  (field : HandlerResult.t -> option V) n w current hooks cs w' final c v :
  Chain mkArg (replaceBy field) n w current hooks cs w' final ->
  lastReturned field cs c v ->
  final = v
  /\ (Forall sparesArrays cs ->
      (forall a xs, toolArrays (memoryAfterCall c) !! a = Some xs ->
                    toolArrays w' !! a = Some xs)
      /\ (forall a xs, fileArrays (memoryAfterCall c) !! a = Some xs ->
                       fileArrays w' !! a = Some xs)).
Proof.
  intros Hchain (before & after & -> & Hr & Hlacks).
  destruct (Chain_after _ _ _ _ _ _ _ _ _ _ _ Hchain)
    as (n' & current' & hooks' & Hafter).
  split.
  - rewrite (Chain_lacks _ _ _ _ _ _ _ _ _ Hafter Hlacks).
    unfold replaceBy. by rewrite Hr.
  - intros Hspare. apply (Chain_spares _ _ _ _ _ _ _ _ _ Hafter).
    apply Forall_app in Hspare as [_ Hspare].
    by apply Forall_cons in Hspare as [_ Hspare].
Qed.

(** C4.  The three functions of the sequential-modifying model run the
    chain of the specification: [current] starts as the event's mutable
    field, every handler in priority order is called on the event with
    that field replaced by [current], a result that carries the field
    replaces [current], a throw or a missing result leaves it, and the
    function returns the last [current]: the value of the last call that
    brought one back.  For tools and files [current] is, as in the
    source, the reference to an array that the handlers share: each call
    starts in the memory the one before left and the function ends in the
    memory the last one left, so the list behind the returned reference
    is the list the handlers left there; it is the list that the last
    call which brought a value back left there if the calls change no
    array that exists. *)
Theorem modifying_chain registrations event s regs :
  arrays s !! registrations = Some regs ->
  (forall e, objects s !! event = Some (ToolsFilterEvent e) ->
     exists final s',
       runSystemPromptToolsFilter registrations event s
       = (Normal (SystemPromptToolsFilterResult.mk final), s')
       /\ Chain (toolsArg e) (replaceBy HandlerResult.tools)
            (length (objects s)) (memory s) (SystemPromptToolsFilterEvent.tools e)
            (hooksFor system_prompt_tools_filter regs) (newCalls s s') (memory s') final
       /\ (forall c v, lastReturned HandlerResult.tools (newCalls s s') c v ->
           final = v
           /\ (Forall sparesArrays (newCalls s s') ->
               forall xs, toolArrays (memoryAfterCall c) !! v = Some xs ->
                          toolArrays (memory s') !! final = Some xs)))
  /\ (forall e, objects s !! event = Some (SkillsFilterEvent e) ->
     exists final s',
       runSystemPromptSkillsFilter registrations event s
       = (Normal (SystemPromptSkillsFilterResult.mk final), s')
       /\ Chain (skillsArg e) (replaceBy HandlerResult.skillsPrompt)
            (length (objects s)) (memory s) (SystemPromptSkillsFilterEvent.skillsPrompt e)
            (hooksFor system_prompt_skills_filter regs) (newCalls s s') (memory s') final
       /\ (forall c v, lastReturned HandlerResult.skillsPrompt (newCalls s s') c v ->
           final = v))
  /\ (forall e, objects s !! event = Some (BootstrapBeforeEvent e) ->
     exists final skip s',
       runWorkspaceBootstrapBefore registrations event s
       = (Normal (WorkspaceBootstrapBeforeResult.mk final skip), s')
       /\ Chain (filesArg e) (replaceBy HandlerResult.files)
            (length (objects s)) (memory s) (WorkspaceBootstrapBeforeEvent.files e)
            (hooksFor workspace_bootstrap_before regs) (newCalls s s') (memory s') final
       /\ (forall c v, lastReturned HandlerResult.files (newCalls s s') c v ->
           final = v
           /\ (Forall sparesArrays (newCalls s s') ->
               forall xs, fileArrays (memoryAfterCall c) !! v = Some xs ->
                          fileArrays (memory s') !! final = Some xs))).
Proof.
  intros Hregs. split_and!; intros e Hev.
  - destruct (runSystemPromptToolsFilter_run _ _ _ _ _ Hregs Hev)
      as (cs & final & s' & Hrun & Hchain & Hran).
    exists final, s'. rewrite (RanFresh_newCalls _ _ _ _ _ Hran).
    split_and!; [done..|]. intros c v Hlast.
    destruct (Chain_lastReturned _ _ _ _ _ _ _ _ _ _ _ Hchain Hlast) as [-> Hspare].
    split; [done|]. intros Hcs xs Hxs. by apply (proj1 (Hspare Hcs)).
  - destruct (runSystemPromptSkillsFilter_run _ _ _ _ _ Hregs Hev)
      as (cs & final & s' & Hrun & Hchain & Hran).
    exists final, s'. rewrite (RanFresh_newCalls _ _ _ _ _ Hran).
    split_and!; [done..|]. intros c v Hlast.
    by destruct (Chain_lastReturned _ _ _ _ _ _ _ _ _ _ _ Hchain Hlast) as [-> _].
  - destruct (runWorkspaceBootstrapBefore_run _ _ _ _ _ Hregs Hev)
      as (cs & final & s' & Hrun & Hchain & Hran).
    exists final, (existsb setsSkip cs), s'.
    rewrite (RanFresh_newCalls _ _ _ _ _ Hran).
    split_and!; [done..|]. intros c v Hlast.
    destruct (Chain_lastReturned _ _ _ _ _ _ _ _ _ _ _ Hchain Hlast) as [-> Hspare].
    split; [done|]. intros Hcs xs Hxs. by apply (proj2 (Hspare Hcs)).
Qed.

(** C5.  The [skip] flag that [runWorkspaceBootstrapBefore] returns is
    true exactly when some call returned (did not throw) a result whose
    [skip] is true; it does not end the dispatch: every handler of the
    sorted list is called and the files (the reference to the array of
    files, as in the source) go through the whole chain. *)
Theorem bootstrap_before_skip_is_monotonic_or registrations event s regs e :
  arrays s !! registrations = Some regs ->
  objects s !! event = Some (BootstrapBeforeEvent e) ->
  exists res s',
    runWorkspaceBootstrapBefore registrations event s = (Normal res, s')
    /\ (WorkspaceBootstrapBeforeResult.skip res = true
        <-> exists c result, c ∈ newCalls s s' /\ outcome c = Normal (Some result)
              /\ HandlerResult.skip result = Some true)
    /\ (forall before c later, newCalls s s' = before ++ c :: later ->
          setsSkip c = true -> WorkspaceBootstrapBeforeResult.skip res = true)
    /\ map callee (newCalls s s') = hooksFor workspace_bootstrap_before regs
    /\ Chain (filesArg e) (replaceBy HandlerResult.files)
         (length (objects s)) (memory s) (WorkspaceBootstrapBeforeEvent.files e)
         (hooksFor workspace_bootstrap_before regs) (newCalls s s') (memory s')
         (WorkspaceBootstrapBeforeResult.files res).
Proof.
  intros Hregs Hev.
  destruct (runWorkspaceBootstrapBefore_run _ _ _ _ _ Hregs Hev)
    as (cs & final & s' & Hrun & Hchain & Hran).
  eexists _, s'. split; [exact Hrun|].
  rewrite (RanFresh_newCalls _ _ _ _ _ Hran). simpl. split_and!.
  - apply existsb_setsSkip.
  - intros before c later -> Hc. rewrite existsb_app. simpl. rewrite Hc.
    by rewrite orb_true_r.
  - by eapply Chain_callee.
  - exact Hchain.
Qed.

(** C6.  [runSystemPromptFooter] calls every handler of the sorted list
    on the caller's event itself, and returns the non-empty fragments of
    the calls that returned one, in call order, joined by a newline: the
    empty string when there is none, ["A\nB"] for the fragments A and B. *)
Theorem footer_joins_fragments registrations event s regs e :
  arrays s !! registrations = Some regs ->
  objects s !! event = Some (FooterEvent e) ->
  exists res s' o',
    runSystemPromptFooter registrations event s = (Normal res, s')
    /\ Handed event (FooterEvent e) (memory s) (hooksFor system_prompt_footer regs)
         (newCalls s s') o' (memory s')
    /\ SystemPromptFooterResult.append res = join (omap fragment (newCalls s s'))
    /\ (omap fragment (newCalls s s') = [] -> SystemPromptFooterResult.append res = "")
    /\ (forall a b, omap fragment (newCalls s s') = [a; b] ->
          SystemPromptFooterResult.append res = (a ++ newline ++ b)%string).
Proof.
  intros Hregs Hev.
  destruct (runSystemPromptFooter_run _ _ _ _ _ Hregs Hev)
    as (cs & o' & s' & Hrun & Hhanded & _ & Hran).
  eexists _, s', o'. split; [exact Hrun|].
  rewrite (RanOn_newCalls _ _ _ _ _ _ Hran). simpl. split_and!; try done.
  - by intros ->.
  - by intros a b ->.
Qed.

Lemma Chain_nil_inv {V} (mkArg : V -> EventObject) update n w current cs w' final :
  Chain mkArg update n w current [] cs w' final -> cs = [] /\ w' = w /\ final = current.
Proof. by inversion 1. Qed.

Lemma Handed_nil_inv event o w cs o' w' :
  Handed event o w [] cs o' w' -> cs = [] /\ o' = o /\ w' = w.
Proof. by inversion 1. Qed.

Lemma RanFresh_Untouched name regs s s' w :
  RanFresh (afterGetHooks name regs s) [] s' -> memory s' = w -> w = memory s ->
  Untouched s s'.
Proof.
  intros (Hc & Ho & _ & Ha) Hw ->. unfold Untouched.
  simpl in *. by rewrite Hc, Ho, Ha, !app_nil_r.
Qed.

Lemma filter_nil_existsb {T} (p : T -> bool) (l : list T) :
  List.filter p l = [] -> existsb p l = false.
Proof.
  induction l as [|x l IH]; [done|]. simpl. by destruct (p x).
Qed.

Lemma hasHooks_run registrations name s regs :
  arrays s !! registrations = Some regs ->
  hasHooks registrations name s
  = (Normal (existsb (fun r => bool_decide (hookName r = name)) regs), s).
Proof.
  intros Hregs. unfold hasHooks, array_some.
  by rewrite (bind_Normal _ _ _ _ _ (readArray_run _ _ _ Hregs)).
Qed.

(** C7.  For a hook name without a matching registration, [hasHooks]
    returns false, and the invocation function of that hook returns the
    identity of its model without calling a handler or changing an
    object, the memory or the histories. *)
Theorem no_hooks_identity registrations event schedule s regs name :
  arrays s !! registrations = Some regs ->
  matching name regs = [] ->
  let runner := createSuperpackHookRunner registrations in
  runner_hasHooks runner name s = (Normal false, s)
  /\ match name with
     | system_prompt_tools_filter =>
         forall e, objects s !! event = Some (ToolsFilterEvent e) ->
           exists s',
             runner_runSystemPromptToolsFilter runner event s
             = (Normal (SystemPromptToolsFilterResult.mk
                          (SystemPromptToolsFilterEvent.tools e)), s')
             /\ Untouched s s'
     | system_prompt_skills_filter =>
         forall e, objects s !! event = Some (SkillsFilterEvent e) ->
           exists s',
             runner_runSystemPromptSkillsFilter runner event s
             = (Normal (SystemPromptSkillsFilterResult.mk
                          (SystemPromptSkillsFilterEvent.skillsPrompt e)), s')
             /\ Untouched s s'
     | system_prompt_footer =>
         forall e, objects s !! event = Some (FooterEvent e) ->
           exists s',
             runner_runSystemPromptFooter runner event s
             = (Normal (SystemPromptFooterResult.mk ""), s')
             /\ Untouched s s'
     | workspace_bootstrap_before =>
         forall e, objects s !! event = Some (BootstrapBeforeEvent e) ->
           exists s',
             runner_runWorkspaceBootstrapBefore runner event s
             = (Normal (WorkspaceBootstrapBeforeResult.mk
                          (WorkspaceBootstrapBeforeEvent.files e) false), s')
             /\ Untouched s s'
     | workspace_bootstrap_after =>
         forall e, objects s !! event = Some (BootstrapAfterEvent e) ->
           exists s',
             runner_runWorkspaceBootstrapAfter runner event schedule s = (Normal tt, s')
             /\ Untouched s s'
     | subagent_prompt_validate =>
         forall e, objects s !! event = Some (ValidateEvent e) ->
           exists s',
             runner_runSubagentPromptValidate runner event s
             = (Normal (SubagentPromptValidateResult.mk false None), s')
             /\ Untouched s s'
     end.
Proof.
  intros Hregs Hnone runner. subst runner. cbn [createSuperpackHookRunner
    runner_runSystemPromptToolsFilter runner_runSystemPromptSkillsFilter
    runner_runSystemPromptFooter runner_runWorkspaceBootstrapBefore
    runner_runWorkspaceBootstrapAfter runner_runSubagentPromptValidate runner_hasHooks].
  split.
  { rewrite (hasHooks_run _ _ _ _ Hregs). by rewrite (filter_nil_existsb _ _ Hnone). }
  pose proof (hooksFor_nil _ _ Hnone) as Hnil.
  destruct name; intros e Hev.
  - destruct (runSystemPromptToolsFilter_run _ _ _ _ _ Hregs Hev)
      as (cs & final & s' & Hrun & Hchain & Hran).
    rewrite Hnil in Hchain. apply Chain_nil_inv in Hchain as (-> & Hw & ->).
    exists s'. split; [exact Hrun|]. by eapply RanFresh_Untouched.
  - destruct (runSystemPromptSkillsFilter_run _ _ _ _ _ Hregs Hev)
      as (cs & final & s' & Hrun & Hchain & Hran).
    rewrite Hnil in Hchain. apply Chain_nil_inv in Hchain as (-> & Hw & ->).
    exists s'. split; [exact Hrun|]. by eapply RanFresh_Untouched.
  - destruct (runSystemPromptFooter_run _ _ _ _ _ Hregs Hev)
      as (cs & o' & s' & Hrun & Hhanded & Ho' & Hran).
    rewrite Hnil in Hhanded. apply Handed_nil_inv in Hhanded as (-> & -> & Hw).
    exists s'. split; [exact Hrun|].
    unfold runSystemPromptFooter in Hrun.
    rewrite (bind_Normal _ _ _ _ _ (getHooks_run _ _ _ _ Hregs)) in Hrun.
    rewrite (bind_Normal _ _ _ _ _ (readArray_run _ _ _ (afterGetHooks_lookup _ _ _)))
      in Hrun.
    rewrite Hnil in Hrun. injection Hrun as <-. by unfold Untouched.
  - destruct (runWorkspaceBootstrapBefore_run _ _ _ _ _ Hregs Hev)
      as (cs & final & s' & Hrun & Hchain & Hran).
    rewrite Hnil in Hchain. apply Chain_nil_inv in Hchain as (-> & Hw & ->).
    exists s'. split; [exact Hrun|]. by eapply RanFresh_Untouched.
  - exists (afterGetHooks workspace_bootstrap_after regs s). split; [|by unfold Untouched].
    unfold runWorkspaceBootstrapAfter.
    rewrite (bind_Normal _ _ _ _ _ (getHooks_run _ _ _ _ Hregs)).
    rewrite (bind_Normal _ _ _ _ _ (readArray_run _ _ _ (afterGetHooks_lookup _ _ _))).
    rewrite Hnil. by destruct schedule.
  - destruct (runSubagentPromptValidate_run _ _ _ _ _ Hregs Hev)
      as (tried & rest & cs & o' & res & s' & Hrun & Hsplit & Hhanded & Ho' & Hran & Hv).
    unfold runSubagentPromptValidate in Hrun.
    rewrite (bind_Normal _ _ _ _ _ (getHooks_run _ _ _ _ Hregs)) in Hrun.
    rewrite (bind_Normal _ _ _ _ _ (readArray_run _ _ _ (afterGetHooks_lookup _ _ _)))
      in Hrun.
    rewrite Hnil in Hrun. injection Hrun as <- <-.
    exists (afterGetHooks subagent_prompt_validate regs s).
    split; [|by unfold Untouched].
    unfold runSubagentPromptValidate.
    rewrite (bind_Normal _ _ _ _ _ (getHooks_run _ _ _ _ Hregs)).
    rewrite (bind_Normal _ _ _ _ _ (readArray_run _ _ _ (afterGetHooks_lookup _ _ _))).
    by rewrite Hnil.
Qed.

(** *** The notification handlers run to their ends *)

Lemma applyEffect_shared event o effect s :
  objects s !! event = Some o ->
  exists o',
    effect (o, memory s) = (o', memory (applyEffect event o effect s))
    /\ objects (applyEffect event o effect s) !! event = Some o'
    /\ objects (applyEffect event o effect s) = <[event := o']> (objects s).
Proof.
  intros Ho. unfold applyEffect. destruct (effect (o, memory s)) as [o' w']. simpl.
  exists o'. split_and!; [done| |done].
  apply list_lookup_insert_eq. by eapply lookup_lt_Some.
Qed.

(** A segment run by the runner is a step of the pool (or no step, for a
    promise that has settled). *)
Lemma runSegment_pool event p s o (ps : list (@Promise World)) i :
  ps !! i = Some p -> objects s !! event = Some o ->
  exists o',
    Interleaved (ps, (o, memory s))
      (<[i := fst (runSegment event p s)]> ps, (o', memory (snd (runSegment event p s))))
    /\ objects (snd (runSegment event p s)) !! event = Some o'
    /\ objects (snd (runSegment event p s)) = <[event := o']> (objects s).
Proof.
  intros Hi Ho. destruct p as [c|effect next]; simpl.
  - exists o. rewrite !list_insert_id by done. split_and!; [apply rtc_refl|done|done].
  - rewrite Ho. simpl.
    destruct (applyEffect_shared event o effect s Ho) as (o' & Heff & Hat & Hobj).
    exists o'. split_and!; [|done|done].
    apply rtc_once. rewrite <- Heff. by constructor.
Qed.

Lemma noteSettled_shared i (p : @Promise World) s :
  objects (noteSettled i p s) = objects s /\ memory (noteSettled i p s) = memory s.
Proof. unfold noteSettled. by destruct (isSettled p). Qed.

Lemma startAll_pool event hooks : forall i s o (done : list (@Promise World)),
  objects s !! event = Some o ->
  exists ps s' o',
    startAll event i hooks s = (Normal ps, s')
    /\ Interleaved (done ++ map (fun h => swallow (handler h)) hooks, (o, memory s))
         (done ++ ps, (o', memory s'))
    /\ objects s' !! event = Some o'
    /\ objects s' = <[event := o']> (objects s).
Proof.
  induction hooks as [|hook hooks IH]; intros i s o done Ho.
  - exists [], s, o. simpl.
    split_and!; [done|apply rtc_refl|done|by rewrite list_insert_id].
  - cbn [startAll map]. unfold bind at 1. unfold startWrapper.
    set (s0 := logActivity (Started i hook event) s).
    assert (Ho0 : objects s0 !! event = Some o) by done.
    assert (Hi : (done ++ swallow (handler hook)
                    :: map (fun h => swallow (handler h)) hooks) !! length done
                 = Some (swallow (handler hook))) by (by apply list_lookup_middle).
    destruct (runSegment_pool event _ s0 o _ _ Hi Ho0) as (o1 & Hstep & Hat1 & Hobj1).
    destruct (runSegment event (swallow (handler hook)) s0) as [p s1]. simpl in *.
    destruct (noteSettled_shared i p s1) as [Hno Hnm].
    destruct (IH (S i) (noteSettled i p s1) o1 (done ++ [p]))
      as (ps & s' & o' & Hrun & Hrest & Hat & Hobj); [by rewrite Hno|].
    exists (p :: ps), s', o'. split_and!.
    + unfold bind. by rewrite Hrun.
    + eapply rtc_trans; [exact Hstep|].
      rewrite insert_app_r_alt, Nat.sub_diag by done. simpl.
      rewrite Hnm in Hrest. by rewrite <- !app_assoc in Hrest.
    + done.
    + by rewrite Hobj, Hno, Hobj1, list_insert_insert_eq.
Qed.

Lemma wake_pool event i (ps : list (@Promise World)) s o :
  objects s !! event = Some o ->
  exists ps' s' o',
    wake event i ps s = (Normal ps', s')
    /\ Interleaved (ps, (o, memory s)) (ps', (o', memory s'))
    /\ objects s' !! event = Some o'
    /\ objects s' = <[event := o']> (objects s).
Proof.
  intros Ho. unfold wake.
  destruct (ps !! i) as [[c|effect next]|] eqn:Hi;
    try (exists ps, s, o;
         split_and!; [done|apply rtc_refl|done|by rewrite list_insert_id]).
  set (s0 := logActivity (Resumed i) s).
  assert (Ho0 : objects s0 !! event = Some o) by done.
  destruct (runSegment_pool event _ s0 o _ _ Hi Ho0) as (o1 & Hstep & Hat1 & Hobj1).
  destruct (runSegment event (Suspend effect next) s0) as [p s1]. simpl in *.
  destruct (noteSettled_shared i p s1) as [Hno Hnm].
  exists (<[i := p]> ps), (noteSettled i p s1), o1.
  split_and!; [done| by rewrite Hnm | by rewrite Hno | by rewrite Hno].
Qed.

Lemma settleOn_pool event i p :
  Quiet p ->
  forall s o (ps : list (@Promise World)) k,
    ps !! k = Some p -> objects s !! event = Some o ->
    exists s' o' p',
      settleOn event i p s = (Normal tt, s')
      /\ isSettled p' = true
      /\ Interleaved (ps, (o, memory s)) (<[k := p']> ps, (o', memory s'))
      /\ objects s' !! event = Some o'
      /\ objects s' = <[event := o']> (objects s).
Proof.
  induction 1 as [|effect next Hnext IH]; intros s o ps k Hk Ho; simpl.
  - exists (logActivity (Finished i) s), o, (Settled (Normal tt)). simpl.
    rewrite !list_insert_id by done. split_and!; [done|done|apply rtc_refl|done|done].
  - set (s0 := logActivity (Resumed i) s).
    assert (Ho0 : objects s0 !! event = Some o) by done.
    change (objects s !! event) with (objects s0 !! event). rewrite Ho0.
    destruct (applyEffect_shared event o effect s0 Ho0) as (o1 & Heff & Hat1 & Hobj1).
    destruct (IH (o, memory s) (applyEffect event o effect s0) o1
                (<[k := next (o, memory s)]> ps) k)
      as (s' & o' & p' & Hrun & Hp' & Hrest & Hat & Hobj); [|done|].
    { apply list_lookup_insert_eq. by eapply lookup_lt_Some. }
    exists s', o', p'. split_and!; [exact Hrun|done| |done|].
    + eapply rtc_trans; [|by rewrite list_insert_insert_eq in Hrest].
      apply rtc_once. change (memory s) with (memory s0). rewrite <- Heff.
      by constructor.
    + by rewrite Hobj, Hobj1, list_insert_insert_eq.
Qed.


Lemma settleRest_pool event (ps : list (@Promise World)) : forall i s o done,
  Forall Quiet ps -> objects s !! event = Some o ->
  exists s' o' ps',
    settleRest event i ps s = (Normal tt, s')
    /\ Forall (fun p => isSettled p = true) ps'
    /\ Interleaved (done ++ ps, (o, memory s)) (done ++ ps', (o', memory s'))
    /\ objects s' !! event = Some o'
    /\ objects s' = <[event := o']> (objects s).
Proof.
  induction ps as [|p ps IH]; intros i s o done Hq Ho.
  - exists s, o, []. simpl.
    split_and!; [done|constructor|apply rtc_refl|done|by rewrite list_insert_id].
  - apply Forall_cons in Hq as [Hp Hq].
    destruct Hp as [|effect next Hnext].
    + cbn [settleRest].
      destruct (IH (S i) s o (done ++ [Settled (Normal tt)]) Hq Ho)
        as (s' & o' & ps' & Hrun & Hall & Hrest & Hat & Hobj).
      exists s', o', (Settled (Normal tt) :: ps').
      split_and!; [done|by constructor| |done|done].
      by rewrite <- !app_assoc in Hrest.
    + cbn [settleRest]. unfold bind.
      assert (Hk : (done ++ Suspend effect next :: ps) !! length done
                   = Some (Suspend effect next)) by (by apply list_lookup_middle).
      destruct (settleOn_pool event i (Suspend effect next)
                  (Quiet_pending _ _ Hnext) s o _ _ Hk Ho)
        as (s1 & o1 & p' & Hrun1 & Hp' & Hstep & Hat1 & Hobj1).
      rewrite Hrun1.
      destruct (IH (S i) s1 o1 (done ++ [p']) Hq Hat1)
        as (s' & o' & ps' & Hrun & Hall & Hrest & Hat & Hobj).
      exists s', o', (p' :: ps').
      split_and!; [done|by constructor| |done|].
      * eapply rtc_trans; [exact Hstep|].
        rewrite insert_app_r_alt, Nat.sub_diag by done. simpl.
        by rewrite <- !app_assoc in Hrest.
      * by rewrite Hobj, Hobj1, list_insert_insert_eq.
Qed.

Lemma promiseAll_pool event schedule : forall (ps : list (@Promise World)) s o,
  Forall Quiet ps -> objects s !! event = Some o ->
  exists s' o' ps',
    promiseAll event schedule ps s = (Normal tt, s')
    /\ Forall (fun p => isSettled p = true) ps'
    /\ Interleaved (ps, (o, memory s)) (ps', (o', memory s'))
    /\ objects s' !! event = Some o'
    /\ objects s' = <[event := o']> (objects s).
Proof.
  assert (Hdone : forall (ps : list (@Promise World)) s o,
            forallb isSettled ps = true -> objects s !! event = Some o ->
            exists s' o' ps',
              (Normal tt, s) = (Normal tt, s')
              /\ Forall (fun p => isSettled p = true) ps'
              /\ Interleaved (ps, (o, memory s)) (ps', (o', memory s'))
              /\ objects s' !! event = Some o'
              /\ objects s' = <[event := o']> (objects s)).
  { intros ps s o Hall Ho. exists s, o, ps.
    split_and!; [done| |apply rtc_refl|done|by rewrite list_insert_id].
    apply Forall_forall. intros p Hp. apply list_elem_of_In in Hp.
    by apply (proj1 (forallb_forall _ _) Hall). }
  induction schedule as [|i schedule IH]; intros ps s o Hq Ho.
  - cbn [promiseAll]. rewrite (Quiet_rejection _ Hq).
    destruct (forallb isSettled ps) eqn:Hall; [by apply Hdone|].
    destruct (settleRest_pool event ps 0 s o [] Hq Ho)
      as (s' & o' & ps' & Hrun & Hset & Hrest & Hat & Hobj).
    by exists s', o', ps'.
  - cbn [promiseAll]. rewrite (Quiet_rejection _ Hq).
    destruct (forallb isSettled ps) eqn:Hall; [by apply Hdone|].
    unfold bind.
    destruct (wake_run event i ps s Hq) as (ps1 & s1 & Hwake & Hq1 & _).
    destruct (wake_pool event i ps s o Ho)
      as (ps1' & s1' & o1 & Hwake' & Hstep & Hat1 & Hobj1).
    rewrite Hwake in Hwake'. injection Hwake' as <- <-. rewrite Hwake.
    destruct (IH ps1 s1 o1 Hq1 Hat1)
      as (s' & o' & ps' & Hrun & Hset & Hrest & Hat & Hobj).
    exists s', o', ps'. split_and!; [done|done| |done|].
    + by eapply rtc_trans.
    + by rewrite Hobj, Hobj1, list_insert_insert_eq.
Qed.

(** What the wrappers run is what the handlers run: the wrapper only
    hides how a handler ended. *)
Lemma Interleaved_swallow {S R} (x y : list (Task S unit) * S) :
  Interleaved x y ->
  forall ts : list (Task S R), fst x = map swallow ts ->
  exists ts', fst y = map swallow ts' /\ Interleaved (ts, snd x) (ts', snd y).
Proof.
  induction 1 as [x|x y z Hstep _ IH]; intros ts Hx.
  - exists ts. split; [done|apply rtc_refl].
  - destruct Hstep as [ps i effect next st Hi]. simpl in *. subst ps.
    rewrite list_lookup_fmap in Hi.
    destruct (ts !! i) as [t|] eqn:Ht; [|done]. simpl in Hi.
    destruct t as [c|effect0 next0]; [done|]. simpl in Hi.
    injection Hi as <- <-.
    destruct (IH (<[i := next0 st]> ts)) as (ts' & Hz & Hrest).
    { by rewrite list_fmap_insert. }
    exists ts'. split; [done|].
    eapply rtc_trans; [|exact Hrest]. apply rtc_once. by constructor.
Qed.

Lemma isSettled_swallow {S R} (t : Task S R) : isSettled (swallow t) = isSettled t.
Proof. by destruct t. Qed.


Lemma runWorkspaceBootstrapAfter_pool registrations event schedule s regs o :
  arrays s !! registrations = Some regs ->
  objects s !! event = Some o ->
  exists s' runs o',
    runWorkspaceBootstrapAfter registrations event schedule s = (Normal tt, s')
    /\ Interleaved (map handler (hooksFor workspace_bootstrap_after regs), (o, memory s))
         (runs, (o', memory s'))
    /\ Forall (fun t => isSettled t = true) runs
    /\ objects s' = <[event := o']> (objects s).
Proof.
  intros Hregs Ho.
  set (hooks := hooksFor workspace_bootstrap_after regs).
  set (s0 := afterGetHooks workspace_bootstrap_after regs s).
  assert (Ho0 : objects s0 !! event = Some o) by done.
  destruct (startAll_run event hooks 0 s0) as (ps & s1 & Hstart & _ & Hq & _).
  destruct (startAll_pool event hooks 0 s0 o [] Ho0)
    as (ps0 & s10 & o1 & Hstart' & Hstep1 & Hat1 & Hobj1).
  rewrite Hstart in Hstart'. injection Hstart' as <- <-.
  destruct (promiseAll_pool event schedule ps s1 o1 Hq Hat1)
    as (s' & o' & ps' & Hall & Hset & Hstep2 & Hat & Hobj).
  assert (Hsteps : Interleaved (map swallow (map handler hooks), (o, memory s))
                     (ps', (o', memory s'))).
  { rewrite map_map. eapply rtc_trans; [exact Hstep1|exact Hstep2]. }
  destruct (Interleaved_swallow _ _ Hsteps (map handler hooks) eq_refl)
    as (runs & Hruns & Hraw). simpl in Hruns, Hraw.
  exists s', runs, o'. split_and!.
  - unfold runWorkspaceBootstrapAfter.
    rewrite (bind_Normal _ _ _ _ _ (getHooks_run _ _ _ _ Hregs)).
    rewrite (bind_Normal _ _ _ _ _ (readArray_run _ _ _ (afterGetHooks_lookup _ _ _))).
    by rewrite (bind_Normal _ _ _ _ _ Hstart).
  - exact Hraw.
  - subst ps'. apply Forall_fmap in Hset. eapply Forall_impl; [exact Hset|].
    intros t Ht. simpl in Ht. by rewrite isSettled_swallow in Ht.
  - by rewrite Hobj, Hobj1, list_insert_insert_eq.
Qed.

(** C8.  [runWorkspaceBootstrapAfter] calls every handler of the sorted
    list exactly once, each on the caller's event, and for every order in
    which the event loop resumes the suspended handlers it is fulfilled
    (never rejected) and only after each of the promises has settled,
    whether its handler returned or threw: the event and the memory it
    leaves are those reached by running the segments of all the handlers,
    in some interleaving, until every one of them has ended.  Executions
    can overlap: with two handlers that suspend, the second can run to its
    end between the start and the end of the first. *)
Theorem bootstrap_after_waits_for_all registrations event schedule s regs :
  arrays s !! registrations = Some regs ->
  (exists s',
     runWorkspaceBootstrapAfter registrations event schedule s = (Normal tt, s')
     /\ started (activity s')
        = started (activity s)
          ++ imap (fun k hook => (k, hook, event))
               (hooksFor workspace_bootstrap_after regs)
     /\ (forall k,
          finishedCount k (activity s')
          = finishedCount k (activity s)
            + (if decide (k < length (hooksFor workspace_bootstrap_after regs))
               then 1 else 0))
     /\ (forall o, objects s !! event = Some o ->
         exists runs o',
           Interleaved
             (map handler (hooksFor workspace_bootstrap_after regs), (o, memory s))
             (runs, (o', memory s'))
           /\ Forall (fun t => isSettled t = true) runs
           /\ objects s' = <[event := o']> (objects s)))
  /\ (exists a b s0 order,
        hookName a = workspace_bootstrap_after
        /\ hookName b = workspace_bootstrap_after
        /\ activity s0 = []
        /\ activity (snd (runWorkspaceBootstrapAfter 0 0 order s0))
           = [Started 0 a 0; Started 1 b 0; Resumed 1; Finished 1; Resumed 0; Finished 0]).
Proof.
  intros Hregs. split.
  - destruct (runWorkspaceBootstrapAfter_run _ event schedule _ _ Hregs)
      as (s' & Hrun & _ & _ & _ & Hst & Hcnt).
    exists s'. split_and!; [done..|].
    intros o Ho.
    destruct (runWorkspaceBootstrapAfter_pool _ event schedule _ _ _ Hregs Ho)
      as (s'' & runs & o' & Hrun' & Hsteps & Hset & Hobj).
    rewrite Hrun in Hrun'. injection Hrun' as <-. by exists runs, o'.
  - set (a := @mkRegistration World workspace_bootstrap_after
                (pausing (Throw "boom")) (Some 0%Z)).
    set (b := @mkRegistration World workspace_bootstrap_after
                (pausing (Normal None)) (Some 0%Z)).
    exists a, b, (mkState [[a; b]]
                    [BootstrapAfterEvent (WorkspaceBootstrapAfterEvent.mk "" [] [])]
                    (memory s) [] []), [1; 0].
    split_and!; reflexivity.
Qed.

Lemma Chain_fresh {V} (mkArg : V -> EventObject) update s current hooks cs w' final :
  Chain mkArg update (length (objects s)) (memory s) current hooks cs w' final ->
  Forall (fun c => objects s !! argRef c = None) cs /\ NoDup (map argRef cs).
Proof.
  intros Hchain. pose proof (Chain_argRef _ _ _ _ _ _ _ _ _ Hchain) as Hrefs. split.
  - apply Forall_forall. intros c Hc. apply lookup_ge_None.
    assert (Hin : argRef c ∈ seq (length (objects s)) (length cs)).
    { rewrite <- Hrefs. by apply list_elem_of_fmap_2. }
    apply elem_of_seq in Hin. lia.
  - rewrite Hrefs. apply NoDup_seq.
Qed.

Lemma RanFresh_frame name regs s cs s' l o :
  RanFresh (afterGetHooks name regs s) cs s' ->
  objects s !! l = Some o -> objects s' !! l = Some o.
Proof. intros (_ & -> & _) H. simpl. by apply lookup_app_l_Some. Qed.

Lemma Chain_memory {V} (mkArg : V -> EventObject) update n w current hooks cs w' final :
  Chain mkArg update n w current hooks cs w' final ->
  Forall (fun c => memoryAfterCall c = memoryAtCall c) cs -> w' = w.
Proof.
  induction 1 as [|n w current hook hooks c cs w' final _ _ _ Hw _ _ IH]; [done|].
  intros Hcs. apply Forall_cons in Hcs as [Hc Hcs]. rewrite (IH Hcs). congruence.
Qed.

(** C9.  In the three functions of the sequential-modifying model every
    handler is called on an object of its own: one that did not exist when
    the function was entered and that no other call receives.  When the
    call is made that object holds the original event's other fields and
    the current folded value (even if an earlier handler overwrote the
    object it was handed); for tools and files that value is the
    reference to the array, so the new object is a shallow copy that
    shares the array.  No event object that existed before, the caller's
    event among them, is changed; and the runner itself writes to no
    array: the memory it leaves is what the handlers' calls left, the
    memory it was given if every call left it as found. *)
Theorem modifying_handlers_get_fresh_events registrations event s regs :
  arrays s !! registrations = Some regs ->
  (forall e, objects s !! event = Some (ToolsFilterEvent e) ->
     exists res s',
       runSystemPromptToolsFilter registrations event s = (Normal res, s')
       /\ Forall (fun c => objects s !! argRef c = None) (newCalls s s')
       /\ NoDup (map argRef (newCalls s s'))
       /\ Forall (fun c => exists current,
            argAtCall c = ToolsFilterEvent (SystemPromptToolsFilterEvent.mk
              (SystemPromptToolsFilterEvent.agentId e)
              (SystemPromptToolsFilterEvent.promptMode e) current)) (newCalls s s')
       /\ Chain (toolsArg e) (replaceBy HandlerResult.tools)
            (length (objects s)) (memory s) (SystemPromptToolsFilterEvent.tools e)
            (hooksFor system_prompt_tools_filter regs) (newCalls s s') (memory s')
            (SystemPromptToolsFilterResult.tools res)
       /\ (forall l o, objects s !! l = Some o -> objects s' !! l = Some o)
       /\ (Forall (fun c => memoryAfterCall c = memoryAtCall c) (newCalls s s') ->
           memory s' = memory s))
  /\ (forall e, objects s !! event = Some (SkillsFilterEvent e) ->
     exists res s',
       runSystemPromptSkillsFilter registrations event s = (Normal res, s')
       /\ Forall (fun c => objects s !! argRef c = None) (newCalls s s')
       /\ NoDup (map argRef (newCalls s s'))
       /\ Forall (fun c => exists current,
            argAtCall c = SkillsFilterEvent (SystemPromptSkillsFilterEvent.mk
              (SystemPromptSkillsFilterEvent.agentId e)
              (SystemPromptSkillsFilterEvent.promptMode e) current)) (newCalls s s')
       /\ Chain (skillsArg e) (replaceBy HandlerResult.skillsPrompt)
            (length (objects s)) (memory s) (SystemPromptSkillsFilterEvent.skillsPrompt e)
            (hooksFor system_prompt_skills_filter regs) (newCalls s s') (memory s')
            (SystemPromptSkillsFilterResult.skillsPrompt res)
       /\ (forall l o, objects s !! l = Some o -> objects s' !! l = Some o)
       /\ (Forall (fun c => memoryAfterCall c = memoryAtCall c) (newCalls s s') ->
           memory s' = memory s))
  /\ (forall e, objects s !! event = Some (BootstrapBeforeEvent e) ->
     exists res s',
       runWorkspaceBootstrapBefore registrations event s = (Normal res, s')
       /\ Forall (fun c => objects s !! argRef c = None) (newCalls s s')
       /\ NoDup (map argRef (newCalls s s'))
       /\ Forall (fun c => exists current,
            argAtCall c = BootstrapBeforeEvent (WorkspaceBootstrapBeforeEvent.mk
              (WorkspaceBootstrapBeforeEvent.workspaceDir e) current
              (WorkspaceBootstrapBeforeEvent.isNewWorkspace e))) (newCalls s s')
       /\ Chain (filesArg e) (replaceBy HandlerResult.files)
            (length (objects s)) (memory s) (WorkspaceBootstrapBeforeEvent.files e)
            (hooksFor workspace_bootstrap_before regs) (newCalls s s') (memory s')
            (WorkspaceBootstrapBeforeResult.files res)
       /\ (forall l o, objects s !! l = Some o -> objects s' !! l = Some o)
       /\ (Forall (fun c => memoryAfterCall c = memoryAtCall c) (newCalls s s') ->
           memory s' = memory s)).
Proof.
  intros Hregs. split_and!; intros e Hev.
  - destruct (runSystemPromptToolsFilter_run _ _ _ _ _ Hregs Hev)
      as (cs & final & s' & Hrun & Hchain & Hran).
    eexists _, s'. split; [exact Hrun|].
    rewrite (RanFresh_newCalls _ _ _ _ _ Hran).
    destruct (Chain_fresh _ _ _ _ _ _ _ _ Hchain) as [Hfresh Hdistinct].
    split_and!; try done.
    + exact (Chain_args _ _ _ _ _ _ _ _ _ Hchain).
    + intros l o. by eapply RanFresh_frame.
    + by eapply Chain_memory.
  - destruct (runSystemPromptSkillsFilter_run _ _ _ _ _ Hregs Hev)
      as (cs & final & s' & Hrun & Hchain & Hran).
    eexists _, s'. split; [exact Hrun|].
    rewrite (RanFresh_newCalls _ _ _ _ _ Hran).
    destruct (Chain_fresh _ _ _ _ _ _ _ _ Hchain) as [Hfresh Hdistinct].
    split_and!; try done.
    + exact (Chain_args _ _ _ _ _ _ _ _ _ Hchain).
    + intros l o. by eapply RanFresh_frame.
    + by eapply Chain_memory.
  - destruct (runWorkspaceBootstrapBefore_run _ _ _ _ _ Hregs Hev)
      as (cs & final & s' & Hrun & Hchain & Hran).
    eexists _, s'. split; [exact Hrun|].
    rewrite (RanFresh_newCalls _ _ _ _ _ Hran).
    destruct (Chain_fresh _ _ _ _ _ _ _ _ Hchain) as [Hfresh Hdistinct].
    split_and!; try done.
    + exact (Chain_args _ _ _ _ _ _ _ _ _ Hchain).
    + intros l o. by eapply RanFresh_frame.
    + by eapply Chain_memory.
Qed.

(** *** The runner leaves every existing array alone *)

Ltac keeps :=
  repeat first
    [ apply KeepsArrays_ret | apply KeepsArrays_throw
    | apply KeepsArrays_readArray | apply KeepsArrays_readObject
    | apply KeepsArrays_allocObject | apply KeepsArrays_awaitHandler
    | apply KeepsArrays_bind | apply KeepsArrays_tryCatch
    | assumption
    | match goal with |- forall _, _ => intros ? end
    | match goal with
      | |- KeepsArrays (match ?x with _ => _ end) => destruct x
      end ].

Lemma KeepsArrays_asToolsFilterEvent l : KeepsArrays (@asToolsFilterEvent World l).
Proof. unfold asToolsFilterEvent. keeps. Qed.

Lemma KeepsArrays_asSkillsFilterEvent l : KeepsArrays (@asSkillsFilterEvent World l).
Proof. unfold asSkillsFilterEvent. keeps. Qed.

Lemma KeepsArrays_asBootstrapBeforeEvent l :
  KeepsArrays (@asBootstrapBeforeEvent World l).
Proof. unfold asBootstrapBeforeEvent. keeps. Qed.

Lemma KeepsArrays_toolsFilterLoop event hooks : forall current,
  KeepsArrays (toolsFilterLoop event hooks current).
Proof.
  induction hooks as [|hook hooks IH]; intros current; cbn [toolsFilterLoop];
    [keeps|].
  apply KeepsArrays_bind; [|exact IH].
  apply KeepsArrays_tryCatch; [|keeps].
  apply KeepsArrays_bind; [apply KeepsArrays_asToolsFilterEvent|]. keeps.
Qed.

Lemma KeepsArrays_skillsFilterLoop event hooks : forall current,
  KeepsArrays (skillsFilterLoop event hooks current).
Proof.
  induction hooks as [|hook hooks IH]; intros current; cbn [skillsFilterLoop];
    [keeps|].
  apply KeepsArrays_bind; [|exact IH].
  apply KeepsArrays_tryCatch; [|keeps].
  apply KeepsArrays_bind; [apply KeepsArrays_asSkillsFilterEvent|]. keeps.
Qed.

Lemma KeepsArrays_footerLoop event hooks : forall parts,
  KeepsArrays (footerLoop event hooks parts).
Proof.
  induction hooks as [|hook hooks IH]; intros parts; cbn [footerLoop]; [keeps|].
  apply KeepsArrays_bind; [|exact IH].
  apply KeepsArrays_tryCatch; [|keeps].
  apply KeepsArrays_bind; [keeps|]. intros result.
  destruct (truthyString (result ≫= HandlerResult.append)); keeps.
Qed.

Lemma KeepsArrays_bootstrapBeforeLoop event hooks : forall currentFiles skip,
  KeepsArrays (bootstrapBeforeLoop event hooks currentFiles skip).
Proof.
  induction hooks as [|hook hooks IH]; intros currentFiles skip;
    cbn [bootstrapBeforeLoop]; [keeps|].
  apply KeepsArrays_bind; [|intros [files' skip']; apply IH].
  apply KeepsArrays_tryCatch; [|keeps].
  apply KeepsArrays_bind; [apply KeepsArrays_asBootstrapBeforeEvent|]. keeps.
Qed.

Lemma KeepsArrays_validateLoop event hooks : KeepsArrays (validateLoop event hooks).
Proof.
  induction hooks as [|hook hooks IH]; cbn [validateLoop]; [keeps|].
  apply KeepsArrays_bind.
  - apply KeepsArrays_tryCatch; [|keeps].
    apply KeepsArrays_bind; [keeps|]. intros result.
    destruct (truthyBool (result ≫= HandlerResult.block)); keeps.
  - intros [res|]; [keeps|exact IH].
Qed.

Lemma getHooks_arrays registrations name s regs :
  arrays s !! registrations = Some regs ->
  arrays (snd (getHooks registrations name s))
  = arrays s ++ [matching name regs; hooksFor name regs].
Proof. intros Hregs. by rewrite (getHooks_run _ _ _ _ Hregs). Qed.

Lemma perform_arrays registrations inv s regs :
  arrays s !! registrations = Some regs ->
  exists added,
    arrays (perform (createSuperpackHookRunner registrations) inv s) = arrays s ++ added.
Proof.
  intros Hregs.
  destruct inv as [event|event|event|event|event schedule|event|name];
    cbn [perform createSuperpackHookRunner
      runner_runSystemPromptToolsFilter runner_runSystemPromptSkillsFilter
      runner_runSystemPromptFooter runner_runWorkspaceBootstrapBefore
      runner_runWorkspaceBootstrapAfter runner_runSubagentPromptValidate
      runner_hasHooks].
  - eexists. unfold runSystemPromptToolsFilter.
    rewrite bind_arrays; [by apply getHooks_arrays|]. intros hooks.
    apply KeepsArrays_bind; [apply KeepsArrays_asToolsFilterEvent|]. intros e.
    cbv zeta. apply KeepsArrays_bind; [keeps|]. intros hs.
    apply KeepsArrays_bind; [apply KeepsArrays_toolsFilterLoop|]. keeps.
  - eexists. unfold runSystemPromptSkillsFilter.
    rewrite bind_arrays; [by apply getHooks_arrays|]. intros hooks.
    apply KeepsArrays_bind; [apply KeepsArrays_asSkillsFilterEvent|]. intros e.
    cbv zeta. apply KeepsArrays_bind; [keeps|]. intros hs.
    apply KeepsArrays_bind; [apply KeepsArrays_skillsFilterLoop|]. keeps.
  - eexists. unfold runSystemPromptFooter.
    rewrite bind_arrays; [by apply getHooks_arrays|]. intros hooks.
    apply KeepsArrays_bind; [keeps|]. intros hs.
    apply KeepsArrays_bind; [apply KeepsArrays_footerLoop|]. keeps.
  - eexists. unfold runWorkspaceBootstrapBefore.
    rewrite bind_arrays; [by apply getHooks_arrays|]. intros hooks.
    apply KeepsArrays_bind; [apply KeepsArrays_asBootstrapBeforeEvent|]. intros e.
    cbv zeta. apply KeepsArrays_bind; [keeps|]. intros hs.
    apply KeepsArrays_bind; [apply KeepsArrays_bootstrapBeforeLoop|].
    intros [files skip]. keeps.
  - destruct (runWorkspaceBootstrapAfter_run _ event schedule _ _ Hregs)
      as (s' & -> & Ha & _). simpl in *. by eexists.
  - eexists. unfold runSubagentPromptValidate.
    rewrite bind_arrays; [by apply getHooks_arrays|]. intros hooks.
    apply KeepsArrays_bind; [keeps|]. intros hs. apply KeepsArrays_validateLoop.
  - exists []. rewrite (hasHooks_run _ _ _ _ Hregs). simpl. by rewrite app_nil_r.
Qed.

Lemma performAll_arrays registrations invs : forall s regs,
  arrays s !! registrations = Some regs ->
  exists added,
    arrays (performAll (createSuperpackHookRunner registrations) invs s)
    = arrays s ++ added.
Proof.
  induction invs as [|inv invs IH]; intros s regs Hregs.
  - exists []. simpl. by rewrite app_nil_r.
  - destruct (perform_arrays registrations inv s regs Hregs) as [added1 H1].
    destruct (IH (perform (createSuperpackHookRunner registrations) inv s) regs)
      as [added2 H2].
    { rewrite H1. by apply lookup_app_l_Some. }
    exists (added1 ++ added2). cbn [performAll foldl].
    unfold performAll in H2. rewrite H2, H1. by rewrite <- (assoc_L (++)).
Qed.

(** C10.  After any sequence of invocations the caller's registration
    list, and every other array that existed, holds what it held before:
    filtering and sorting work on arrays of their own.  So [getHooks]
    returns, in a new array, the same handlers in the same order as
    before the sequence. *)
Theorem registrations_unchanged registrations invs s regs :
  arrays s !! registrations = Some regs ->
  let runner := createSuperpackHookRunner registrations in
  let s' := performAll runner invs s in
  arrays s' !! registrations = Some regs
  /\ (forall a xs, arrays s !! a = Some xs -> arrays s' !! a = Some xs)
  /\ (forall name, exists copy s'',
        getHooks registrations name s' = (Normal copy, s'')
        /\ arrays s' !! copy = None
        /\ arrays s'' !! copy = Some (hooksFor name regs)
        /\ arrays s'' !! registrations = Some regs)
  /\ (forall name, exists copy s'',
        getHooks registrations name s = (Normal copy, s'')
        /\ arrays s'' !! copy = Some (hooksFor name regs)).
Proof.
  intros Hregs runner s'. subst runner s'.
  destruct (performAll_arrays registrations invs s regs Hregs) as [added Hadd].
  set (s' := performAll _ invs s) in *.
  assert (Hregs' : arrays s' !! registrations = Some regs).
  { rewrite Hadd. by apply lookup_app_l_Some. }
  split_and!.
  - exact Hregs'.
  - intros a xs Ha. rewrite Hadd. by apply lookup_app_l_Some.
  - intros name. eexists _, _. split; [by apply getHooks_run|]. split_and!.
    + apply lookup_ge_None. lia.
    + apply afterGetHooks_lookup.
    + simpl. by apply lookup_app_l_Some.
  - intros name. eexists _, _. split; [by apply getHooks_run|].
    apply afterGetHooks_lookup.
Qed.

End Properties.

(** * The sample plugins, run *)

(** The properties checked by the repository's tests, on the sample
    store ([registrations] is array 0, [faulty] array 1, the empty list
    array 2, [meddling] array 3; the events are objects 0 to 5; their
    tools and files are array 0 of tools and array 0 of files). *)

Example tools_chain_in_priority_order :
  let out := runSystemPromptToolsFilter 0 0 Sample.store in
  fst out = Normal (SystemPromptToolsFilterResult.mk 2)
  /\ toolArrays (memory (snd out)) !! 2
     = Some [ToolEntry.mk "read" (Some "Read files");
             ToolEntry.mk "custom" (Some "added by B")]
  /\ toolArrays (memory (snd out)) !! 0 = Some Sample.tools
  /\ world (memory (snd out)) = ["A"; "boom"; "B"]
  /\ objects (snd out) !! 0 = Some (ToolsFilterEvent Sample.toolsEvent).
Proof. vm_compute. by split_and!. Qed.

(** The object built for a handler is a shallow copy: a handler that
    pushes onto [event.tools] and returns nothing changes the caller's
    array, and the result refers to that array. *)
Example in_place_push_shows_in_the_result :
  let out := runSystemPromptToolsFilter 3 0 Sample.store in
  fst out = Normal (SystemPromptToolsFilterResult.mk 0)
  /\ toolArrays (memory (snd out)) !! 0
     = Some [ToolEntry.mk "exec" (Some "Run shell commands");
             ToolEntry.mk "read" (Some "Read files");
             ToolEntry.mk "x" None]
  /\ objects (snd out) !! 0 = Some (ToolsFilterEvent Sample.toolsEvent).
Proof. vm_compute. by split_and!. Qed.

(** The same for a handler that empties [event.files] and then throws. *)
Example files_emptied_by_a_throwing_handler :
  let out := runWorkspaceBootstrapBefore 3 3 Sample.store in
  fst out = Normal (WorkspaceBootstrapBeforeResult.mk 0 false)
  /\ fileArrays (memory (snd out)) !! 0 = Some []
  /\ objects (snd out) !! 3 = Some (BootstrapBeforeEvent Sample.beforeEvent).
Proof. vm_compute. by split_and!. Qed.

Example footer_A_newline_B :
  let out := runSystemPromptFooter 0 2 Sample.store in
  fst out = Normal (SystemPromptFooterResult.mk ("A" ++ newline ++ "B")%string)
  /\ world (memory (snd out)) = ["A"; ""; "B"; "boom"].
Proof. vm_compute. by split_and!. Qed.

Example footer_without_handlers :
  fst (runSystemPromptFooter 2 2 Sample.store) = Normal (SystemPromptFooterResult.mk "").
Proof. reflexivity. Qed.

Example validate_first_match_wins :
  let out := runSubagentPromptValidate 0 5 Sample.store in
  fst out = Normal (SubagentPromptValidateResult.mk true (Some "B blocked it"))
  /\ world (memory (snd out)) = ["boom"; "A"; "B"].
Proof. vm_compute. by split_and!. Qed.

Example equal_priorities_keep_registration_order :
  let out := runWorkspaceBootstrapBefore 0 3 Sample.store in
  fst out = Normal (WorkspaceBootstrapBeforeResult.mk 2 true)
  /\ fileArrays (memory (snd out)) !! 2 = Some [BootstrapFile.mk "AGENTS.md" "# Agents"]
  /\ fileArrays (memory (snd out)) !! 0 = Some Sample.files
  /\ world (memory (snd out)) = ["skip"; "keep"; "silent"].
Proof. vm_compute. by split_and!. Qed.

Example notifications_in_either_order :
  world (memory (snd (runWorkspaceBootstrapAfter 0 4 [1; 0] Sample.store)))
  = ["A:begin"; "B:begin"; "B:end"; "A:end"]
  /\ world (memory (snd (runWorkspaceBootstrapAfter 0 4 [0; 1] Sample.store)))
     = ["A:begin"; "B:begin"; "A:end"; "B:end"]
  /\ fst (runWorkspaceBootstrapAfter 0 4 [1; 0] Sample.store) = Normal tt.
Proof. vm_compute. by split_and!. Qed.

(** The footer model hands the caller's own event to the handlers, so
    there a handler that writes to its event is seen by the caller; the
    modifying models protect the caller's event (C9). *)
Example footer_handler_can_overwrite_the_event :
  let scribble : @Handler Sample.World :=
    Sample.sync (fun _ w => (Normal None, SkillsFilterEvent Sample.skillsEvent, w)) in
  let s := mkState [[mkRegistration system_prompt_footer scribble None]]
             [FooterEvent Sample.footerEvent] (mkMemory [] [] []) [] [] in
  objects (snd (runSystemPromptFooter 0 0 s)) !! 0
  = Some (SkillsFilterEvent Sample.skillsEvent).
Proof. reflexivity. Qed.

(** * The theorems at the sample store *)

Lemma runner_never_throws_witness :
  arrays Sample.store !! 1 = Some Sample.faulty
  /\ objects Sample.store !! 5 = Some (ValidateEvent Sample.validateEvent)
  /\ exists res s',
       runSubagentPromptValidate 1 5 Sample.store = (Normal res, s')
       /\ (Forall threw (newCalls Sample.store s') ->
           res = SubagentPromptValidateResult.mk false None).
Proof.
  split; [reflexivity|]. split; [reflexivity|].
  destruct (runner_never_throws 1 5 [] Sample.store Sample.faulty eq_refl)
    as (_ & _ & _ & _ & _ & H).
  exact (H Sample.validateEvent eq_refl).
Defined.

Lemma validate_first_block_wins_witness :
  arrays Sample.store !! 0 = Some Sample.registrations
  /\ objects Sample.store !! 5 = Some (ValidateEvent Sample.validateEvent)
  /\ exists tried rest res s',
       runSubagentPromptValidate 0 5 Sample.store = (Normal res, s')
       /\ hooksFor subagent_prompt_validate Sample.registrations = tried ++ rest
       /\ Verdict (newCalls Sample.store s') rest res.
Proof.
  split; [reflexivity|]. split; [reflexivity|].
  destruct (validate_first_block_wins 0 5 Sample.store Sample.registrations
              Sample.validateEvent eq_refl eq_refl)
    as (tried & rest & res & s' & o' & Hrun & Hsplit & _ & _ & Hv).
  by exists tried, rest, res, s'.
Defined.


Lemma modifying_chain_witness :
  arrays Sample.store !! 0 = Some Sample.registrations
  /\ objects Sample.store !! 0 = Some (ToolsFilterEvent Sample.toolsEvent)
  /\ exists final s',
       runSystemPromptToolsFilter 0 0 Sample.store
       = (Normal (SystemPromptToolsFilterResult.mk final), s')
       /\ Chain (toolsArg Sample.toolsEvent) (replaceBy HandlerResult.tools)
            6 (memory Sample.store) (SystemPromptToolsFilterEvent.tools Sample.toolsEvent)
            (hooksFor system_prompt_tools_filter Sample.registrations)
            (newCalls Sample.store s') (memory s') final.
Proof.
  split; [reflexivity|]. split; [reflexivity|].
  destruct (modifying_chain 0 0 Sample.store Sample.registrations eq_refl) as (H & _).
  destruct (H Sample.toolsEvent eq_refl) as (final & s' & Hrun & Hchain & _).
  by exists final, s'.
Defined.

Lemma bootstrap_before_skip_is_monotonic_or_witness :
  arrays Sample.store !! 0 = Some Sample.registrations
  /\ objects Sample.store !! 3 = Some (BootstrapBeforeEvent Sample.beforeEvent)
  /\ exists res s',
       runWorkspaceBootstrapBefore 0 3 Sample.store = (Normal res, s')
       /\ map callee (newCalls Sample.store s')
          = hooksFor workspace_bootstrap_before Sample.registrations.
Proof.
  split; [reflexivity|]. split; [reflexivity|].
  destruct (bootstrap_before_skip_is_monotonic_or 0 3 Sample.store Sample.registrations
              Sample.beforeEvent eq_refl eq_refl)
    as (res & s' & Hrun & _ & _ & Hall & _).
  by exists res, s'.
Defined.

Lemma footer_joins_fragments_witness :
  arrays Sample.store !! 0 = Some Sample.registrations
  /\ objects Sample.store !! 2 = Some (FooterEvent Sample.footerEvent)
  /\ exists res s',
       runSystemPromptFooter 0 2 Sample.store = (Normal res, s')
       /\ SystemPromptFooterResult.append res
          = join (omap fragment (newCalls Sample.store s')).
Proof.
  split; [reflexivity|]. split; [reflexivity|].
  destruct (footer_joins_fragments 0 2 Sample.store Sample.registrations
              Sample.footerEvent eq_refl eq_refl)
    as (res & s' & o' & Hrun & _ & Happend & _).
  by exists res, s'.
Defined.

Lemma no_hooks_identity_witness :
  arrays Sample.store !! 2 = Some []
  /\ matching system_prompt_footer (@nil (@HookRegistration Sample.World)) = []
  /\ hasHooks 2 system_prompt_footer Sample.store = (Normal false, Sample.store)
  /\ exists s',
       runSystemPromptFooter 2 2 Sample.store
       = (Normal (SystemPromptFooterResult.mk ""), s')
       /\ Untouched Sample.store s'.
Proof.
  split; [reflexivity|]. split; [reflexivity|].
  destruct (no_hooks_identity 2 2 [] Sample.store [] system_prompt_footer
              eq_refl eq_refl) as (Hhas & Hrun).
  split; [exact Hhas|]. exact (Hrun Sample.footerEvent eq_refl).
Defined.

Lemma bootstrap_after_waits_for_all_witness :
  arrays Sample.store !! 0 = Some Sample.registrations
  /\ exists s',
       runWorkspaceBootstrapAfter 0 4 [1; 0] Sample.store = (Normal tt, s')
       /\ finishedCount 0 (activity s') = 1
       /\ finishedCount 1 (activity s') = 1
       /\ exists runs o',
            Interleaved
              (map handler (hooksFor workspace_bootstrap_after Sample.registrations),
               (BootstrapAfterEvent Sample.afterEvent, memory Sample.store))
              (runs, (o', memory s'))
            /\ Forall (fun t => isSettled t = true) runs.
Proof.
  split; [reflexivity|].
  destruct (bootstrap_after_waits_for_all 0 4 [1; 0] Sample.store Sample.registrations
              eq_refl) as ((s' & Hrun & _ & Hcnt & Hpool) & _).
  exists s'. split; [exact Hrun|]. split; [exact (Hcnt 0)|]. split; [exact (Hcnt 1)|].
  destruct (Hpool _ eq_refl) as (runs & o' & Hsteps & Hset & _). by exists runs, o'.
Defined.

Lemma modifying_handlers_get_fresh_events_witness :
  arrays Sample.store !! 0 = Some Sample.registrations
  /\ objects Sample.store !! 0 = Some (ToolsFilterEvent Sample.toolsEvent)
  /\ exists res s',
       runSystemPromptToolsFilter 0 0 Sample.store = (Normal res, s')
       /\ Forall (fun c => objects Sample.store !! argRef c = None)
            (newCalls Sample.store s')
       /\ NoDup (map argRef (newCalls Sample.store s'))
       /\ objects s' !! 0 = Some (ToolsFilterEvent Sample.toolsEvent).
Proof.
  split; [reflexivity|]. split; [reflexivity|].
  destruct (modifying_handlers_get_fresh_events 0 0 Sample.store Sample.registrations
              eq_refl) as (H & _).
  destruct (H Sample.toolsEvent eq_refl)
    as (res & s' & Hrun & Hfresh & Hdistinct & _ & _ & Hframe).
  exists res, s'. split_and!; try done. by apply Hframe.
Defined.

Lemma registrations_unchanged_witness :
  arrays Sample.store !! 0 = Some Sample.registrations
  /\ arrays (performAll (createSuperpackHookRunner 0)
               [InvokeToolsFilter 0; InvokeBootstrapAfter 4 [1]; InvokeValidate 5;
                InvokeHasHooks system_prompt_footer; InvokeFooter 9]
               Sample.store) !! 0
     = Some Sample.registrations.
Proof.
  split; [reflexivity|].
  exact (proj1 (registrations_unchanged 0
           [InvokeToolsFilter 0; InvokeBootstrapAfter 4 [1]; InvokeValidate 5;
            InvokeHasHooks system_prompt_footer; InvokeFooter 9]
           Sample.store Sample.registrations eq_refl)).
Defined.

(** * Further properties of the hook runner *)

Section MoreProperties.

Context {World : Type}.

Implicit Types (s : @State World) (hook r : @HookRegistration World)
  (hooks regs : list (@HookRegistration World)) (c : @Call World)
  (cs : list (@Call World)) (name : SuperpackHookName).

Lemma matching_spec name regs r :
  r ∈ matching name regs <-> r ∈ regs /\ hookName r = name.
Proof.
  unfold matching. rewrite !list_elem_of_In, filter_In.
  by rewrite bool_decide_eq_true.
Qed.

Lemma hooksFor_spec name regs r :
  r ∈ hooksFor name regs <-> r ∈ regs /\ hookName r = name.
Proof. by rewrite (hooksFor_Permutation name regs), matching_spec. Qed.

Lemma existsb_matching name regs :
  existsb (fun r => bool_decide (hookName r = name)) regs = true
  <-> matching name regs <> [].
Proof.
  unfold matching. induction regs as [|r regs IH]; simpl; [by split|].
  destruct (bool_decide (hookName r = name)); simpl; [by split|exact IH].
Qed.

(** X1. [hasHooks] answers without touching the store, and it answers true
    exactly when a registration carries the hook name, which is exactly
    when the array the hook's function iterates is not empty. *)
Theorem hasHooks_iff_a_handler_is_registered registrations name s regs :
  arrays s !! registrations = Some regs ->
  exists b,
    hasHooks registrations name s = (Normal b, s)
    /\ (b = true <-> exists r, r ∈ regs /\ hookName r = name)
    /\ (b = true <-> hooksFor name regs <> []).
Proof.
  intros Hregs. eexists. split; [by apply hasHooks_run|].
  rewrite existsb_matching. split.
  - split.
    + intros Hne. destruct (matching name regs) as [|r l] eqn:E; [done|].
      exists r. apply matching_spec. rewrite E. left.
    + intros (r & Hr). apply matching_spec in Hr. intros E. rewrite E in Hr.
      by apply elem_of_nil in Hr.
  - split.
    + intros Hne E. apply Hne. apply Permutation_nil.
      rewrite <- E. apply hooksFor_Permutation.
    + intros Hne E. apply Hne. by apply hooksFor_nil.
Qed.

Lemma callees_of_the_hook name regs cs rest :
  hooksFor name regs = map callee cs ++ rest ->
  Forall (fun c => callee c ∈ regs /\ hookName (callee c) = name) cs.
Proof.
  intros Hsplit. apply Forall_forall. intros c Hc. apply hooksFor_spec.
  rewrite Hsplit. apply elem_of_app. left. by apply list_elem_of_fmap_2.
Qed.

(** X2. A function of the runner only ever calls handlers that the caller's
    list registers under that function's own hook name: registrations of
    another hook never run, whatever their priority. *)
Theorem only_handlers_of_the_hook_are_called registrations event schedule s regs :
  arrays s !! registrations = Some regs ->
  (forall e, objects s !! event = Some (ToolsFilterEvent e) ->
     Forall (fun c => callee c ∈ regs
                      /\ hookName (callee c) = system_prompt_tools_filter)
       (newCalls s (snd (runSystemPromptToolsFilter registrations event s))))
  /\ (forall e, objects s !! event = Some (SkillsFilterEvent e) ->
     Forall (fun c => callee c ∈ regs
                      /\ hookName (callee c) = system_prompt_skills_filter)
       (newCalls s (snd (runSystemPromptSkillsFilter registrations event s))))
  /\ (forall e, objects s !! event = Some (FooterEvent e) ->
     Forall (fun c => callee c ∈ regs /\ hookName (callee c) = system_prompt_footer)
       (newCalls s (snd (runSystemPromptFooter registrations event s))))
  /\ (forall e, objects s !! event = Some (BootstrapBeforeEvent e) ->
     Forall (fun c => callee c ∈ regs
                      /\ hookName (callee c) = workspace_bootstrap_before)
       (newCalls s (snd (runWorkspaceBootstrapBefore registrations event s))))
  /\ (exists new,
        started (activity (snd (runWorkspaceBootstrapAfter registrations event schedule s)))
        = started (activity s) ++ new
        /\ Forall (fun x => snd (fst x) ∈ regs
                            /\ hookName (snd (fst x)) = workspace_bootstrap_after
                            /\ snd x = event) new)
  /\ (forall e, objects s !! event = Some (ValidateEvent e) ->
     Forall (fun c => callee c ∈ regs /\ hookName (callee c) = subagent_prompt_validate)
       (newCalls s (snd (runSubagentPromptValidate registrations event s)))).
Proof.
  intros Hregs. split_and!.
  - intros e Hev.
    destruct (runSystemPromptToolsFilter_run _ _ _ _ _ Hregs Hev)
      as (cs & final & s' & -> & Hchain & Hran). simpl.
    rewrite (RanFresh_newCalls _ _ _ _ _ Hran).
    apply (callees_of_the_hook _ _ _ []).
    by rewrite app_nil_r, (Chain_callee _ _ _ _ _ _ _ _ _ Hchain).
  - intros e Hev.
    destruct (runSystemPromptSkillsFilter_run _ _ _ _ _ Hregs Hev)
      as (cs & final & s' & -> & Hchain & Hran). simpl.
    rewrite (RanFresh_newCalls _ _ _ _ _ Hran).
    apply (callees_of_the_hook _ _ _ []).
    by rewrite app_nil_r, (Chain_callee _ _ _ _ _ _ _ _ _ Hchain).
  - intros e Hev.
    destruct (runSystemPromptFooter_run _ _ _ _ _ Hregs Hev)
      as (cs & o' & s' & -> & Hhanded & _ & Hran). simpl.
    rewrite (RanOn_newCalls _ _ _ _ _ _ Hran).
    apply (callees_of_the_hook _ _ _ []).
    by rewrite app_nil_r, (Handed_callee _ _ _ _ _ _ _ Hhanded).
  - intros e Hev.
    destruct (runWorkspaceBootstrapBefore_run _ _ _ _ _ Hregs Hev)
      as (cs & final & s' & -> & Hchain & Hran). simpl.
    rewrite (RanFresh_newCalls _ _ _ _ _ Hran).
    apply (callees_of_the_hook _ _ _ []).
    by rewrite app_nil_r, (Chain_callee _ _ _ _ _ _ _ _ _ Hchain).
  - destruct (runWorkspaceBootstrapAfter_run _ event schedule _ _ Hregs)
      as (s' & -> & _ & _ & _ & Hst & _). simpl.
    eexists. split; [exact Hst|].
    apply Forall_forall. intros [[k hook] arg] Hin.
    apply elem_of_lookup_imap in Hin as (i & h & Heq & Hi).
    injection Heq as -> -> ->. simpl.
    apply list_elem_of_lookup_2, hooksFor_spec in Hi. by destruct Hi.
  - intros e Hev.
    destruct (runSubagentPromptValidate_run _ _ _ _ _ Hregs Hev)
      as (tried & rest & cs & o' & res & s' & -> & Hsplit & Hhanded & _ & Hran & _).
    simpl. rewrite (RanOn_newCalls _ _ _ _ _ _ Hran).
    apply (callees_of_the_hook _ _ _ rest).
    by rewrite (Handed_callee _ _ _ _ _ _ _ Hhanded).
Qed.

(** X3. The footer and the validation function build no object and change no
    object other than the event they were given. *)
Theorem footer_and_validate_touch_only_the_event registrations event s regs :
  arrays s !! registrations = Some regs ->
  (forall e, objects s !! event = Some (FooterEvent e) ->
     let s' := snd (runSystemPromptFooter registrations event s) in
     length (objects s') = length (objects s)
     /\ forall l, l <> event -> objects s' !! l = objects s !! l)
  /\ (forall e, objects s !! event = Some (ValidateEvent e) ->
     let s' := snd (runSubagentPromptValidate registrations event s) in
     length (objects s') = length (objects s)
     /\ forall l, l <> event -> objects s' !! l = objects s !! l).
Proof.
  intros Hregs. split; intros e Hev.
  - destruct (runSystemPromptFooter_run _ _ _ _ _ Hregs Hev)
      as (cs & o' & s' & -> & _ & _ & (_ & Hlen & Hframe & _)). by simpl.
  - destruct (runSubagentPromptValidate_run _ _ _ _ _ Hregs Hev)
      as (tried & rest & cs & o' & res & s' & -> & _ & _ & _ & (_ & Hlen & Hframe & _) & _).
    by simpl.
Qed.

Lemma Handed_readOnly event o w hooks cs o' w' :
  Handed event o w hooks cs o' w' ->
  Forall readOnly hooks ->
  Forall (fun c => argAtCall c = o) cs /\ o' = o.
Proof.
  induction 1 as [|o w hook hooks c cs o' w' Hcallee _ Harg _ Hgen _ IH]; [done|].
  intros Hall. apply Forall_cons in Hall as [Hhook Hall].
  assert (Hsame : argAfterCall c = o).
  { specialize (Hhook (argAtCall c) (memoryAtCall c)).
    rewrite <- Hcallee in Hhook. unfold genuine in Hgen. rewrite Hgen in Hhook.
    simpl in Hhook. congruence. }
  rewrite Hsame in IH. destruct (IH Hall) as [Hcs ->]. split; [|done].
  by constructor.
Qed.

Lemma readOnly_hooksFor name regs :
  Forall readOnly (matching name regs) -> Forall readOnly (hooksFor name regs).
Proof. intros H. by rewrite (hooksFor_Permutation name regs). Qed.

Lemma unchanged_objects event s s' o :
  objects s !! event = Some o -> objects s' !! event = Some o ->
  length (objects s') = length (objects s) ->
  (forall l, l <> event -> objects s' !! l = objects s !! l) ->
  objects s' = objects s.
Proof.
  intros Hev Hev' Hlen Hframe. apply list_eq. intros l.
  destruct (decide (l = event)) as [->|Hne]; [congruence|by apply Hframe].
Qed.

(** X4. When the handlers of the hook respect the contract that events are
    immutable, every handler that the footer or the validation function
    calls finds the caller's event as the caller passed it, and the
    objects of the store are the same afterwards. *)
Theorem read_only_handlers_see_the_original_event registrations event s regs :
  arrays s !! registrations = Some regs ->
  (forall e, objects s !! event = Some (FooterEvent e) ->
     Forall readOnly (matching system_prompt_footer regs) ->
     let s' := snd (runSystemPromptFooter registrations event s) in
     Forall (fun c => argRef c = event /\ argAtCall c = FooterEvent e) (newCalls s s')
     /\ objects s' = objects s)
  /\ (forall e, objects s !! event = Some (ValidateEvent e) ->
     Forall readOnly (matching subagent_prompt_validate regs) ->
     let s' := snd (runSubagentPromptValidate registrations event s) in
     Forall (fun c => argRef c = event /\ argAtCall c = ValidateEvent e) (newCalls s s')
     /\ objects s' = objects s).
Proof.
  assert (Hrefs : forall ev o w hooks cs o' w',
    Handed ev o w hooks cs o' w' -> Forall (fun c => argRef c = ev) cs).
  { induction 1; by constructor. }
  intros Hregs. split; intros e Hev Hro.
  - destruct (runSystemPromptFooter_run _ _ _ _ _ Hregs Hev)
      as (cs & o' & s' & -> & Hhanded & Ho' & Hran). simpl.
    rewrite (RanOn_newCalls _ _ _ _ _ _ Hran).
    destruct (Handed_readOnly _ _ _ _ _ _ _ Hhanded (readOnly_hooksFor _ _ Hro))
      as [Hargs ->].
    destruct Hran as (_ & Hlen & Hframe & _). split.
    + apply Forall_and. split; [by eapply Hrefs|exact Hargs].
    + by eapply unchanged_objects.
  - destruct (runSubagentPromptValidate_run _ _ _ _ _ Hregs Hev)
      as (tried & rest & cs & o' & res & s' & -> & Hsplit & Hhanded & Ho' & Hran & _).
    simpl. rewrite (RanOn_newCalls _ _ _ _ _ _ Hran).
    apply readOnly_hooksFor in Hro. rewrite Hsplit in Hro.
    apply Forall_app in Hro as [Hro _].
    destruct (Handed_readOnly _ _ _ _ _ _ _ Hhanded Hro) as [Hargs ->].
    destruct Hran as (_ & Hlen & Hframe & _). split.
    + apply Forall_and. split; [by eapply Hrefs|exact Hargs].
    + by eapply unchanged_objects.
Qed.

Lemma descending_StronglySorted hooks :
  descending hooks -> StronglySorted noLower hooks.
Proof.
  induction hooks as [|x l IH]; intros Hd; constructor.
  - apply IH. intros i j a b Hi Hj Hij. apply (Hd (S i) (S j) a b); simpl; auto. lia.
  - apply Forall_forall. intros y Hy. apply list_elem_of_lookup in Hy as [j Hj].
    apply (Hd 0 (S j) x y); simpl; auto. lia.
Qed.

(** X5. Sorting changes nothing when there is nothing to sort: if the
    registrations of a hook already stand by descending priority in the
    caller's list (for instance because they all have the same priority,
    or none), [getHooks] returns them in registration order. *)
Theorem registrations_in_priority_order_keep_their_order registrations name s regs :
  arrays s !! registrations = Some regs ->
  descending (matching name regs) ->
  exists copy s',
    getHooks registrations name s = (Normal copy, s')
    /\ arrays s' !! copy = Some (matching name regs).
Proof.
  intros Hregs Hd. eexists _, _. split; [by apply getHooks_run|].
  rewrite afterGetHooks_lookup. f_equal. unfold hooksFor. symmetry.
  apply sorted_is_the_stable_sort; [by apply descending_StronglySorted|done].
Qed.

(** X6. A result that does not carry the field a modifying function folds
    (a throw, no return value, an object without the field) counts as no
    result: when no call brought the field back, the function returns the
    event's own value; for tools and files that is the reference to the
    event's own array, not a copy of it.  The list behind it is then as
    the handlers left it: the list that was there at entry if every call
    left the existing arrays alone. *)
Theorem results_without_the_field_are_ignored registrations event s regs :
  arrays s !! registrations = Some regs ->
  (forall e, objects s !! event = Some (ToolsFilterEvent e) ->
     exists res s',
       runSystemPromptToolsFilter registrations event s = (Normal res, s')
       /\ (Forall (lacks HandlerResult.tools) (newCalls s s') ->
           SystemPromptToolsFilterResult.tools res = SystemPromptToolsFilterEvent.tools e
           /\ (Forall sparesArrays (newCalls s s') ->
               forall xs,
                 toolArrays (memory s) !! SystemPromptToolsFilterEvent.tools e = Some xs ->
                 toolArrays (memory s') !! SystemPromptToolsFilterResult.tools res
                 = Some xs)))
  /\ (forall e, objects s !! event = Some (SkillsFilterEvent e) ->
     exists res s',
       runSystemPromptSkillsFilter registrations event s = (Normal res, s')
       /\ (Forall (lacks HandlerResult.skillsPrompt) (newCalls s s') ->
           SystemPromptSkillsFilterResult.skillsPrompt res
           = SystemPromptSkillsFilterEvent.skillsPrompt e))
  /\ (forall e, objects s !! event = Some (BootstrapBeforeEvent e) ->
     exists res s',
       runWorkspaceBootstrapBefore registrations event s = (Normal res, s')
       /\ (Forall (lacks HandlerResult.files) (newCalls s s') ->
           WorkspaceBootstrapBeforeResult.files res
           = WorkspaceBootstrapBeforeEvent.files e
           /\ (Forall sparesArrays (newCalls s s') ->
               forall xs,
                 fileArrays (memory s) !! WorkspaceBootstrapBeforeEvent.files e = Some xs ->
                 fileArrays (memory s') !! WorkspaceBootstrapBeforeResult.files res
                 = Some xs))).
Proof.
  intros Hregs. split_and!; intros e Hev.
  - destruct (runSystemPromptToolsFilter_run _ _ _ _ _ Hregs Hev)
      as (cs & final & s' & Hrun & Hchain & Hran).
    eexists _, s'. split; [exact Hrun|].
    rewrite (RanFresh_newCalls _ _ _ _ _ Hran). simpl. intros Hlacks.
    rewrite (Chain_lacks _ _ _ _ _ _ _ _ _ Hchain Hlacks). split; [done|].
    intros Hspare xs Hxs.
    by apply (proj1 (Chain_spares _ _ _ _ _ _ _ _ _ Hchain Hspare)).
  - destruct (runSystemPromptSkillsFilter_run _ _ _ _ _ Hregs Hev)
      as (cs & final & s' & Hrun & Hchain & Hran).
    eexists _, s'. split; [exact Hrun|].
    rewrite (RanFresh_newCalls _ _ _ _ _ Hran). simpl.
    by apply (Chain_lacks _ _ _ _ _ _ _ _ _ Hchain).
  - destruct (runWorkspaceBootstrapBefore_run _ _ _ _ _ Hregs Hev)
      as (cs & final & s' & Hrun & Hchain & Hran).
    eexists _, s'. split; [exact Hrun|].
    rewrite (RanFresh_newCalls _ _ _ _ _ Hran). simpl. intros Hlacks.
    rewrite (Chain_lacks _ _ _ _ _ _ _ _ _ Hchain Hlacks). split; [done|].
    intros Hspare xs Hxs.
    by apply (proj2 (Chain_spares _ _ _ _ _ _ _ _ _ Hchain Hspare)).
Qed.

Lemma runSegment_immediate event hook s :
  immediate hook ->
  isSettled (fst (runSegment event (swallow (handler hook)) s)) = true.
Proof.
  unfold immediate. destruct (handler hook) as [c|effect next]; [done|].
  intros Hnext. simpl. destruct (objects s !! event) as [o|]; [|done]. simpl.
  specialize (Hnext (o, memory s)). by destruct (next (o, memory s)).
Qed.

Lemma startAll_immediate event hooks :
  Forall immediate hooks ->
  forall i s ps s',
    startAll event i hooks s = (Normal ps, s') -> forallb isSettled ps = true.
Proof.
  induction 1 as [|hook hooks Hhook _ IH]; intros i s ps s' Hrun.
  - by injection Hrun as <- <-.
  - cbn [startAll] in Hrun. unfold bind at 1 in Hrun. unfold startWrapper in Hrun.
    pose proof (runSegment_immediate event hook
                  (logActivity (Started i hook event) s) Hhook) as Hp.
    destruct (runSegment event (swallow (handler hook))
                (logActivity (Started i hook event) s)) as [p s1].
    unfold bind in Hrun.
    destruct (startAll event (S i) hooks (noteSettled i p s1)) as [[ps'|err] s2] eqn:E;
      [|done].
    injection Hrun as <- <-. simpl in Hp |- *. rewrite Hp. by eapply IH.
Qed.

(** X7. With handlers that do not suspend once started, the notification
    function does not depend on the event loop: whatever order of
    resumptions is offered, it ends in the same state. *)
Theorem immediate_handlers_make_the_schedule_irrelevant
  registrations event s regs schedule1 schedule2 :
  arrays s !! registrations = Some regs ->
  Forall immediate (matching workspace_bootstrap_after regs) ->
  runWorkspaceBootstrapAfter registrations event schedule1 s
  = runWorkspaceBootstrapAfter registrations event schedule2 s.
Proof.
  intros Hregs Himm.
  assert (Himm' : Forall immediate (hooksFor workspace_bootstrap_after regs)).
  { by rewrite (hooksFor_Permutation workspace_bootstrap_after regs). }
  destruct (startAll_run event (hooksFor workspace_bootstrap_after regs) 0
              (afterGetHooks workspace_bootstrap_after regs s))
    as (ps & s1 & Hstart & _ & Hq & _).
  pose proof (startAll_immediate _ _ Himm' _ _ _ _ Hstart) as Hall.
  assert (Hany : forall schedule,
    runWorkspaceBootstrapAfter registrations event schedule s = (Normal tt, s1)).
  { intros schedule. unfold runWorkspaceBootstrapAfter.
    rewrite (bind_Normal _ _ _ _ _ (getHooks_run _ _ _ _ Hregs)).
    rewrite (bind_Normal _ _ _ _ _ (readArray_run _ _ _ (afterGetHooks_lookup _ _ _))).
    rewrite (bind_Normal _ _ _ _ _ Hstart).
    destruct schedule; cbn [promiseAll]; by rewrite (Quiet_rejection _ Hq), Hall. }
  by rewrite !Hany.
Qed.

End MoreProperties.

(** * Properties of the feature flags *)

Section FlagsProperties.

Import Flags.

Context (trim : string -> string) (inherited : string -> bool).

Implicit Types (s : State) (name f x : string) (l fs set : list string).

Local Arguments own : simpl never.

Lemma includes_elem_of x l : includes x l = true <-> x ∈ l.
Proof.
  unfold includes. rewrite existsb_exists. split.
  - intros (y & Hin & Heq). apply String.eqb_eq in Heq. subst.
    by apply list_elem_of_In.
  - intros Hin. exists x. split; [by apply list_elem_of_In | apply String.eqb_refl].
Qed.

Lemma elem_of_setAdd x l f : x ∈ setAdd l f <-> x ∈ l \/ x = f.
Proof.
  unfold setAdd. destruct (includes f l) eqn:E.
  - apply includes_elem_of in E. split; [by left | by intros [?| ->]].
  - by rewrite elem_of_app, list_elem_of_singleton.
Qed.

Lemma NoDup_setAdd l f : NoDup l -> NoDup (setAdd l f).
Proof.
  intros Hl. unfold setAdd. destruct (includes f l) eqn:E; [done|].
  apply NoDup_app. split_and!; [done | | apply NoDup_singleton].
  intros x Hx Hf. apply list_elem_of_singleton in Hf. subst.
  apply includes_elem_of in Hx. congruence.
Qed.

Lemma elem_of_foldl_setAdd x fs l : x ∈ foldl setAdd l fs <-> x ∈ l \/ x ∈ fs.
Proof.
  clear trim inherited. revert l. induction fs as [|f fs IH]; intros l; simpl.
  - rewrite elem_of_nil. tauto.
  - rewrite IH, elem_of_setAdd, elem_of_cons. tauto.
Qed.

Lemma NoDup_foldl_setAdd fs l : NoDup l -> NoDup (foldl setAdd l fs).
Proof.
  revert l. induction fs as [|f fs IH]; intros l Hl; simpl; [done|].
  by apply IH, NoDup_setAdd.
Qed.

(** The loop over the comma-separated names adds the trimmed names that
    pass the [in FLAGS] test. *)
Lemma envFlags_loop raws l :
  foldl (fun result raw =>
           let f := trim raw in
           if hasProperty inherited f FLAGS then setAdd result f else result) l raws
  = foldl setAdd l
      (List.filter (fun f => hasProperty inherited f FLAGS) (map trim raws)).
Proof.
  revert l. induction raws as [|raw raws IH]; intros l; simpl; [done|].
  destruct (hasProperty inherited (trim raw) FLAGS); simpl; apply IH.
Qed.

(** The set built from the four sources, in the order of [resolve]. *)
Lemma resolve_uncached s :
  activeFlags s = None -> presetsDefined trim inherited s ->
  let set :=
    foldl setAdd (foldl setAdd (foldl setAdd (foldl setAdd []
      (fromConfigPreset s)) (configFlags s)) (fromEnvPreset trim s))
      (fromEnvFlags trim inherited s) in
  resolve trim inherited s = (Normal set, cache set s).
Proof.
  intros Hnone [Hconfig Henv]. unfold resolve, cache. rewrite Hnone.
  assert (Hone :
    (if truthyString (configPreset s)
     then addPreset (default "" (configPreset s)) []
     else Normal []) = Normal (foldl setAdd [] (fromConfigPreset s))).
  { unfold fromConfigPreset, addPreset.
    destruct (configPreset s) as [p|] eqn:Ep; simpl; [|done].
    destruct (String.eqb p "") eqn:E; simpl.
    - apply String.eqb_eq in E. by subst.
    - destruct (Hconfig p eq_refl) as [fl Hfl].
      { intros ->. by rewrite String.eqb_refl in E. }
      by rewrite Hfl. }
  rewrite Hone. clear Hone.
  set (one := foldl setAdd [] (fromConfigPreset s)).
  set (two := foldl setAdd one (configFlags s)).
  assert (Hthree :
    (if truthyString (trim <$> SUPERPACK_PRESET s)
        && hasProperty inherited (default "" (trim <$> SUPERPACK_PRESET s)) PRESETS
     then addPreset (default "" (trim <$> SUPERPACK_PRESET s)) two
     else Normal two) = Normal (foldl setAdd two (fromEnvPreset trim s))).
  { unfold fromEnvPreset, addPreset, hasProperty.
    destruct (SUPERPACK_PRESET s) as [v|] eqn:Ev; simpl; [|done].
    destruct (own PRESETS (trim v)) as [fl|] eqn:Efl; simpl.
    - destruct (String.eqb (trim v) "") eqn:E; simpl; [|done].
      apply String.eqb_eq in E. by rewrite E in Efl.
    - destruct (String.eqb (trim v) "") eqn:E; simpl; [done|].
      destruct (inherited (trim v)) eqn:Ei; [|done].
      destruct (Henv v eq_refl Ei) as [Hempty|[fl Hfl]].
      + by rewrite Hempty, String.eqb_refl in E.
      + congruence. }
  rewrite Hthree. clear Hthree.
  set (three := foldl setAdd two (fromEnvPreset trim s)).
  assert (Hfour :
    (if truthyString (trim <$> SUPERPACK_FLAGS s)
     then foldl (fun result raw =>
                   let f := trim raw in
                   if hasProperty inherited f FLAGS then setAdd result f else result)
            three (splitComma (default "" (trim <$> SUPERPACK_FLAGS s)))
     else three) = foldl setAdd three (fromEnvFlags trim inherited s)).
  { unfold fromEnvFlags.
    destruct (SUPERPACK_FLAGS s) as [v|]; simpl; [|done].
    destruct (String.eqb (trim v) ""); simpl; [done|]. apply envFlags_loop. }
  cbv zeta in Hfour |- *. by rewrite Hfour.
Qed.

Lemma own_Some_elem {V} (obj : list (string * V)) key v :
  own obj key = Some v -> key ∈ map fst obj.
Proof.
  induction obj as [|[k w] obj IH]; unfold own; simpl; [done|]. fold (@own V).
  destruct (String.eqb key k) eqn:E.
  - apply String.eqb_eq in E. subst. intros _. apply elem_of_cons. by left.
  - intros H. apply elem_of_cons. right. by apply IH.
Qed.

Lemma own_PRESETS_known p fl : own PRESETS p = Some fl -> Forall (known inherited) fl.
Proof.
  unfold own, PRESETS.
  repeat (destruct (String.eqb p _);
          [ intros [= <-]; unfold ALL_FLAG_NAMES, FLAGS; simpl;
            by repeat (constructor; [reflexivity|]) |]).
  done.
Qed.

Lemma Forall_foldl_setAdd (P : string -> Prop) fs l :
  Forall P l -> Forall P fs -> Forall P (foldl setAdd l fs).
Proof.
  clear trim inherited. rewrite !Forall_forall. intros Hl Hfs x Hx.
  apply elem_of_foldl_setAdd in Hx as [?|?]; eauto.
Qed.

Lemma addPreset_known p l res :
  NoDup l -> Forall (known inherited) l -> addPreset p l = Normal res ->
  NoDup res /\ Forall (known inherited) res.
Proof.
  intros Hnd Hl. unfold addPreset. destruct (own PRESETS p) as [fl|] eqn:E; [|done].
  intros [= <-]. split; [by apply NoDup_foldl_setAdd|].
  apply Forall_foldl_setAdd; [done|]. by eapply own_PRESETS_known.
Qed.

(** What [resolve] returns and leaves behind, in every case. *)
Lemma resolve_run s :
  (exists set, activeFlags s = Some set /\ resolve trim inherited s = (Normal set, s))
  \/ (activeFlags s = None
       /\ ((exists err, resolve trim inherited s = (Throw err, s))
           \/ (exists set, resolve trim inherited s = (Normal set, cache set s)
                /\ (Forall (known inherited) (configFlags s) ->
                    NoDup set /\ Forall (known inherited) set)))).
Proof.
  unfold resolve. destruct (activeFlags s) as [cached|] eqn:Ec; [left; eauto|].
  right. split; [done|]. cbv zeta.
  destruct (if truthyString (configPreset s) then _ else _) as [one|err] eqn:E1;
    [|left; eauto].
  destruct (if truthyString (trim <$> SUPERPACK_PRESET s) && _ then _ else _)
    as [three|err] eqn:E3; [|left; eauto].
  right. eexists. split; [done|]. intros Hconfig.
  assert (NoDup one /\ Forall (known inherited) one) as [Hnd1 Hk1].
  { destruct (truthyString (configPreset s)).
    - eapply addPreset_known; [| |done]; constructor.
    - injection E1 as <-. split; constructor. }
  assert (NoDup three /\ Forall (known inherited) three) as [Hnd3 Hk3].
  { destruct (truthyString (trim <$> SUPERPACK_PRESET s) && _).
    - eapply addPreset_known; [| |done];
        [by apply NoDup_foldl_setAdd | by apply Forall_foldl_setAdd].
    - injection E3 as <-.
      split; [by apply NoDup_foldl_setAdd | by apply Forall_foldl_setAdd]. }
  destruct (truthyString (trim <$> SUPERPACK_FLAGS s)); [|done].
  rewrite (envFlags_loop _ three).
  split; [by apply NoDup_foldl_setAdd|]. apply Forall_foldl_setAdd; [done|].
  apply Forall_forall. intros x Hx. apply list_elem_of_In in Hx.
  apply filter_In in Hx. apply Hx.
Qed.

Lemma resolve_wellFormed s :
  wellFormed inherited s -> wellFormed inherited (snd (resolve trim inherited s)).
Proof.
  intros [Hconfig Hcache].
  destruct (resolve_run s) as [(set & _ & ->)|(_ & [(err & ->)|(set & -> & Hset)])];
    simpl; try done.
  split; [done|]. intros ? [= <-]. by apply Hset.
Qed.

Lemma act_wellFormed a s : wellFormed inherited s -> wellFormed inherited (act trim inherited a s).
Proof.
  intros Hwf. destruct a as [flags preset|name| | |preset flags]; simpl.
  - split; [|done]. simpl. apply Forall_forall. intros x Hx.
    apply list_elem_of_In, filter_In in Hx. apply Hx.
  - unfold flag. pose proof (resolve_wellFormed s Hwf) as H.
    by destruct (resolve trim inherited s) as [[set|err] s'].
  - by apply resolve_wellFormed.
  - destruct Hwf. by split.
  - done.
Qed.

Lemma run_wellFormed actions s :
  wellFormed inherited s -> wellFormed inherited (run trim inherited actions s).
Proof.
  revert s. induction actions as [|a actions IH]; intros s Hwf; simpl; [done|].
  by apply IH, act_wellFormed.
Qed.

(** X8. With nothing cached and every consulted preset defined by
    [PRESETS], [flag] returns without throwing and stores in the cache the
    set it resolved: without duplicates, exactly the names that one of
    the four sources gives (the configured preset, the configured flags,
    the preset of [SUPERPACK_PRESET], and the trimmed entries of
    [SUPERPACK_FLAGS] that pass the [in FLAGS] test), in that order.  It
    answers true exactly for those names.  The sources only add to each
    other. *)
Theorem flag_is_on_iff_a_source_names_it s name :
  activeFlags s = None -> presetsDefined trim inherited s ->
  exists b,
    flag trim inherited name s = (Normal b, cache (resolved trim inherited s) s)
    /\ NoDup (resolved trim inherited s)
    /\ (forall x,
          x ∈ resolved trim inherited s <->
          x ∈ fromConfigPreset s \/ x ∈ configFlags s
          \/ x ∈ fromEnvPreset trim s \/ x ∈ fromEnvFlags trim inherited s)
    /\ (b = true <-> name ∈ resolved trim inherited s)
    /\ (b = true <->
        name ∈ fromConfigPreset s \/ name ∈ configFlags s
        \/ name ∈ fromEnvPreset trim s \/ name ∈ fromEnvFlags trim inherited s).
Proof.
  intros Hnone Hdef. pose proof (resolve_uncached s Hnone Hdef) as Hres.
  cbv zeta in Hres. fold (resolved trim inherited s) in Hres.
  assert (Hmem : forall x,
            x ∈ resolved trim inherited s <->
            x ∈ fromConfigPreset s \/ x ∈ configFlags s
            \/ x ∈ fromEnvPreset trim s \/ x ∈ fromEnvFlags trim inherited s).
  { intros x. unfold resolved.
    rewrite !elem_of_foldl_setAdd, elem_of_nil. tauto. }
  eexists. unfold flag. rewrite Hres. split_and!; [done| |exact Hmem| |].
  - unfold resolved. repeat apply NoDup_foldl_setAdd. constructor.
  - apply includes_elem_of.
  - rewrite includes_elem_of. apply Hmem.
Qed.

(** X9. Once a call of [flag] has returned, the answers are fixed: a later
    change of the environment variables changes no answer of [flag] (the
    cached set is used until [resetFlags] or [setConfigFlags] clears it). *)
Theorem cached_answers_ignore_the_environment s name b s' :
  flag trim inherited name s = (Normal b, s') ->
  forall preset flags name',
  exists b',
    flag trim inherited name' s' = (Normal b', s')
    /\ flag trim inherited name' (setEnv preset flags s')
       = (Normal b', setEnv preset flags s').
Proof.
  unfold flag. intros Hflag preset flags name'.
  assert (exists set, activeFlags s' = Some set) as [set Hset].
  { destruct (resolve_run s) as [(set & Hc & E)|(_ & [(err & E)|(set & E & _)])];
      rewrite E in Hflag; [| done |]; injection Hflag as _ <-; eauto. }
  exists (includes name' set). unfold resolve. simpl. by rewrite Hset.
Qed.

(** X10. From the module as loaded, after any sequence of calls of its
    functions and changes of the environment, the list that [activeFlags_]
    returns has no duplicates and holds only names that pass the [in FLAGS]
    test; where objects inherit no property names, these are names of
    [ALL_FLAG_NAMES], at most fourteen. *)
Theorem active_flags_are_distinct_known_names actions preset flags l s' :
  activeFlags_ trim inherited (run trim inherited actions (initial preset flags))
  = (Normal l, s') ->
  NoDup l /\ Forall (known inherited) l
  /\ ((forall key, inherited key = false) -> l ⊆ ALL_FLAG_NAMES /\ length l <= 14).
Proof.
  intros Hactive.
  assert (wellFormed inherited (run trim inherited actions (initial preset flags)))
    as Hwf by (by apply run_wellFormed).
  set (s := run trim inherited actions (initial preset flags)) in *.
  assert (NoDup l /\ Forall (known inherited) l) as [Hnd Hk].
  { unfold activeFlags_ in Hactive. destruct Hwf as [Hconfig Hcache].
    destruct (resolve_run s) as [(set & Hc & E)|(_ & [(err & E)|(set & E & Hset)])];
      rewrite E in Hactive; [| done |]; injection Hactive as <- _; eauto. }
  split_and!; [done..|]. intros Hnone.
  assert (l ⊆ ALL_FLAG_NAMES) as Hsub.
  { intros x Hx. rewrite Forall_forall in Hk. specialize (Hk x Hx).
    unfold known, hasProperty in Hk.
    destruct (own FLAGS x) eqn:E; [by eapply own_Some_elem | congruence]. }
  split; [done|].
  change 14 with (length ALL_FLAG_NAMES). by apply submseteq_length, NoDup_submseteq.
Qed.

(** X11. A preset name that [PRESETS] does not define but that objects
    inherit (such as [toString]) passes the [in PRESETS] test: after
    [setConfigFlags] with it, and likewise with it in [SUPERPACK_PRESET],
    every call of [flag] throws a TypeError and leaves the state as it was,
    so the next call throws again. *)
Theorem inherited_preset_name_makes_flag_throw p name :
  inherited p = true -> own PRESETS p = None -> p <> "" ->
  (forall flags s,
      let s' := setConfigFlags inherited flags (Some p) s in
      flag trim inherited name s' = (Throw "TypeError", s'))
  /\ (forall v flags,
        trim v = p ->
        let s := initial (Some v) flags in
        flag trim inherited name s = (Throw "TypeError", s)).
Proof.
  intros Hin Hown Hne.
  assert (String.eqb p "" = false) as Hp.
  { destruct (String.eqb p "") eqn:E; [|done]. by apply String.eqb_eq in E. }
  split.
  - intros flags s. unfold flag, resolve, setConfigFlags, hasProperty, addPreset.
    simpl. by rewrite Hp, Hown, Hin; simpl; rewrite Hp, Hown.
  - intros v flags <-. unfold flag, resolve, initial, hasProperty, addPreset.
    simpl. by rewrite Hp, Hown, Hin.
Qed.


End FlagsProperties.

(** * Properties of the system prompt *)

Section SystemPromptProperties.

Import SystemPrompt.

Context (trim toLowerCase : string -> string)
        (emptyObject : string -> option string)
        (inherited : string -> bool).

Implicit Types (params : Params) (env : Env) (lines : list (option string)).

Lemma elem_own {V} (obj : list (string * V)) key :
  key ∈ map fst obj -> is_Some (Flags.own obj key).
Proof.
  induction obj as [|[k w] obj IH]; simpl.
  - intros H. by apply elem_of_nil in H.
  - intros H. destruct (String.eqb key k) eqn:E; [eauto|].
    apply elem_of_cons in H as [->|H]; [by rewrite String.eqb_refl in E | by apply IH].
Qed.

(** X12. The prompt builder's own flag check never says more than the
    flags module: when it is true for a name of [ALL_FLAG_NAMES], [flag]
    answers true in a process with the same environment, whatever is
    configured. *)
Theorem inline_flag_check_implies_flag (s : Flags.State) name :
  superpackFlag trim (envOf s) name = true ->
  name ∈ Flags.ALL_FLAG_NAMES ->
  Flags.activeFlags s = None -> Flags.presetsDefined trim inherited s ->
  exists set, Flags.flag trim inherited name s = (Normal true, Flags.cache set s).
Proof.
  intros Hinline Hname Hnone Hdef.
  pose proof (resolve_uncached trim inherited s Hnone Hdef) as Hres.
  cbv zeta in Hres. eexists. unfold Flags.flag. rewrite Hres. clear Hres Hdef Hnone.
  do 2 f_equal. apply includes_elem_of.
  rewrite !elem_of_foldl_setAdd.
  unfold superpackFlag, envOf in Hinline. cbn [SUPERPACK_FLAGS SUPERPACK_PRESET] in Hinline.
  destruct (truthyString (trim <$> Flags.SUPERPACK_FLAGS s) && _) eqn:E1.
  - right. apply andb_true_iff in E1 as [Ht Hi]. unfold Flags.fromEnvFlags.
    destruct (Flags.SUPERPACK_FLAGS s) as [v|]; simpl in *; [|done].
    destruct (String.eqb (trim v) ""); [done|].
    apply list_elem_of_In, filter_In. split.
    + by apply list_elem_of_In, includes_elem_of.
    + unfold Flags.hasProperty. by destruct (elem_own Flags.FLAGS name Hname) as [? ->].
  - left. right. unfold Flags.fromEnvPreset.
    destruct (Flags.SUPERPACK_PRESET s) as [v|]; [|done].
    unfold equals in Hinline. cbn [fmap option_fmap option_map mbind option_bind].
    destruct (String.eqb (trim v) "debug_all") eqn:Eall.
    + apply String.eqb_eq in Eall. by rewrite Eall.
    + cbn [fmap option_fmap option_map] in Hinline. rewrite Eall in Hinline.
      destruct (String.eqb (trim v) "debug_prompts") eqn:Ep; [|done].
      apply String.eqb_eq in Ep. rewrite Ep. by apply includes_elem_of.
Qed.















(** X13. The runtime line is [Runtime: ] followed by at most eleven
    segments joined by [ | ]: none of them is empty, and the last one is
    always [thinking=] with the think level, or [off] without one. *)
Theorem runtime_line_shape info runtimeChannel runtimeCapabilities level :
  exists parts,
    buildRuntimeLine info runtimeChannel runtimeCapabilities level
    = "Runtime: "
      +:+ String.concat " | " (parts ++ ["thinking=" +:+ default "off" level])
    /\ Forall (fun part => part <> "") parts
    /\ length parts <= 10.
Proof.
  unfold buildRuntimeLine. cbv zeta.
  match goal with
  | |- context [List.filter ?f (?a1 :: ?a2 :: ?a3 :: ?a4 :: ?a5 :: ?a6 :: ?a7
                                  :: ?a8 :: ?a9 :: ?a10 :: [?t])] =>
      pose (front := [a1; a2; a3; a4; a5; a6; a7; a8; a9; a10]);
      change (a1 :: a2 :: a3 :: a4 :: a5 :: a6 :: a7 :: a8 :: a9 :: a10 :: [t])
        with (front ++ [t]);
      exists (List.filter f front)
  end.
  rewrite List.filter_app. split_and!.
  - done.
  - apply Forall_forall. intros x Hx.
    apply list_elem_of_In, filter_In in Hx as [_ Hx]. by intros ->.
  - etrans; [apply filter_length_le|]. done.
Qed.

(** The diagnostics never change what is built: the returned prompt
    is the same under every environment.  In mode [none] it is the fixed
    sentence and nothing is logged; in the other modes, with
    [dump_system_prompt] on, the last diagnostic is a dump of exactly the
    returned prompt. *)
Lemma diagnostics_do_not_change_the_prompt env env' params :
  fst (buildAgentSystemPrompt trim toLowerCase emptyObject env params)
  = fst (buildAgentSystemPrompt trim toLowerCase emptyObject env' params)
  /\ (promptMode params = Some none ->
      buildAgentSystemPrompt trim toLowerCase emptyObject env params
      = ("You are a personal assistant running inside OpenClaw.", []))
  /\ (promptMode params <> Some none ->
      superpackFlag trim env "dump_system_prompt" = true ->
      exists earlier title,
        snd (buildAgentSystemPrompt trim toLowerCase emptyObject env params)
        = earlier
          ++ [ DiagDump "prompt" title
                 (fst (buildAgentSystemPrompt trim toLowerCase emptyObject env params)) ]).
Proof.
  unfold buildAgentSystemPrompt. cbv zeta. split_and!.
  - by destruct (default full (promptMode params)).
  - by intros ->.
  - intros Hmode Hdump. rewrite Hdump.
    destruct (promptMode params) as [[]|]; [| |done|]; cbn [default fst snd]; eauto.
Qed.


End SystemPromptProperties.

(** * The further properties on the samples *)

Lemma hasHooks_iff_a_handler_is_registered_witness :
  arrays Sample.store !! 0 = Some Sample.registrations
  /\ exists b,
       hasHooks 0 system_prompt_footer Sample.store = (Normal b, Sample.store)
       /\ (b = true <->
           exists r, r ∈ Sample.registrations /\ hookName r = system_prompt_footer)
       /\ (b = true <-> hooksFor system_prompt_footer Sample.registrations <> []).
Proof.
  split; [reflexivity|].
  exact (hasHooks_iff_a_handler_is_registered 0 system_prompt_footer Sample.store
           Sample.registrations eq_refl).
Defined.

Lemma only_handlers_of_the_hook_are_called_witness :
  arrays Sample.store !! 0 = Some Sample.registrations
  /\ Forall (fun c => callee c ∈ Sample.registrations
                      /\ hookName (callee c) = system_prompt_footer)
       (newCalls Sample.store (snd (runSystemPromptFooter 0 2 Sample.store))).
Proof.
  split; [reflexivity|].
  destruct (only_handlers_of_the_hook_are_called 0 2 [] Sample.store
              Sample.registrations eq_refl)
    as (_ & _ & Hfooter & _).
  exact (Hfooter Sample.footerEvent eq_refl).
Defined.

Lemma footer_and_validate_touch_only_the_event_witness :
  arrays Sample.store !! 0 = Some Sample.registrations
  /\ length (objects (snd (runSubagentPromptValidate 0 5 Sample.store))) = 6
  /\ forall l, l <> 5 ->
       objects (snd (runSubagentPromptValidate 0 5 Sample.store)) !! l
       = objects Sample.store !! l.
Proof.
  split; [reflexivity|].
  destruct (footer_and_validate_touch_only_the_event 0 5 Sample.store
              Sample.registrations eq_refl)
    as (_ & Hvalidate).
  exact (Hvalidate Sample.validateEvent eq_refl).
Defined.

Lemma read_only_handlers_see_the_original_event_witness :
  arrays Sample.store !! 0 = Some Sample.registrations
  /\ Forall readOnly (matching system_prompt_footer Sample.registrations)
  /\ Forall (fun c => argRef c = 2 /\ argAtCall c = FooterEvent Sample.footerEvent)
       (newCalls Sample.store (snd (runSystemPromptFooter 0 2 Sample.store)))
  /\ objects (snd (runSystemPromptFooter 0 2 Sample.store)) = objects Sample.store.
Proof.
  assert (Forall readOnly (matching system_prompt_footer Sample.registrations))
    as Hreadonly by (repeat constructor; intros o w; reflexivity).
  split; [reflexivity|]. split; [exact Hreadonly|].
  destruct (read_only_handlers_see_the_original_event 0 2 Sample.store
              Sample.registrations eq_refl)
    as (Hfooter & _).
  exact (Hfooter Sample.footerEvent eq_refl Hreadonly).
Defined.

Lemma registrations_in_priority_order_keep_their_order_witness :
  arrays Sample.store !! 0 = Some Sample.registrations
  /\ descending (matching workspace_bootstrap_after Sample.registrations)
  /\ exists copy s',
       getHooks 0 workspace_bootstrap_after Sample.store = (Normal copy, s')
       /\ arrays s' !! copy
          = Some [ mkRegistration workspace_bootstrap_after (Sample.notify "A" true)
                     (Some 0%Z);
                   mkRegistration workspace_bootstrap_after (Sample.notify "B" false)
                     (Some 0%Z) ].
Proof.
  assert (descending (matching workspace_bootstrap_after Sample.registrations))
    as Hdescending.
  { apply StronglySorted_descending.
    repeat (constructor; try (by vm_compute)). }
  split; [reflexivity|]. split; [exact Hdescending|].
  exact (registrations_in_priority_order_keep_their_order 0 workspace_bootstrap_after
           Sample.store Sample.registrations eq_refl Hdescending).
Defined.

Lemma results_without_the_field_are_ignored_witness :
  arrays Sample.store !! 1 = Some Sample.faulty
  /\ exists res s',
       runSystemPromptToolsFilter 1 0 Sample.store = (Normal res, s')
       /\ (Forall (lacks HandlerResult.tools) (newCalls Sample.store s') ->
           SystemPromptToolsFilterResult.tools res = 0
           /\ (Forall sparesArrays (newCalls Sample.store s') ->
               toolArrays (memory s') !! SystemPromptToolsFilterResult.tools res
               = Some Sample.tools)).
Proof.
  split; [reflexivity|].
  destruct (results_without_the_field_are_ignored 1 0 Sample.store Sample.faulty
              eq_refl)
    as (Htools & _).
  destruct (Htools Sample.toolsEvent eq_refl) as (res & s' & Hrun & Hres).
  exists res, s'. split; [exact Hrun|]. intros Hlacks.
  destruct (Hres Hlacks) as [Href Hlist]. split; [exact Href|].
  intros Hspare. exact (Hlist Hspare Sample.tools eq_refl).
Defined.

Lemma immediate_handlers_make_the_schedule_irrelevant_witness :
  arrays Sample.store !! 1 = Some Sample.faulty
  /\ Forall immediate (matching workspace_bootstrap_after Sample.faulty)
  /\ runWorkspaceBootstrapAfter 1 4 [] Sample.store
     = runWorkspaceBootstrapAfter 1 4 [0; 0; 1] Sample.store.
Proof.
  assert (Forall immediate (matching workspace_bootstrap_after Sample.faulty))
    as Himmediate by (repeat constructor).
  split; [reflexivity|]. split; [exact Himmediate|].
  exact (immediate_handlers_make_the_schedule_irrelevant 1 4 Sample.store
           Sample.faulty [] [0; 0; 1] eq_refl Himmediate).
Defined.

Lemma flag_is_on_iff_a_source_names_it_witness :
  let s := Host.setConfigFlags (Some ["dump_hook_timing"; "unknown"]) (Some "debug_llm")
             (Flags.initial (Some " debug_hooks ") (Some "dump_system_prompt, nothing")) in
  let set := [ "dump_llm_payload"; "dump_llm_response"; "dump_hook_timing";
               "dump_hook_events"; "dump_system_prompt" ] in
  Flags.activeFlags s = None
  /\ Flags.presetsDefined Host.trim Host.inherited s
  /\ Flags.resolved Host.trim Host.inherited s = set
  /\ exists b,
       Host.flag "dump_hook_events" s = (Normal b, Flags.cache set s)
       /\ (b = true <-> "dump_hook_events" ∈ set).
Proof.
  intros s set.
  assert (Flags.presetsDefined Host.trim Host.inherited s) as Hdefined.
  { split.
    - intros p [= <-] _. by eexists.
    - intros v [= <-] _. right. by eexists. }
  split; [reflexivity|]. split; [exact Hdefined|]. split; [by vm_compute|].
  destruct (flag_is_on_iff_a_source_names_it Host.trim Host.inherited s
              "dump_hook_events" eq_refl Hdefined)
    as (b & Hflag & _ & _ & Hb & _).
  exists b. split; [exact Hflag|exact Hb].
Defined.

Lemma cached_answers_ignore_the_environment_witness :
  let s := Flags.initial None (Some "dump_tool_calls") in
  let s' := Flags.cache ["dump_tool_calls"] s in
  Host.flag "dump_tool_calls" s = (Normal true, s')
  /\ exists b',
       Host.flag "dump_llm_payload" s' = (Normal b', s')
       /\ Host.flag "dump_llm_payload" (Flags.setEnv (Some "debug_llm") None s')
          = (Normal b', Flags.setEnv (Some "debug_llm") None s').
Proof.
  intros s s'.
  assert (Host.flag "dump_tool_calls" s = (Normal true, s')) as Hflag
    by (vm_compute; reflexivity).
  split; [exact Hflag|].
  exact (cached_answers_ignore_the_environment Host.trim Host.inherited s
           "dump_tool_calls" true s' Hflag (Some "debug_llm") None "dump_llm_payload").
Defined.

Lemma active_flags_are_distinct_known_names_witness :
  let actions :=
    [ Flags.SetConfigFlags (Some ["dump_hook_timing"; "unknown"]) (Some "debug_llm");
      Flags.Flag "dump_llm_payload";
      Flags.SetEnv (Some "debug_hooks") (Some "toString, dump_llm_payload");
      Flags.ResetFlags ] in
  let l := [ "dump_llm_payload"; "dump_llm_response"; "dump_hook_timing";
             "dump_hook_events"; "toString" ] in
  let s := Host.run actions (Flags.initial None None) in
  Host.activeFlags_ s = (Normal l, Flags.cache l s)
  /\ NoDup l /\ Forall (Flags.known Host.inherited) l.
Proof.
  intros actions l s.
  assert (Host.activeFlags_ s = (Normal l, Flags.cache l s)) as Hactive
    by (vm_compute; reflexivity).
  split; [exact Hactive|].
  destruct (active_flags_are_distinct_known_names Host.trim Host.inherited actions
              None None l (Flags.cache l s) Hactive)
    as (Hnodup & Hknown & _).
  by split.
Defined.

Lemma inherited_preset_name_makes_flag_throw_witness :
  Host.inherited "toString" = true
  /\ Flags.own Flags.PRESETS "toString" = None
  /\ "toString" <> ""
  /\ (let s := Host.setConfigFlags None (Some "toString") (Flags.initial None None) in
      Host.flag "dump_system_prompt" s = (Throw "TypeError", s))
  /\ (let s := Flags.initial (Some " toString") None in
      Host.flag "dump_system_prompt" s = (Throw "TypeError", s)).
Proof.
  destruct (inherited_preset_name_makes_flag_throw Host.trim Host.inherited "toString"
              "dump_system_prompt" eq_refl eq_refl ltac:(discriminate))
    as (Hconfig & Henv).
  split_and!; [reflexivity | reflexivity | discriminate | |].
  - exact (Hconfig None (Flags.initial None None)).
  - exact (Henv " toString" None eq_refl).
Defined.

Lemma inline_flag_check_implies_flag_witness :
  let s := Flags.initial (Some "debug_prompts") (Some "dump_tool_calls ,x") in
  HostText.superpackFlag (SystemPrompt.envOf s) "dump_tool_calls" = true
  /\ "dump_tool_calls" ∈ Flags.ALL_FLAG_NAMES
  /\ Flags.activeFlags s = None
  /\ Flags.presetsDefined Host.trim Host.inherited s
  /\ exists set, Host.flag "dump_tool_calls" s = (Normal true, Flags.cache set s).
Proof.
  intros s.
  assert ("dump_tool_calls" ∈ Flags.ALL_FLAG_NAMES) as Hname
    by (apply list_elem_of_In; simpl; tauto).
  assert (Flags.presetsDefined Host.trim Host.inherited s) as Hdefined.
  { split.
    - intros p [=].
    - intros v [= <-] _. right. by eexists. }
  split_and!; [reflexivity | exact Hname | reflexivity | exact Hdefined |].
  exact (inline_flag_check_implies_flag Host.trim Host.inherited s "dump_tool_calls"
           eq_refl Hname eq_refl Hdefined).
Defined.


(** The prompt builder's own check knows two presets only: under
    [debug_tools] the flags module has [dump_tool_resolution] on while the
    builder logs no tool resolution. *)
Example inline_flag_check_misses_other_presets :
  let s := Flags.initial (Some "debug_tools") None in
  fst (Host.flag "dump_tool_resolution" s) = Normal true
  /\ HostText.superpackFlag (SystemPrompt.envOf s) "dump_tool_resolution" = false.
Proof. by vm_compute. Qed.

(** After [resetFlags] the environment is read again. *)
Example reset_reads_the_environment_again :
  let s := snd (Host.flag "dump_llm_payload" (Flags.initial None None)) in
  let s' := Flags.setEnv (Some "debug_llm") None s in
  fst (Host.flag "dump_llm_payload" s') = Normal false
  /\ fst (Host.flag "dump_llm_payload" (Flags.resetFlags s')) = Normal true.
Proof. by vm_compute. Qed.

(** The cases of the flags test: a comma-separated list with blanks, a
    preset, names that are no flags, and preset and list together. *)
Example flags_from_the_environment :
  fst (Host.activeFlags_
         (Flags.initial None (Some "dump_system_prompt, dump_tool_resolution")))
  = Normal ["dump_system_prompt"; "dump_tool_resolution"]
  /\ fst (Host.activeFlags_ (Flags.initial (Some "debug_workspace") None))
     = Normal ["dump_bootstrap_files"; "dump_sandbox_copy"; "dump_template_writes"]
  /\ fst (Host.activeFlags_
            (Flags.initial None (Some "dump_system_prompt,not_a_real_flag,dump_tool_calls")))
     = Normal ["dump_system_prompt"; "dump_tool_calls"]
  /\ fst (Host.activeFlags_
            (Flags.initial (Some "debug_hooks") (Some "dump_system_prompt")))
     = Normal ["dump_hook_events"; "dump_hook_timing"; "dump_system_prompt"].
Proof. by vm_compute. Qed.
